(** * Space Habitat Layout Creator: geometry and validation engine

    A shallow embedding of [src/utils/geometry.ts] (class [HabitatGeometry]),
    [src/utils/validation.ts] (class [HabitatValidator]), the tables of
    [src/constants/nasa-standards.ts] and the types of [src/types/habitat.ts].

    Numbers.  A JavaScript [number] is modelled as a real number: the finite
    values, without rounding, overflow or underflow.  The two places where the
    source leaves the finite numbers (a division by zero, and [Math.sqrt] or
    [Math.pow(_, 1/3)] of a negative number) end the modelled run with the
    outcome [NotFinite]: the source goes on with [NaN] or an infinity there,
    and the model makes no statement about such a run.  The statements keep
    to the comparisons the source makes and to values written as the source
    computes them, operation by operation in its order.

    [Math.pow(x, 1/3)] of a positive [x] is not computed: ECMAScript leaves
    its value to the implementation, which approximates the cube root, so it
    is a function that the runtime provides ([MathRuntime]), and what is
    proved holds for every runtime.

    Optional fields are [option R]; [undefined] is [None].  The truthiness
    test of JavaScript on such a field ([x || d], [x ? a : b], [!x]) is
    [truthy]: [undefined] and [0] are falsy.

    Text.  A template literal is kept as the list of its parts, with the
    numeric holes unrendered ([toFixed] is not evaluated).

    The store.  The design actions of [src/stores/habitatStore.ts] are
    actions on an explicit state that end normally or by an exception; the
    status of [src/components/panels/EnhancedValidationPanel.tsx] is a
    function of the stored score. *)

From Stdlib Require Import Reals Lra Psatz Lia List String Ascii Bool Arith.
From Stdlib Require Import Permutation.
Import ListNotations.
Open Scope string_scope.
Open Scope list_scope.
Open Scope R_scope.

(** ** Numbers and optional fields *)

Definition ltb (x y : R) : bool := if Rlt_dec x y then true else false.
Definition leb (x y : R) : bool := if Rle_dec x y then true else false.
Definition gtb (x y : R) : bool := ltb y x.
Definition geb (x y : R) : bool := leb y x.

(** The value of an optional numeric field when it is truthy. *)
Definition truthy (o : option R) : option R :=
  match o with
  | Some x => if Req_dec_T x 0 then None else Some x
  | None => None
  end.

(** [o || d] *)
Definition or_else (o : option R) (d : R) : R :=
  match truthy o with
  | Some x => x
  | None => d
  end.

(** [!o] *)
Definition falsy (o : option R) : bool :=
  match truthy o with
  | Some _ => false
  | None => true
  end.

(** [Math.pow(x, n)] for the literal exponents 2 and 3 of the source. *)
Definition Math_pow (x : R) (n : nat) : R := x ^ n.

(** ** Shapes, errors and outcomes *)

Inductive HabitatShape : Type :=
| CYLINDER | SPHERE | TORUS | DOME | INFLATABLE | MODULAR | CUSTOM.

(** The value of the enum, as interpolated in messages. *)
Definition HabitatShape_value (s : HabitatShape) : string :=
  match s with
  | CYLINDER => "cylinder"
  | SPHERE => "sphere"
  | TORUS => "torus"
  | DOME => "dome"
  | INFLATABLE => "inflatable"
  | MODULAR => "modular"
  | CUSTOM => "custom"
  end.

(** The source throws [new Error(message)] at three kinds of places; the
    constructor records which, with the message or the interpolated shape:
    - [InvalidDimensions m]: ['... requires ...'] (a dimension check failed);
    - [UnsupportedShape s]: [`Unsupported habitat shape: ${s}`];
    - [NotImplemented s]: [`Recommended dimensions not implemented for ${s}`]. *)
Inductive Error : Type :=
| InvalidDimensions (message : string)
| UnsupportedShape (s : HabitatShape)
| NotImplemented (s : HabitatShape).

Inductive Result (A : Type) : Type :=
| Ok (a : A)
| Throw (e : Error)
| NotFinite.
Arguments Ok {A} a.
Arguments Throw {A} e.
Arguments NotFinite {A}.

Definition bind {A B : Type} (m : Result A) (k : A -> Result B) : Result B :=
  match m with
  | Ok a => k a
  | Throw e => Throw e
  | NotFinite => NotFinite
  end.

Notation "x <- m ;; k" := (bind m (fun x => k))
  (at level 61, m at next level, right associativity).

(** [x / y]; the source yields [NaN] or an infinity when [y] is zero. *)
Definition div (x y : R) : Result R :=
  if Req_dec_T y 0 then NotFinite else Ok (x / y).

(** [Math.sqrt(x)]; [NaN] in the source when [x] is negative. *)
Definition Math_sqrt (x : R) : Result R :=
  if ltb x 0 then NotFinite else Ok (sqrt x).

(** What the runtime provides for [Math.pow(x, 1 / 3)] on a positive [x].
    ECMAScript asks for an implementation-approximated value of the power,
    with no bound on the approximation: on V8, [Math.pow(1000, 1 / 3)] is
    [9.999999999999998].  The result on a positive number is positive. *)
Class MathRuntime : Type := {
  pow_third : R -> R;
  pow_third_positive : forall x, 0 < x -> 0 < pow_third x
}.

(** [Math.pow(x, 1 / 3)]: the value of the runtime on a positive number,
    [0] at [0] and [NaN] when [x] is negative, as ECMAScript fixes them. *)
Definition Math_pow_third {runtime : MathRuntime} (x : R) : Result R :=
  if ltb 0 x then Ok (pow_third x)
  else if Req_dec_T x 0 then Ok 0
  else NotFinite.

(** ** [HabitatDimensions] (types/habitat.ts) *)

Module HabitatDimensions.
Record t : Type := mk {
  shape : HabitatShape;
  radius : option R;
  height : option R;
  sphereRadius : option R;
  majorRadius : option R;
  minorRadius : option R;
  domeRadius : option R;
  domeHeight : option R;
  length : option R;
  width : option R;
  depth : option R;
  inflatedRadius : option R;
  inflatedHeight : option R
}.

(** An object literal [{ shape }] with every other field left out. *)
Definition only (s : HabitatShape) : t :=
  mk s None None None None None None None None None None None None.
End HabitatDimensions.

(** ** Text with holes *)

(** One part of a template literal: literal text, a number interpolated as
    it is ([${x}]), or a number rendered by [x.toFixed(digits)]. *)
Inductive Part : Type :=
| Str (s : string)
| Num (x : R)
| Fixed (x : R) (digits : nat).

Definition Template : Type := list Part.

(** The object returned by [checkLaunchConstraints]. *)
Module UtilizationFactors.
Record t : Type := mk { diameter : R; height : R; mass : R }.
End UtilizationFactors.

Module LaunchConstraints.
Record t : Type := mk {
  fits : bool;
  violations : list Template;
  utilizationFactors : UtilizationFactors.t
}.
End LaunchConstraints.

(** The object returned by [calculateMomentOfInertia]. *)
Module Inertia.
Record t : Type := mk { Ixx : R; Iyy : R; Izz : R }.
End Inertia.

Module HabitatGeometry.
Import HabitatDimensions.

(** [HabitatGeometry.calculateVolume] *)
Definition calculateVolume (dimensions : HabitatDimensions.t) : Result R :=
  match dimensions.(shape) with
  | CYLINDER =>
      let radius := or_else dimensions.(radius) 4.0 in
      let height := or_else dimensions.(height) 12.0 in
      if leb radius 0 || leb height 0
      then Throw (InvalidDimensions "Cylinder requires positive radius and height values")
      else Ok (PI * Math_pow radius 2 * height)
  | SPHERE =>
      let sphereRadius := or_else dimensions.(sphereRadius) 5.0 in
      if leb sphereRadius 0
      then Throw (InvalidDimensions "Sphere requires positive sphereRadius")
      else Ok ((4 / 3) * PI * Math_pow sphereRadius 3)
  | TORUS =>
      let majorRadius := or_else dimensions.(majorRadius) 8.0 in
      let minorRadius := or_else dimensions.(minorRadius) 3.0 in
      if leb majorRadius 0 || leb minorRadius 0
      then Throw (InvalidDimensions "Torus requires positive majorRadius and minorRadius")
      else Ok (2 * Math_pow PI 2 * majorRadius * Math_pow minorRadius 2)
  | DOME =>
      let domeRadius := or_else dimensions.(domeRadius) 6.0 in
      let domeHeight := or_else dimensions.(domeHeight) 4.0 in
      if leb domeRadius 0 || leb domeHeight 0
      then Throw (InvalidDimensions "Dome requires positive domeRadius and domeHeight")
      else
        let h := domeHeight in
        let r := domeRadius in
        Ok ((PI * h * h * (3 * r - h)) / 3)
  | INFLATABLE =>
      let inflatedRadius := or_else dimensions.(inflatedRadius) 4.0 in
      let inflatedHeight := or_else dimensions.(inflatedHeight) 10.0 in
      if leb inflatedRadius 0 || leb inflatedHeight 0
      then Throw (InvalidDimensions "Inflatable requires positive inflatedRadius and inflatedHeight")
      else Ok (PI * Math_pow inflatedRadius 2 * inflatedHeight)
  | MODULAR =>
      let length := or_else dimensions.(length) 10.0 in
      let width := or_else dimensions.(width) 8.0 in
      let modularHeight := or_else dimensions.(height) 6.0 in
      if leb length 0 || leb width 0 || leb modularHeight 0
      then Throw (InvalidDimensions "Modular requires positive length, width, and height")
      else Ok (length * width * modularHeight)
  | CUSTOM => Throw (UnsupportedShape dimensions.(shape))
  end.

(** [HabitatGeometry.calculateSurfaceArea] *)
Definition calculateSurfaceArea (dimensions : HabitatDimensions.t) : Result R :=
  match dimensions.(shape) with
  | CYLINDER =>
      if falsy dimensions.(radius) || falsy dimensions.(height)
      then Throw (InvalidDimensions "Cylinder requires radius and height")
      else
        let cylR := or_else dimensions.(radius) 0 in
        let cylH := or_else dimensions.(height) 0 in
        Ok (2 * PI * cylR * (cylR + cylH))
  | SPHERE =>
      if falsy dimensions.(sphereRadius)
      then Throw (InvalidDimensions "Sphere requires sphereRadius")
      else Ok (4 * PI * Math_pow (or_else dimensions.(sphereRadius) 0) 2)
  | TORUS =>
      if falsy dimensions.(majorRadius) || falsy dimensions.(minorRadius)
      then Throw (InvalidDimensions "Torus requires majorRadius and minorRadius")
      else Ok (4 * Math_pow PI 2 * or_else dimensions.(majorRadius) 0
                 * or_else dimensions.(minorRadius) 0)
  | DOME =>
      if falsy dimensions.(domeRadius) || falsy dimensions.(domeHeight)
      then Throw (InvalidDimensions "Dome requires domeRadius and domeHeight")
      else
        let domeH := or_else dimensions.(domeHeight) 0 in
        let domeR := or_else dimensions.(domeRadius) 0 in
        baseRadius <- Math_sqrt (2 * domeR * domeH - domeH * domeH) ;;
        Ok (2 * PI * domeR * domeH + PI * baseRadius * baseRadius)
  | INFLATABLE =>
      if falsy dimensions.(inflatedRadius) || falsy dimensions.(inflatedHeight)
      then Throw (InvalidDimensions "Inflatable requires inflatedRadius and inflatedHeight")
      else
        let ir := or_else dimensions.(inflatedRadius) 0 in
        let ih := or_else dimensions.(inflatedHeight) 0 in
        Ok (2 * PI * ir * (ir + ih))
  | MODULAR =>
      if falsy dimensions.(length) || falsy dimensions.(width) || falsy dimensions.(height)
      then Throw (InvalidDimensions "Modular requires length, width, and height")
      else
        let l := or_else dimensions.(length) 0 in
        let w := or_else dimensions.(width) 0 in
        let hm := or_else dimensions.(height) 0 in
        Ok (2 * (l * w + l * hm + w * hm))
  | CUSTOM => Throw (UnsupportedShape dimensions.(shape))
  end.

(** [HabitatGeometry.getMaxDiameter] *)
Definition getMaxDiameter (dimensions : HabitatDimensions.t) (fairingDiameter : R) : R :=
  match dimensions.(shape) with
  | CYLINDER | INFLATABLE =>
      Rmin (match truthy dimensions.(radius) with
            | Some radius => radius * 2
            | None => fairingDiameter
            end) fairingDiameter
  | SPHERE =>
      Rmin (match truthy dimensions.(sphereRadius) with
            | Some sphereRadius => sphereRadius * 2
            | None => fairingDiameter
            end) fairingDiameter
  | TORUS =>
      Rmin (match truthy dimensions.(majorRadius) with
            | Some majorRadius => majorRadius * 2
            | None => fairingDiameter
            end) fairingDiameter
  | DOME =>
      Rmin (match truthy dimensions.(domeRadius) with
            | Some domeRadius => domeRadius * 2
            | None => fairingDiameter
            end) fairingDiameter
  | MODULAR =>
      let maxDim := Rmax (or_else dimensions.(length) 0) (or_else dimensions.(width) 0) in
      Rmin maxDim fairingDiameter
  | CUSTOM => fairingDiameter
  end.

(** [HabitatGeometry.calculateStructuralMass] *)
Definition calculateStructuralMass
  (dimensions : HabitatDimensions.t) (wallThickness materialDensity : R) : Result R :=
  surfaceArea <- calculateSurfaceArea dimensions ;;
  Ok (surfaceArea * wallThickness * materialDensity).

(** The default arguments [wallThickness = 0.1], [materialDensity = 2700]. *)
Definition calculateStructuralMass_default (dimensions : HabitatDimensions.t) : Result R :=
  calculateStructuralMass dimensions 0.1 2700.

(** [HabitatGeometry.getEffectiveHeight] *)
Definition getEffectiveHeight (dimensions : HabitatDimensions.t) : R :=
  match dimensions.(shape) with
  | CYLINDER | INFLATABLE =>
      or_else dimensions.(height) (or_else dimensions.(inflatedHeight) 0)
  | SPHERE =>
      match truthy dimensions.(sphereRadius) with
      | Some sphereRadius => sphereRadius * 2
      | None => 0
      end
  | TORUS =>
      match truthy dimensions.(minorRadius) with
      | Some minorRadius => minorRadius * 2
      | None => 0
      end
  | DOME => or_else dimensions.(domeHeight) 0
  | MODULAR => or_else dimensions.(height) 0
  | CUSTOM => 0
  end.

(** The three messages pushed by [checkLaunchConstraints]. *)
Definition diameterViolation (maxDiameter fairingDiameter : R) : Template :=
  [Str "Habitat diameter ("; Fixed maxDiameter 2; Str "m) exceeds fairing diameter (";
   Num fairingDiameter; Str "m)"].

Definition heightViolation (habitatHeight fairingHeight : R) : Template :=
  [Str "Habitat height ("; Fixed habitatHeight 2; Str "m) exceeds fairing height (";
   Num fairingHeight; Str "m)"].

Definition massViolation (structuralMass maxMass : R) : Template :=
  [Str "Structural mass ("; Fixed (structuralMass / 1000) 1;
   Str "t) exceeds launch capacity ("; Fixed (maxMass / 1000) 1; Str "t)"].

(** [HabitatGeometry.checkLaunchConstraints] *)
Definition checkLaunchConstraints
  (dimensions : HabitatDimensions.t) (fairingDiameter fairingHeight maxMass : R)
  : Result LaunchConstraints.t :=
  structuralMass <- calculateStructuralMass_default dimensions ;;
  let maxDiameter := getMaxDiameter dimensions fairingDiameter in
  (* Check diameter constraint *)
  diameterUtilization <- div maxDiameter fairingDiameter ;;
  let violations1 :=
    if gtb diameterUtilization 1.0
    then [diameterViolation maxDiameter fairingDiameter] else [] in
  (* Check height constraint *)
  let habitatHeight := getEffectiveHeight dimensions in
  heightUtilization <- div habitatHeight fairingHeight ;;
  let violations2 :=
    if gtb heightUtilization 1.0
    then violations1 ++ [heightViolation habitatHeight fairingHeight]
    else violations1 in
  (* Check mass constraint *)
  massUtilization <- div structuralMass maxMass ;;
  let violations :=
    if gtb massUtilization 1.0
    then violations2 ++ [massViolation structuralMass maxMass]
    else violations2 in
  Ok (LaunchConstraints.mk
        (Nat.eqb (List.length violations) 0)
        violations
        (UtilizationFactors.mk
           (Rmin diameterUtilization 1.0)
           (Rmin heightUtilization 1.0)
           (Rmin massUtilization 1.0))).

(** [HabitatGeometry.generateRecommendedDimensions]; the default value of
    [aspectRatio] is [2.0]. *)
Definition generateRecommendedDimensions {runtime : MathRuntime}
  (shape : HabitatShape) (targetVolume aspectRatio : R) : Result HabitatDimensions.t :=
  match shape with
  | CYLINDER =>
      q <- div targetVolume (2 * PI * aspectRatio) ;;
      cylinderRadius <- Math_pow_third q ;;
      Ok (HabitatDimensions.mk shape
            (Some cylinderRadius) (Some (aspectRatio * 2 * cylinderRadius))
            None None None None None None None None None None)
  | SPHERE =>
      sphereRadius <- Math_pow_third ((3 * targetVolume) / (4 * PI)) ;;
      Ok (HabitatDimensions.mk shape
            None None (Some sphereRadius) None None None None None None None None None)
  | MODULAR =>
      sideLength <- Math_pow_third targetVolume ;;
      Ok (HabitatDimensions.mk shape
            None (Some sideLength) None None None None None
            (Some sideLength) (Some sideLength) None None None)
  | _ => Throw (NotImplemented shape)
  end.

(** [HabitatGeometry.calculateMomentOfInertia] *)
Definition calculateMomentOfInertia {runtime : MathRuntime}
  (dimensions : HabitatDimensions.t) : Result Inertia.t :=
  volume <- calculateVolume dimensions ;;
  let mass := volume * 1000 in
  match dimensions.(shape) with
  | CYLINDER =>
      if falsy dimensions.(radius) || falsy dimensions.(height)
      then Throw (InvalidDimensions "Cylinder requires radius and height")
      else
        let r := or_else dimensions.(radius) 0 in
        let h := or_else dimensions.(height) 0 in
        Ok (Inertia.mk
              ((mass / 12) * (3 * r * r + h * h))
              ((mass / 12) * (3 * r * r + h * h))
              ((mass / 2) * r * r))
  | SPHERE =>
      if falsy dimensions.(sphereRadius)
      then Throw (InvalidDimensions "Sphere requires sphereRadius")
      else
        let sphereI := (2 / 5) * mass * Math_pow (or_else dimensions.(sphereRadius) 0) 2 in
        Ok (Inertia.mk sphereI sphereI sphereI)
  | MODULAR =>
      if falsy dimensions.(length) || falsy dimensions.(width) || falsy dimensions.(height)
      then Throw (InvalidDimensions "Modular requires length, width, and height")
      else
        let l := or_else dimensions.(length) 0 in
        let w := or_else dimensions.(width) 0 in
        let hm := or_else dimensions.(height) 0 in
        Ok (Inertia.mk
              ((mass / 12) * (w * w + hm * hm))
              ((mass / 12) * (l * l + hm * hm))
              ((mass / 12) * (l * l + w * w)))
  | _ =>
      (* Approximate as sphere for other shapes *)
      approxRadius <- Math_pow_third ((3 * volume) / (4 * PI)) ;;
      let approxI := (2 / 5) * mass * Math_pow approxRadius 2 in
      Ok (Inertia.mk approxI approxI approxI)
  end.

End HabitatGeometry.

(** ** Strings *)

(** [toUpperCase] and [toLowerCase] on the letters a-z and A-Z.  The enum
    values and the table keys of the source are ASCII; a string with other
    characters is outside the model.  An upper-cased key has no lower-case
    letter, so it never names a property inherited from [Object.prototype]:
    the lookups below see the tables' own keys only. *)
Definition toUpperCase_ascii (c : ascii) : ascii :=
  let n := nat_of_ascii c in
  if ((97 <=? n) && (n <=? 122))%nat then ascii_of_nat (n - 32) else c.

Definition toLowerCase_ascii (c : ascii) : ascii :=
  let n := nat_of_ascii c in
  if ((65 <=? n) && (n <=? 90))%nat then ascii_of_nat (n + 32) else c.

Fixpoint toUpperCase (s : string) : string :=
  match s with
  | EmptyString => EmptyString
  | String c s' => String (toUpperCase_ascii c) (toUpperCase s')
  end.

Fixpoint toLowerCase (s : string) : string :=
  match s with
  | EmptyString => EmptyString
  | String c s' => String (toLowerCase_ascii c) (toLowerCase s')
  end.

(** [table[key]] on an object literal, kept as the list of its entries in
    source order ([Object.entries]). *)
Fixpoint lookup {A : Type} (key : string) (table : list (string * A)) : option A :=
  match table with
  | [] => None
  | (k, v) :: rest => if String.eqb k key then Some v else lookup key rest
  end.

(** [array.includes(x)] on strings *)
Definition includes (l : list string) (x : string) : bool :=
  existsb (String.eqb x) l.

(** ** The tables of constants/nasa-standards.ts *)

Module NASA_VOLUME_STANDARDS.
Definition NHV_PER_CREW_MINIMUM : R := 25.
Definition NHV_PER_CREW_OPTIMAL : R := 75.
Definition NHV_PER_CREW_LUXURY : R := 150.
Definition SLEEP_VOLUME_PER_CREW : R := 2.5.
Definition HYGIENE_VOLUME_PER_CREW : R := 1.5.
Definition WORK_VOLUME_PER_CREW : R := 8.
Definition EXERCISE_VOLUME_MINIMUM : R := 15.
Definition FOOD_PREP_VOLUME : R := 12.
Definition MEDICAL_VOLUME_MINIMUM : R := 8.
Definition COMMON_AREA_PER_CREW : R := 10.
End NASA_VOLUME_STANDARDS.

(** A range of [MISSION_DURATIONS]; [max = None] is [Infinity]. *)
Module DurationRange.
Record t : Type := mk { min : R; max : option R; label : string }.
End DurationRange.

Definition MISSION_DURATIONS : list (string * DurationRange.t) :=
  [ ("SHORT_TERM", DurationRange.mk 1 (Some 30) "Short-term (≤30 days)");
    ("MEDIUM_TERM", DurationRange.mk 31 (Some 180) "Medium-term (31-180 days)");
    ("LONG_TERM", DurationRange.mk 181 (Some 500) "Long-term (181-500 days)");
    ("EXTENDED", DurationRange.mk 501 (Some 1000) "Extended (501+ days)");
    ("PERMANENT", DurationRange.mk 1001 None "Permanent Settlement") ].

Module Fairing.
Record t : Type := mk {
  diameter : R;
  height : R;
  volume : R;
  mass_limit : R;
  label : string
}.
End Fairing.

Definition PAYLOAD_FAIRINGS : list (string * Fairing.t) :=
  [ ("FALCON_HEAVY", Fairing.mk 5.2 13.1 145 26700 "SpaceX Falcon Heavy");
    ("SLS_BLOCK_1", Fairing.mk 5.0 19.1 374 27000 "NASA SLS Block 1");
    ("SLS_BLOCK_2", Fairing.mk 8.4 19.1 1058 45000 "NASA SLS Block 2 (Future)");
    ("STARSHIP", Fairing.mk 9.0 18.0 1100 150000 "SpaceX Starship") ].

Module CREW_CONSTRAINTS.
Definition MIN_CREW : R := 2.
Definition OPTIMAL_CREW : R := 4.
Definition MAX_CREW_SMALL : R := 6.
Definition MAX_CREW_LARGE : R := 12.
Definition ISOLATION_FACTOR : R := 1.5.
End CREW_CONSTRAINTS.

Module ModuleConfig.
Record t : Type := mk {
  essential : bool;
  min_volume : R;
  max_occupancy : R;
  description : string
}.
End ModuleConfig.

Definition MODULE_TYPES : list (string * ModuleConfig.t) :=
  [ ("COMMAND", ModuleConfig.mk true 15 8 "Command and control center");
    ("HABITATION", ModuleConfig.mk true 20 4 "Living quarters and personal space");
    ("LABORATORY", ModuleConfig.mk false 25 6 "Science and research laboratory");
    ("LOGISTICS", ModuleConfig.mk true 10 2 "Storage and supply management");
    ("EXERCISE", ModuleConfig.mk true 15 2 "Exercise and fitness equipment");
    ("MEDICAL", ModuleConfig.mk true 8 3 "Medical bay and health monitoring");
    ("AIRLOCK", ModuleConfig.mk true 6 2 "EVA preparation and equipment");
    ("GREENHOUSE", ModuleConfig.mk false 20 4 "Food production and life support") ].

(** ** The types of types/habitat.ts *)

Inductive ModuleType : Type :=
| COMMAND | HABITATION | LABORATORY | LOGISTICS | EXERCISE
| MEDICAL | AIRLOCK | GREENHOUSE | WORKSHOP | RECREATION.

(** The string value of the enum member. *)
Definition ModuleType_value (t : ModuleType) : string :=
  match t with
  | COMMAND => "command"
  | HABITATION => "habitation"
  | LABORATORY => "laboratory"
  | LOGISTICS => "logistics"
  | EXERCISE => "exercise"
  | MEDICAL => "medical"
  | AIRLOCK => "airlock"
  | GREENHOUSE => "greenhouse"
  | WORKSHOP => "workshop"
  | RECREATION => "recreation"
  end.

Inductive Destination : Type :=
| LEO | LUNAR_ORBIT | LUNAR_SURFACE | MARS_ORBIT | MARS_SURFACE | DEEP_SPACE.

Inductive MissionType : Type :=
| exploration | research | construction | settlement.

(** [launchVehicle] is kept as the string it is at run time: the validator
    upper-cases it and handles a string that is no key of the table. *)
Module MissionParameters.
Record t : Type := mk {
  crewSize : R;
  duration : R;
  destination : Destination;
  launchVehicle : string;
  missionType : MissionType;
  emergencyEvacuation : bool
}.
End MissionParameters.

(** [position], [rotation], [dimensions] and [accessRequirements] are not
    read by the validator and are left out. *)
Module FunctionalModule.
Record t : Type := mk {
  id : string;
  type : ModuleType;
  name : string;
  description : string;
  volume : R;
  mass : R;
  powerRequirement : R;
  crewCapacity : R;
  essential : bool;
  adjacencyRequirements : list string;
  adjacencyRestrictions : list string
}.
End FunctionalModule.

Inductive ConnectionType : Type :=
| corridor | airlock | hatch | emergency.

Module Connection.
Record t : Type := mk {
  id : string;
  fromModuleId : string;
  toModuleId : string;
  type : ConnectionType;
  diameter : R;
  length : R;
  pressurized : bool;
  bidirectional : bool
}.
End Connection.

Module Category.
Inductive t : Type := volume | mass | power | safety | accessibility | adjacency.
End Category.

Module Severity.
Inductive t : Type := error | warning | info.
End Severity.

Module ValidationResult.
Record t : Type := mk {
  category : Category.t;
  severity : Severity.t;
  message : Template;
  suggestion : option Template;
  affectedModules : option (list string);
  complianceStandard : Template
}.
End ValidationResult.

(** The identity, the dates, the stored validation results and the export
    settings of a design are not read by the validator and are left out. *)
Module HabitatDesign.
Record t : Type := mk {
  dimensions : HabitatDimensions.t;
  missionParameters : MissionParameters.t;
  modules : list FunctionalModule.t;
  connections : list Connection.t;
  totalVolume : R;
  pressurizedVolume : R;
  netHabitableVolume : R;
  totalMass : R;
  powerRequirement : R
}.
End HabitatDesign.

(** ** [HabitatValidator] (utils/validation.ts) *)

Module RequiredNHV.
Record t : Type := mk { minimum : R; optimal : R }.
End RequiredNHV.

Module HabitatValidator.

Definition finding (category : Category.t) (severity : Severity.t)
  (message : Template) (suggestion : Template)
  (affectedModules : option (list string)) (complianceStandard : Template)
  : ValidationResult.t :=
  ValidationResult.mk category severity message (Some suggestion)
    affectedModules complianceStandard.

(** [HabitatValidator.calculateRequiredNHV] *)
Definition calculateRequiredNHV (crewSize duration : R) : RequiredNHV.t :=
  let basePerCrew := NASA_VOLUME_STANDARDS.NHV_PER_CREW_MINIMUM in
  let optimalPerCrew := NASA_VOLUME_STANDARDS.NHV_PER_CREW_OPTIMAL in
  let durationMultiplier := 1.0 in
  let durationMultiplier := if gtb duration 180 then 1.2 else durationMultiplier in
  let durationMultiplier := if gtb duration 500 then 1.5 else durationMultiplier in
  let durationMultiplier := if gtb duration 1000 then 2.0 else durationMultiplier in
  RequiredNHV.mk
    (crewSize * basePerCrew * durationMultiplier)
    (crewSize * optimalPerCrew * durationMultiplier).

(** [HabitatValidator.getVolumeByType] *)
Definition getVolumeByType (modules : list FunctionalModule.t) (type : string) : R :=
  fold_left (fun sum module => sum + FunctionalModule.volume module)
    (filter (fun module => String.eqb (ModuleType_value (FunctionalModule.type module)) type)
       modules)
    0.

(** [HabitatValidator.validateFunctionalAreaVolumes] *)
Definition validateFunctionalAreaVolumes (design : HabitatDesign.t)
  : list ValidationResult.t :=
  let crewSize := MissionParameters.crewSize (HabitatDesign.missionParameters design) in
  (* Calculate required volumes for functional areas *)
  let requiredSleepVolume := crewSize * NASA_VOLUME_STANDARDS.SLEEP_VOLUME_PER_CREW in
  let requiredWorkVolume := crewSize * NASA_VOLUME_STANDARDS.WORK_VOLUME_PER_CREW in
  let requiredCommonVolume := crewSize * NASA_VOLUME_STANDARDS.COMMON_AREA_PER_CREW in
  (* Calculate actual volumes by module type *)
  let actualSleepVolume := getVolumeByType (HabitatDesign.modules design) "habitation" in
  let actualWorkVolume :=
    getVolumeByType (HabitatDesign.modules design) "laboratory"
    + getVolumeByType (HabitatDesign.modules design) "command" in
  let actualCommonVolume := getVolumeByType (HabitatDesign.modules design) "recreation" in
  (* Validate sleep areas *)
  let results :=
    if ltb actualSleepVolume requiredSleepVolume
    then [finding Category.volume Severity.warning
            [Str "Insufficient sleep area ("; Fixed actualSleepVolume 1; Str "m³ vs ";
             Fixed requiredSleepVolume 1; Str "m³ required)"]
            [Str "Increase habitation module size or add sleep quarters"]
            None [Str "Crew Quarters Requirements"]]
    else [] in
  (* Validate work areas *)
  let results :=
    if ltb actualWorkVolume requiredWorkVolume
    then results ++
         [finding Category.volume Severity.warning
            [Str "Insufficient work space ("; Fixed actualWorkVolume 1; Str "m³ vs ";
             Fixed requiredWorkVolume 1; Str "m³ required)"]
            [Str "Increase laboratory or command module size"]
            None [Str "Workspace Requirements"]]
    else results in
  results.

(** [HabitatValidator.validateVolumeRequirements] *)
Definition validateVolumeRequirements (design : HabitatDesign.t)
  : Result (list ValidationResult.t) :=
  let crewSize := MissionParameters.crewSize (HabitatDesign.missionParameters design) in
  let duration := MissionParameters.duration (HabitatDesign.missionParameters design) in
  (* Calculate required volumes *)
  let requiredNHV := calculateRequiredNHV crewSize duration in
  let actualNHV := HabitatDesign.netHabitableVolume design in
  (* Check minimum volume requirements *)
  let results :=
    if ltb actualNHV (RequiredNHV.minimum requiredNHV)
    then [finding Category.volume Severity.error
            [Str "Net Habitable Volume ("; Fixed actualNHV 1;
             Str "m³) is below NASA minimum requirement (";
             Fixed (RequiredNHV.minimum requiredNHV) 1; Str "m³)"]
            [Str "Increase habitat volume by ";
             Fixed (RequiredNHV.minimum requiredNHV - actualNHV) 1;
             Str "m³ or reduce crew size"]
            None [Str "NASA-STD-3001-V1"]]
    else if ltb actualNHV (RequiredNHV.optimal requiredNHV)
    then [finding Category.volume Severity.warning
            [Str "Net Habitable Volume is below optimal requirement (";
             Fixed (RequiredNHV.optimal requiredNHV) 1; Str "m³)"]
            [Str "Consider increasing volume for crew comfort and mission success"]
            None [Str "NASA-STD-3001-V1"]]
    else [] in
  (* Check volume per crew member *)
  volumePerCrew <- div actualNHV crewSize ;;
  let results :=
    if ltb volumePerCrew NASA_VOLUME_STANDARDS.NHV_PER_CREW_MINIMUM
    then results ++
         [finding Category.volume Severity.error
            [Str "Volume per crew member ("; Fixed volumePerCrew 1;
             Str "m³) is below minimum (";
             Num NASA_VOLUME_STANDARDS.NHV_PER_CREW_MINIMUM; Str "m³)"]
            [Str "Increase habitat volume or reduce crew size"]
            None [Str "NASA-STD-3001-V1"]]
    else results in
  (* Validate functional area volumes *)
  Ok (results ++ validateFunctionalAreaVolumes design).

(** [HabitatValidator.validateLaunchConstraints] *)
Definition validateLaunchConstraints (design : HabitatDesign.t)
  : Result (list ValidationResult.t) :=
  let launchVehicle :=
    MissionParameters.launchVehicle (HabitatDesign.missionParameters design) in
  match lookup (toUpperCase launchVehicle) PAYLOAD_FAIRINGS with
  | None =>
      Ok [finding Category.mass Severity.error
            [Str "Unknown launch vehicle: "; Str launchVehicle]
            [Str "Select a valid launch vehicle"]
            None [Str "Launch Vehicle Specifications"]]
  | Some fairing =>
      (* Check dimensional constraints *)
      constraints <-
        HabitatGeometry.checkLaunchConstraints (HabitatDesign.dimensions design)
          (Fairing.diameter fairing) (Fairing.height fairing)
          (Fairing.mass_limit fairing) ;;
      let results :=
        if negb (LaunchConstraints.fits constraints)
        then map (fun violation =>
                    finding Category.mass Severity.error
                      violation
                      [Str "Reduce habitat size or select larger launch vehicle"]
                      None [Str (Fairing.label fairing); Str " Specifications"])
               (LaunchConstraints.violations constraints)
        else [] in
      (* Check utilization efficiency *)
      let factors := LaunchConstraints.utilizationFactors constraints in
      let avgUtilization :=
        (UtilizationFactors.diameter factors
         + UtilizationFactors.height factors
         + UtilizationFactors.mass factors) / 3 in
      let results :=
        if ltb avgUtilization 0.6
        then results ++
             [finding Category.volume Severity.info
                [Str "Low fairing utilization ("; Fixed (avgUtilization * 100) 1;
                 Str "%). Consider optimizing dimensions."]
                [Str "Increase habitat size to better utilize launch capacity"]
                None [Str "Launch Efficiency Guidelines"]]
        else results in
      Ok results
  end.

(** [HabitatValidator.getMissionDurationCategory] *)
Fixpoint firstCategory (duration : R) (entries : list (string * DurationRange.t))
  : option string :=
  match entries with
  | [] => None
  | (category, range) :: rest =>
      if geb duration (DurationRange.min range)
         && match DurationRange.max range with
            | Some max => leb duration max
            | None => true
            end
      then Some category
      else firstCategory duration rest
  end.

Definition getMissionDurationCategory (duration : R) : string :=
  match firstCategory duration MISSION_DURATIONS with
  | Some category => category
  | None => "EXTENDED"
  end.

(** [HabitatValidator.validateCrewRequirements] *)
Definition validateCrewRequirements (design : HabitatDesign.t)
  : list ValidationResult.t :=
  let mission := HabitatDesign.missionParameters design in
  (* Check crew size limits *)
  let results :=
    if ltb (MissionParameters.crewSize mission) CREW_CONSTRAINTS.MIN_CREW
    then [finding Category.safety Severity.error
            [Str "Crew size ("; Num (MissionParameters.crewSize mission);
             Str ") is below minimum safe crew ("; Num CREW_CONSTRAINTS.MIN_CREW; Str ")"]
            [Str "Increase crew size for mission safety and redundancy"]
            None [Str "NASA-STD-3001-V2"]]
    else [] in
  let results :=
    if gtb (MissionParameters.crewSize mission) CREW_CONSTRAINTS.MAX_CREW_LARGE
    then results ++
         [finding Category.volume Severity.warning
            [Str "Large crew size ("; Num (MissionParameters.crewSize mission);
             Str ") may require multiple habitat modules"]
            [Str "Consider modular habitat design or crew rotation"]
            None [Str "Crew Operations Guidelines"]]
    else results in
  (* Mission duration analysis *)
  let durationCategory := getMissionDurationCategory (MissionParameters.duration mission) in
  if String.eqb durationCategory "EXTENDED" || String.eqb durationCategory "PERMANENT"
  then
    let hasGreenhouse :=
      existsb (fun m => String.eqb (ModuleType_value (FunctionalModule.type m)) "greenhouse")
        (HabitatDesign.modules design) in
    if negb hasGreenhouse
    then results ++
         [finding Category.volume Severity.warning
            [Str "Long-duration missions should include food production capability"]
            [Str "Add greenhouse/hydroponic module for food sustainability"]
            None [Str "Long-Duration Mission Requirements"]]
    else results
  else results.

(** [HabitatValidator.validateSafetyRequirements] *)
Definition validateSafetyRequirements (design : HabitatDesign.t)
  : list ValidationResult.t :=
  (* Check for essential modules *)
  let essentialModules :=
    map (fun entry => toLowerCase (fst entry))
      (filter (fun entry => ModuleConfig.essential (snd entry)) MODULE_TYPES) in
  let presentModules :=
    map (fun m => ModuleType_value (FunctionalModule.type m))
      (HabitatDesign.modules design) in
  let missingEssential :=
    filter (fun type => negb (includes presentModules type)) essentialModules in
  let results :=
    map (fun moduleType =>
           finding Category.safety Severity.error
             [Str "Missing essential module: "; Str moduleType]
             [Str "Add "; Str moduleType; Str " module for mission safety"]
             None [Str "NASA-STD-3001-V2"])
      missingEssential in
  (* Check for multiple airlocks (redundancy) *)
  let airlocks :=
    filter (fun m => String.eqb (ModuleType_value (FunctionalModule.type m)) "airlock")
      (HabitatDesign.modules design) in
  let duration := MissionParameters.duration (HabitatDesign.missionParameters design) in
  let results :=
    if (List.length airlocks <? 2)%nat && gtb duration 30
    then results ++
         [finding Category.safety Severity.warning
            [Str "Long-duration missions should have redundant airlocks"]
            [Str "Add secondary airlock for emergency egress"]
            None [Str "Emergency Egress Requirements"]]
    else results in
  (* Check emergency evacuation capability *)
  if MissionParameters.emergencyEvacuation (HabitatDesign.missionParameters design)
  then
    let totalEvacCapacity :=
      fold_left (fun sum airlock => sum + FunctionalModule.crewCapacity airlock) airlocks 0 in
    if ltb totalEvacCapacity
         (MissionParameters.crewSize (HabitatDesign.missionParameters design))
    then results ++
         [finding Category.safety Severity.error
            [Str "Insufficient emergency evacuation capacity"]
            [Str "Increase airlock capacity or add emergency escape pods"]
            None [Str "Emergency Evacuation Procedures"]]
    else results
  else results.

(** The test of [design.connections.some(...)]: a connection between the
    two ids, in either direction. *)
Definition hasConnection (design : HabitatDesign.t) (moduleId otherId : string) : bool :=
  existsb (fun conn =>
             (String.eqb (Connection.fromModuleId conn) moduleId
              && String.eqb (Connection.toModuleId conn) otherId)
             || (String.eqb (Connection.toModuleId conn) moduleId
                 && String.eqb (Connection.fromModuleId conn) otherId))
    (HabitatDesign.connections design).

(** [design.modules.find(m => m.id === otherId)?.name || otherId]; an empty
    name is falsy. *)
Definition nameOrId (design : HabitatDesign.t) (otherId : string) : string :=
  match find (fun m => String.eqb (FunctionalModule.id m) otherId)
          (HabitatDesign.modules design) with
  | Some m =>
      if String.eqb (FunctionalModule.name m) "" then otherId else FunctionalModule.name m
  | None => otherId
  end.

Definition adjacencyWarning (design : HabitatDesign.t) (module : FunctionalModule.t)
  (requiredId : string) : ValidationResult.t :=
  finding Category.adjacency Severity.warning
    [Str (FunctionalModule.name module); Str " should be adjacent to ";
     Str (nameOrId design requiredId)]
    [Str "Add connection or relocate modules for optimal workflow"]
    (Some [FunctionalModule.id module; requiredId])
    [Str "Habitat Layout Guidelines"].

Definition restrictionError (design : HabitatDesign.t) (module : FunctionalModule.t)
  (restrictedId : string) : ValidationResult.t :=
  finding Category.adjacency Severity.error
    [Str (FunctionalModule.name module); Str " should not be adjacent to ";
     Str (nameOrId design restrictedId)]
    [Str "Relocate modules to maintain safe separation"]
    (Some [FunctionalModule.id module; restrictedId])
    [Str "Safety Separation Requirements"].

Definition volumeWarning (module : FunctionalModule.t) (moduleConfig : ModuleConfig.t)
  : ValidationResult.t :=
  finding Category.volume Severity.warning
    [Str (FunctionalModule.name module); Str " volume (";
     Fixed (FunctionalModule.volume module) 1;
     Str "m³) is below recommended minimum (";
     Num (ModuleConfig.min_volume moduleConfig); Str "m³)"]
    [Str "Increase module size for optimal functionality"]
    (Some [FunctionalModule.id module])
    [Str "Module Design Standards"].

(** The body of [design.modules.forEach(module => ...)] in
    [validateModuleRequirements]: the findings pushed for one module. *)
Definition moduleFindings (design : HabitatDesign.t) (module : FunctionalModule.t)
  : list ValidationResult.t :=
  (* Check adjacency requirements *)
  flat_map (fun requiredId =>
              if negb (hasConnection design (FunctionalModule.id module) requiredId)
              then [adjacencyWarning design module requiredId]
              else [])
    (FunctionalModule.adjacencyRequirements module)
  (* Check adjacency restrictions *)
  ++ flat_map (fun restrictedId =>
                 if hasConnection design (FunctionalModule.id module) restrictedId
                 then [restrictionError design module restrictedId]
                 else [])
       (FunctionalModule.adjacencyRestrictions module)
  (* Check module volume against type requirements *)
  ++ match lookup (toUpperCase (ModuleType_value (FunctionalModule.type module)))
             MODULE_TYPES with
     | Some moduleConfig =>
         if ltb (FunctionalModule.volume module) (ModuleConfig.min_volume moduleConfig)
         then [volumeWarning module moduleConfig]
         else []
     | None => []
     end.

(** [HabitatValidator.validateModuleRequirements] *)
Definition validateModuleRequirements (design : HabitatDesign.t)
  : list ValidationResult.t :=
  flat_map (moduleFindings design) (HabitatDesign.modules design).

(** [HabitatValidator.validateLifeSupportRequirements] *)
Definition validateLifeSupportRequirements (design : HabitatDesign.t)
  : Result (list ValidationResult.t) :=
  (* Check power requirements *)
  let totalPowerReq :=
    fold_left (fun sum module => sum + FunctionalModule.powerRequirement module)
      (HabitatDesign.modules design) 0 in
  let estimatedPowerCapacity := HabitatDesign.totalVolume design * 2 in
  let results :=
    if gtb totalPowerReq estimatedPowerCapacity
    then [finding Category.power Severity.warning
            [Str "Power requirement ("; Fixed totalPowerReq 1; Str "kW) may exceed capacity"]
            [Str "Review power systems or reduce equipment power consumption"]
            None [Str "Power System Requirements"]]
    else [] in
  (* Check air handling capacity *)
  let crewSize := MissionParameters.crewSize (HabitatDesign.missionParameters design) in
  let requiredAirflow := crewSize * 0.5 in
  let habitatVolume := HabitatDesign.totalVolume design in
  airChangeRate <- div (requiredAirflow * 60) habitatVolume ;;
  let results :=
    if ltb airChangeRate 0.5
    then results ++
         [finding Category.safety Severity.warning
            [Str "Low air circulation rate for crew size"]
            [Str "Increase air handling capacity or reduce habitat volume"]
            None [Str "Air Quality Standards"]]
    else results in
  Ok results.

(** [HabitatValidator.validateDesign].  The source has no [try]: an
    exception thrown inside a sub-check leaves [validateDesign]. *)
Definition validateDesign (design : HabitatDesign.t) : Result (list ValidationResult.t) :=
  (* Volume and space requirements *)
  volume <- validateVolumeRequirements design ;;
  (* Launch vehicle constraints *)
  launch <- validateLaunchConstraints design ;;
  (* Crew and mission requirements *)
  let crew := validateCrewRequirements design in
  (* Safety and accessibility *)
  let safety := validateSafetyRequirements design in
  (* Module placement and adjacency *)
  let modules := validateModuleRequirements design in
  (* Life support requirements *)
  lifeSupport <- validateLifeSupportRequirements design ;;
  Ok (volume ++ launch ++ crew ++ safety ++ modules ++ lifeSupport).

(** [HabitatValidator.calculateComplianceScore].  The deductions are sums of
    the integers 15, 5 and 1, so the score is computed in [Z]. *)
Definition calculateComplianceScore (validationResults : list ValidationResult.t) : Z :=
  let totalDeductions :=
    fold_left (fun sum result =>
                 match ValidationResult.severity result with
                 | Severity.error => sum + 15
                 | Severity.warning => sum + 5
                 | Severity.info => sum + 1
                 end)%Z
      validationResults 0%Z in
  Z.max 0 (100 - totalDeductions).

End HabitatValidator.

(** [addConnection] of stores/habitatStore.ts: the design with one more
    connection at the end of its list (the store then validates again).
    [generatedId] stands for the result of [generateId()], which reads the
    clock and a random number. *)
Definition addConnection (design : HabitatDesign.t)
  (generatedId fromId toId : string) (type : ConnectionType) : HabitatDesign.t :=
  let newConnection :=
    Connection.mk generatedId fromId toId type
      (match type with airlock => 1.2 | _ => 0.8 end) 2.0 true true in
  HabitatDesign.mk
    (HabitatDesign.dimensions design)
    (HabitatDesign.missionParameters design)
    (HabitatDesign.modules design)
    (HabitatDesign.connections design ++ [newConnection])
    (HabitatDesign.totalVolume design)
    (HabitatDesign.pressurizedVolume design)
    (HabitatDesign.netHabitableVolume design)
    (HabitatDesign.totalMass design)
    (HabitatDesign.powerRequirement design).

(** ** The store (stores/habitatStore.ts) *)

(** The object returned by [calculateDesignMetrics] ([updatedAt] left out). *)
Module Metrics.
Record t : Type := mk {
  totalVolume : R;
  pressurizedVolume : R;
  netHabitableVolume : R;
  totalMass : R;
  powerRequirement : R
}.
End Metrics.

(** The argument of [updateHabitatDimensions], a
    [Partial<HabitatDimensions>]: a key is absent ([None]) or present with
    a value, which may be [undefined] ([Some None]).  The key [shape] is
    absent or holds a shape. *)
Module DimensionsUpdate.
Record t : Type := mk {
  shape : option HabitatShape;
  radius : option (option R);
  height : option (option R);
  sphereRadius : option (option R);
  majorRadius : option (option R);
  minorRadius : option (option R);
  domeRadius : option (option R);
  domeHeight : option (option R);
  length : option (option R);
  width : option (option R);
  depth : option (option R);
  inflatedRadius : option (option R);
  inflatedHeight : option (option R)
}.

(** [{ shape }] *)
Definition shapeOnly (s : HabitatShape) : t :=
  mk (Some s) None None None None None None None None None None None None.
End DimensionsUpdate.

(** The part of the store's state that the actions below read or write
    (the view flags and [analysisResults] are left out). *)
Module State.
Record t : Type := mk {
  currentDesign : option HabitatDesign.t;
  selectedModuleId : option string;
  validationResults : list ValidationResult.t;
  complianceScore : Z
}.
End State.

Definition HabitatShape_eqb (a b : HabitatShape) : bool :=
  match a, b with
  | CYLINDER, CYLINDER | SPHERE, SPHERE | TORUS, TORUS | DOME, DOME
  | INFLATABLE, INFLATABLE | MODULAR, MODULAR | CUSTOM, CUSTOM => true
  | _, _ => false
  end.

Module HabitatStore.

(** An action of the store: it reads and writes the state, and ends
    normally, by an exception, or outside the finite numbers.  What [set]
    wrote before an exception stays written. *)
Definition Action (A : Type) : Type := State.t -> State.t * Result A.

Definition ret {A : Type} (a : A) : Action A := fun s => (s, Ok a).

Definition andThen {A B : Type} (m : Action A) (k : A -> Action B) : Action B :=
  fun s =>
    match m s with
    | (s', Ok a) => k a s'
    | (s', Throw e) => (s', Throw e)
    | (s', NotFinite) => (s', NotFinite)
    end.

Notation "x <~ m ;; k" := (andThen m (fun x => k))
  (at level 61, m at next level, right associativity).
Notation "m ;;; k" := (andThen m (fun _ => k))
  (at level 61, right associativity).

(** [get()] *)
Definition get : Action State.t := fun s => (s, Ok s).

(** [set(...)] *)
Definition set (f : State.t -> State.t) : Action unit := fun s => (f s, Ok tt).

(** A computation of the geometry or of the validator, inside an action. *)
Definition lift {A : Type} (r : Result A) : Action A := fun s => (s, r).

(** [{ ...design, ...metrics }] *)
Definition withMetrics (design : HabitatDesign.t) (metrics : Metrics.t) : HabitatDesign.t :=
  HabitatDesign.mk
    (HabitatDesign.dimensions design)
    (HabitatDesign.missionParameters design)
    (HabitatDesign.modules design)
    (HabitatDesign.connections design)
    (Metrics.totalVolume metrics)
    (Metrics.pressurizedVolume metrics)
    (Metrics.netHabitableVolume metrics)
    (Metrics.totalMass metrics)
    (Metrics.powerRequirement metrics).

(** [{ ...design, dimensions }] *)
Definition withDimensions (design : HabitatDesign.t) (dimensions : HabitatDimensions.t)
  : HabitatDesign.t :=
  HabitatDesign.mk dimensions
    (HabitatDesign.missionParameters design)
    (HabitatDesign.modules design)
    (HabitatDesign.connections design)
    (HabitatDesign.totalVolume design)
    (HabitatDesign.pressurizedVolume design)
    (HabitatDesign.netHabitableVolume design)
    (HabitatDesign.totalMass design)
    (HabitatDesign.powerRequirement design).

(** [{ ...design, modules, connections }] *)
Definition withModules (design : HabitatDesign.t)
  (modules : list FunctionalModule.t) (connections : list Connection.t)
  : HabitatDesign.t :=
  HabitatDesign.mk
    (HabitatDesign.dimensions design)
    (HabitatDesign.missionParameters design)
    modules connections
    (HabitatDesign.totalVolume design)
    (HabitatDesign.pressurizedVolume design)
    (HabitatDesign.netHabitableVolume design)
    (HabitatDesign.totalMass design)
    (HabitatDesign.powerRequirement design).

(** [createDefaultDesign] (identity, dates and stored results left out, as
    in [HabitatDesign.t]). *)
Definition createDefaultDesign : HabitatDesign.t :=
  HabitatDesign.mk
    (HabitatDimensions.mk CYLINDER (Some 4.0) (Some 12.0)
       None None None None None None None None None None)
    (MissionParameters.mk 4 180 LUNAR_SURFACE "sls_block_1" exploration true)
    [] [] 0 0 0 0 0.

(** [calculateDesignMetrics] *)
Definition calculateDesignMetrics (design : HabitatDesign.t) : Result Metrics.t :=
  totalVolume <- HabitatGeometry.calculateVolume (HabitatDesign.dimensions design) ;;
  let moduleVolume :=
    fold_left (fun sum module => sum + FunctionalModule.volume module)
      (HabitatDesign.modules design) 0 in
  structuralMass <-
    HabitatGeometry.calculateStructuralMass_default (HabitatDesign.dimensions design) ;;
  let totalMass :=
    fold_left (fun sum module => sum + FunctionalModule.mass module)
      (HabitatDesign.modules design) 0
    + structuralMass in
  let powerRequirement :=
    fold_left (fun sum module => sum + FunctionalModule.powerRequirement module)
      (HabitatDesign.modules design) 0 in
  Ok (Metrics.mk
        totalVolume
        totalVolume
        (Rmax 0 (totalVolume - moduleVolume * 0.3))
        totalMass
        powerRequirement).

(** The store's [validateDesign] *)
Definition validateDesign : Action unit :=
  s <~ get ;;
  match State.currentDesign s with
  | None => ret tt
  | Some currentDesign =>
      validationResults <~ lift (HabitatValidator.validateDesign currentDesign) ;;
      let complianceScore := HabitatValidator.calculateComplianceScore validationResults in
      set (fun s =>
             State.mk (Some currentDesign) (State.selectedModuleId s)
               validationResults complianceScore)
  end.

(** [createNewDesign] *)
Definition createNewDesign : Action unit :=
  let design := createDefaultDesign in
  metrics <~ lift (calculateDesignMetrics design) ;;
  let updatedDesign := withMetrics design metrics in
  set (fun _ => State.mk (Some updatedDesign) None [] 0%Z) ;;;
  (* Auto-validate new design *)
  validateDesign.

(** [{ ...currentDesign.dimensions, ...dimensions }] *)
Definition over (update : option (option R)) (current : option R) : option R :=
  match update with
  | Some v => v
  | None => current
  end.

Definition mergeDimensions (current : HabitatDimensions.t) (dimensions : DimensionsUpdate.t)
  : HabitatDimensions.t :=
  HabitatDimensions.mk
    (match DimensionsUpdate.shape dimensions with
     | Some s => s
     | None => HabitatDimensions.shape current
     end)
    (over (DimensionsUpdate.radius dimensions) (HabitatDimensions.radius current))
    (over (DimensionsUpdate.height dimensions) (HabitatDimensions.height current))
    (over (DimensionsUpdate.sphereRadius dimensions) (HabitatDimensions.sphereRadius current))
    (over (DimensionsUpdate.majorRadius dimensions) (HabitatDimensions.majorRadius current))
    (over (DimensionsUpdate.minorRadius dimensions) (HabitatDimensions.minorRadius current))
    (over (DimensionsUpdate.domeRadius dimensions) (HabitatDimensions.domeRadius current))
    (over (DimensionsUpdate.domeHeight dimensions) (HabitatDimensions.domeHeight current))
    (over (DimensionsUpdate.length dimensions) (HabitatDimensions.length current))
    (over (DimensionsUpdate.width dimensions) (HabitatDimensions.width current))
    (over (DimensionsUpdate.depth dimensions) (HabitatDimensions.depth current))
    (over (DimensionsUpdate.inflatedRadius dimensions)
       (HabitatDimensions.inflatedRadius current))
    (over (DimensionsUpdate.inflatedHeight dimensions)
       (HabitatDimensions.inflatedHeight current)).

(** [if (!x) x = d] *)
Definition orDefault (o : option R) (d : R) : option R :=
  if falsy o then Some d else o.

(** The [switch (dimensions.shape)] of [updateHabitatDimensions]: the
    default values added when the shape changes. *)
Definition addDefaults (s : HabitatShape) (d : HabitatDimensions.t) : HabitatDimensions.t :=
  match s with
  | CYLINDER =>
      HabitatDimensions.mk (HabitatDimensions.shape d)
        (orDefault (HabitatDimensions.radius d) 4.0)
        (orDefault (HabitatDimensions.height d) 12.0)
        (HabitatDimensions.sphereRadius d) (HabitatDimensions.majorRadius d)
        (HabitatDimensions.minorRadius d) (HabitatDimensions.domeRadius d)
        (HabitatDimensions.domeHeight d) (HabitatDimensions.length d)
        (HabitatDimensions.width d) (HabitatDimensions.depth d)
        (HabitatDimensions.inflatedRadius d) (HabitatDimensions.inflatedHeight d)
  | SPHERE =>
      HabitatDimensions.mk (HabitatDimensions.shape d)
        (HabitatDimensions.radius d) (HabitatDimensions.height d)
        (orDefault (HabitatDimensions.sphereRadius d) 5.0)
        (HabitatDimensions.majorRadius d)
        (HabitatDimensions.minorRadius d) (HabitatDimensions.domeRadius d)
        (HabitatDimensions.domeHeight d) (HabitatDimensions.length d)
        (HabitatDimensions.width d) (HabitatDimensions.depth d)
        (HabitatDimensions.inflatedRadius d) (HabitatDimensions.inflatedHeight d)
  | TORUS =>
      HabitatDimensions.mk (HabitatDimensions.shape d)
        (HabitatDimensions.radius d) (HabitatDimensions.height d)
        (HabitatDimensions.sphereRadius d)
        (orDefault (HabitatDimensions.majorRadius d) 8.0)
        (orDefault (HabitatDimensions.minorRadius d) 3.0)
        (HabitatDimensions.domeRadius d)
        (HabitatDimensions.domeHeight d) (HabitatDimensions.length d)
        (HabitatDimensions.width d) (HabitatDimensions.depth d)
        (HabitatDimensions.inflatedRadius d) (HabitatDimensions.inflatedHeight d)
  | DOME =>
      HabitatDimensions.mk (HabitatDimensions.shape d)
        (HabitatDimensions.radius d) (HabitatDimensions.height d)
        (HabitatDimensions.sphereRadius d) (HabitatDimensions.majorRadius d)
        (HabitatDimensions.minorRadius d)
        (orDefault (HabitatDimensions.domeRadius d) 6.0)
        (orDefault (HabitatDimensions.domeHeight d) 4.0)
        (HabitatDimensions.length d)
        (HabitatDimensions.width d) (HabitatDimensions.depth d)
        (HabitatDimensions.inflatedRadius d) (HabitatDimensions.inflatedHeight d)
  | INFLATABLE =>
      HabitatDimensions.mk (HabitatDimensions.shape d)
        (HabitatDimensions.radius d) (HabitatDimensions.height d)
        (HabitatDimensions.sphereRadius d) (HabitatDimensions.majorRadius d)
        (HabitatDimensions.minorRadius d) (HabitatDimensions.domeRadius d)
        (HabitatDimensions.domeHeight d) (HabitatDimensions.length d)
        (HabitatDimensions.width d) (HabitatDimensions.depth d)
        (orDefault (HabitatDimensions.inflatedRadius d) 4.0)
        (orDefault (HabitatDimensions.inflatedHeight d) 10.0)
  | MODULAR =>
      HabitatDimensions.mk (HabitatDimensions.shape d)
        (HabitatDimensions.radius d)
        (orDefault (HabitatDimensions.height d) 6.0)
        (HabitatDimensions.sphereRadius d) (HabitatDimensions.majorRadius d)
        (HabitatDimensions.minorRadius d) (HabitatDimensions.domeRadius d)
        (HabitatDimensions.domeHeight d)
        (orDefault (HabitatDimensions.length d) 10.0)
        (orDefault (HabitatDimensions.width d) 8.0)
        (HabitatDimensions.depth d)
        (HabitatDimensions.inflatedRadius d) (HabitatDimensions.inflatedHeight d)
  | CUSTOM => d
  end.

(** The dimensions that [updateHabitatDimensions] computes before the
    metrics: the merge, and the defaults when the update changes the shape. *)
Definition newDimensions (current : HabitatDimensions.t) (dimensions : DimensionsUpdate.t)
  : HabitatDimensions.t :=
  let newDimensions := mergeDimensions current dimensions in
  match DimensionsUpdate.shape dimensions with
  | Some s =>
      if negb (HabitatShape_eqb s (HabitatDimensions.shape current))
      then addDefaults s newDimensions
      else newDimensions
  | None => newDimensions
  end.

(** [updateHabitatDimensions] *)
Definition updateHabitatDimensions (dimensions : DimensionsUpdate.t) : Action unit :=
  s <~ get ;;
  match State.currentDesign s with
  | None => ret tt
  | Some currentDesign =>
      let newDimensions := newDimensions (HabitatDesign.dimensions currentDesign) dimensions in
      metrics <~ lift (calculateDesignMetrics (withDimensions currentDesign newDimensions)) ;;
      let updatedDesign := withMetrics (withDimensions currentDesign newDimensions) metrics in
      set (fun s =>
             State.mk (Some updatedDesign) (State.selectedModuleId s)
               (State.validationResults s) (State.complianceScore s)) ;;;
      validateDesign
  end.

(** [{ ...moduleData, id }] *)
Definition withId (moduleData : FunctionalModule.t) (id : string) : FunctionalModule.t :=
  FunctionalModule.mk id
    (FunctionalModule.type moduleData)
    (FunctionalModule.name moduleData)
    (FunctionalModule.description moduleData)
    (FunctionalModule.volume moduleData)
    (FunctionalModule.mass moduleData)
    (FunctionalModule.powerRequirement moduleData)
    (FunctionalModule.crewCapacity moduleData)
    (FunctionalModule.essential moduleData)
    (FunctionalModule.adjacencyRequirements moduleData)
    (FunctionalModule.adjacencyRestrictions moduleData).

(** [addModule]; [generatedId] stands for the result of [generateId()], and
    the [id] of [moduleData] is not read. *)
Definition addModule (moduleData : FunctionalModule.t) (generatedId : string)
  : Action unit :=
  s <~ get ;;
  match State.currentDesign s with
  | None => ret tt
  | Some currentDesign =>
      let newModule := withId moduleData generatedId in
      let updatedModules := HabitatDesign.modules currentDesign ++ [newModule] in
      metrics <~
        lift (calculateDesignMetrics
                (withModules currentDesign updatedModules
                   (HabitatDesign.connections currentDesign))) ;;
      let updatedDesign :=
        withMetrics
          (withModules currentDesign updatedModules
             (HabitatDesign.connections currentDesign))
          metrics in
      set (fun s =>
             State.mk (Some updatedDesign) (State.selectedModuleId s)
               (State.validationResults s) (State.complianceScore s)) ;;;
      validateDesign
  end.

(** [removeModule] *)
Definition removeModule (id : string) : Action unit :=
  s <~ get ;;
  match State.currentDesign s with
  | None => ret tt
  | Some currentDesign =>
      let selectedModuleId := State.selectedModuleId s in
      let updatedModules :=
        filter (fun module => negb (String.eqb (FunctionalModule.id module) id))
          (HabitatDesign.modules currentDesign) in
      let updatedConnections :=
        filter (fun conn =>
                  negb (String.eqb (Connection.fromModuleId conn) id)
                  && negb (String.eqb (Connection.toModuleId conn) id))
          (HabitatDesign.connections currentDesign) in
      metrics <~
        lift (calculateDesignMetrics
                (withModules currentDesign updatedModules updatedConnections)) ;;
      let updatedDesign :=
        withMetrics (withModules currentDesign updatedModules updatedConnections) metrics in
      set (fun s =>
             State.mk (Some updatedDesign)
               (match selectedModuleId with
                | Some selected => if String.eqb selected id then None else selectedModuleId
                | None => selectedModuleId
                end)
               (State.validationResults s) (State.complianceScore s)) ;;;
      validateDesign
  end.

(** The store's [addConnection]: the action around the design update
    [addConnection] defined above, which its body names. *)
Definition addConnection (generatedId fromId toId : string) (type : ConnectionType)
  : Action unit :=
  s <~ get ;;
  match State.currentDesign s with
  | None => ret tt
  | Some currentDesign =>
      let updatedDesign :=
        addConnection currentDesign generatedId fromId toId type in
      set (fun s =>
             State.mk (Some updatedDesign) (State.selectedModuleId s)
               (State.validationResults s) (State.complianceScore s)) ;;;
      validateDesign
  end.

(** [removeConnection] *)
Definition removeConnection (connectionId : string) : Action unit :=
  s <~ get ;;
  match State.currentDesign s with
  | None => ret tt
  | Some currentDesign =>
      let updatedConnections :=
        filter (fun conn => negb (String.eqb (Connection.id conn) connectionId))
          (HabitatDesign.connections currentDesign) in
      let updatedDesign :=
        withModules currentDesign (HabitatDesign.modules currentDesign) updatedConnections in
      set (fun s =>
             State.mk (Some updatedDesign) (State.selectedModuleId s)
               (State.validationResults s) (State.complianceScore s)) ;;;
      validateDesign
  end.

End HabitatStore.

(** [getOverallStatus] of components/panels/EnhancedValidationPanel.tsx, on
    the compliance score of the store. *)
Module OverallStatus.
Record t : Type := mk { status : string; text : string; color : string }.
End OverallStatus.

Definition getOverallStatus (complianceScore : Z) : OverallStatus.t :=
  if (90 <=? complianceScore)%Z then OverallStatus.mk "pass" "Excellent" "text-green-400"
  else if (80 <=? complianceScore)%Z then OverallStatus.mk "pass" "Good" "text-green-400"
  else if (70 <=? complianceScore)%Z
  then OverallStatus.mk "warning" "Acceptable" "text-yellow-400"
  else if (60 <=? complianceScore)%Z
  then OverallStatus.mk "warning" "Needs Improvement" "text-yellow-400"
  else OverallStatus.mk "fail" "Critical Issues" "text-red-400".

(** ** Vocabulary of the statements *)

Definition Severity_eqb (a b : Severity.t) : bool :=
  match a, b with
  | Severity.error, Severity.error
  | Severity.warning, Severity.warning
  | Severity.info, Severity.info => true
  | _, _ => false
  end.

Definition Category_eqb (a b : Category.t) : bool :=
  match a, b with
  | Category.volume, Category.volume
  | Category.mass, Category.mass
  | Category.power, Category.power
  | Category.safety, Category.safety
  | Category.accessibility, Category.accessibility
  | Category.adjacency, Category.adjacency => true
  | _, _ => false
  end.

(** The number of findings of one severity. *)
Definition countSeverity (s : Severity.t) (results : list ValidationResult.t) : Z :=
  Z.of_nat
    (List.length (filter (fun r => Severity_eqb (ValidationResult.severity r) s) results)).

(** An adjacency finding of severity [s] whose [affectedModules] is
    [[moduleId, otherId]]: it cites the two modules. *)
Definition cites (s : Severity.t) (moduleId otherId : string) (r : ValidationResult.t)
  : bool :=
  Category_eqb (ValidationResult.category r) Category.adjacency
  && Severity_eqb (ValidationResult.severity r) s
  && match ValidationResult.affectedModules r with
     | Some [a; b] => String.eqb a moduleId && String.eqb b otherId
     | _ => false
     end.

(** A finding of another category than adjacency. *)
Definition notAdjacency (r : ValidationResult.t) : Prop :=
  ValidationResult.category r <> Category.adjacency.

Definition countCiting (s : Severity.t) (moduleId otherId : string)
  (results : list ValidationResult.t) : nat :=
  List.length (filter (cites s moduleId otherId) results).

(** A dimension field that is present is strictly positive (the schema's
    [z.number().positive().optional()]). *)
Definition positiveIfPresent (o : option R) : Prop :=
  match o with
  | Some x => 0 < x
  | None => True
  end.

Definition presentFieldsPositive (d : HabitatDimensions.t) : Prop :=
  positiveIfPresent (HabitatDimensions.radius d)
  /\ positiveIfPresent (HabitatDimensions.height d)
  /\ positiveIfPresent (HabitatDimensions.sphereRadius d)
  /\ positiveIfPresent (HabitatDimensions.majorRadius d)
  /\ positiveIfPresent (HabitatDimensions.minorRadius d)
  /\ positiveIfPresent (HabitatDimensions.domeRadius d)
  /\ positiveIfPresent (HabitatDimensions.domeHeight d)
  /\ positiveIfPresent (HabitatDimensions.length d)
  /\ positiveIfPresent (HabitatDimensions.width d)
  /\ positiveIfPresent (HabitatDimensions.depth d)
  /\ positiveIfPresent (HabitatDimensions.inflatedRadius d)
  /\ positiveIfPresent (HabitatDimensions.inflatedHeight d).

(** A dimension field that is present and negative. *)
Definition negative (o : option R) : Prop :=
  exists x, o = Some x /\ x < 0.

(** Some dimension field that [calculateVolume] reads for the shape is
    present and negative. *)
Definition requiredFieldNegative (d : HabitatDimensions.t) : Prop :=
  match HabitatDimensions.shape d with
  | CYLINDER => negative (HabitatDimensions.radius d) \/ negative (HabitatDimensions.height d)
  | SPHERE => negative (HabitatDimensions.sphereRadius d)
  | TORUS =>
      negative (HabitatDimensions.majorRadius d) \/ negative (HabitatDimensions.minorRadius d)
  | DOME =>
      negative (HabitatDimensions.domeRadius d) \/ negative (HabitatDimensions.domeHeight d)
  | INFLATABLE =>
      negative (HabitatDimensions.inflatedRadius d)
      \/ negative (HabitatDimensions.inflatedHeight d)
  | MODULAR =>
      negative (HabitatDimensions.length d) \/ negative (HabitatDimensions.width d)
      \/ negative (HabitatDimensions.height d)
  | CUSTOM => False
  end.

(** The dimensions with every absent field that [calculateVolume] reads for
    the shape set to the default written in the source. *)
Definition orSome (o : option R) (d : R) : option R :=
  match o with
  | Some x => Some x
  | None => Some d
  end.

Definition withVolumeDefaults (d : HabitatDimensions.t) : HabitatDimensions.t :=
  match HabitatDimensions.shape d with
  | CYLINDER =>
      HabitatDimensions.mk CYLINDER
        (orSome (HabitatDimensions.radius d) 4.0) (orSome (HabitatDimensions.height d) 12.0)
        (HabitatDimensions.sphereRadius d) (HabitatDimensions.majorRadius d)
        (HabitatDimensions.minorRadius d) (HabitatDimensions.domeRadius d)
        (HabitatDimensions.domeHeight d) (HabitatDimensions.length d)
        (HabitatDimensions.width d) (HabitatDimensions.depth d)
        (HabitatDimensions.inflatedRadius d) (HabitatDimensions.inflatedHeight d)
  | SPHERE =>
      HabitatDimensions.mk SPHERE
        (HabitatDimensions.radius d) (HabitatDimensions.height d)
        (orSome (HabitatDimensions.sphereRadius d) 5.0) (HabitatDimensions.majorRadius d)
        (HabitatDimensions.minorRadius d) (HabitatDimensions.domeRadius d)
        (HabitatDimensions.domeHeight d) (HabitatDimensions.length d)
        (HabitatDimensions.width d) (HabitatDimensions.depth d)
        (HabitatDimensions.inflatedRadius d) (HabitatDimensions.inflatedHeight d)
  | TORUS =>
      HabitatDimensions.mk TORUS
        (HabitatDimensions.radius d) (HabitatDimensions.height d)
        (HabitatDimensions.sphereRadius d) (orSome (HabitatDimensions.majorRadius d) 8.0)
        (orSome (HabitatDimensions.minorRadius d) 3.0) (HabitatDimensions.domeRadius d)
        (HabitatDimensions.domeHeight d) (HabitatDimensions.length d)
        (HabitatDimensions.width d) (HabitatDimensions.depth d)
        (HabitatDimensions.inflatedRadius d) (HabitatDimensions.inflatedHeight d)
  | DOME =>
      HabitatDimensions.mk DOME
        (HabitatDimensions.radius d) (HabitatDimensions.height d)
        (HabitatDimensions.sphereRadius d) (HabitatDimensions.majorRadius d)
        (HabitatDimensions.minorRadius d) (orSome (HabitatDimensions.domeRadius d) 6.0)
        (orSome (HabitatDimensions.domeHeight d) 4.0) (HabitatDimensions.length d)
        (HabitatDimensions.width d) (HabitatDimensions.depth d)
        (HabitatDimensions.inflatedRadius d) (HabitatDimensions.inflatedHeight d)
  | INFLATABLE =>
      HabitatDimensions.mk INFLATABLE
        (HabitatDimensions.radius d) (HabitatDimensions.height d)
        (HabitatDimensions.sphereRadius d) (HabitatDimensions.majorRadius d)
        (HabitatDimensions.minorRadius d) (HabitatDimensions.domeRadius d)
        (HabitatDimensions.domeHeight d) (HabitatDimensions.length d)
        (HabitatDimensions.width d) (HabitatDimensions.depth d)
        (orSome (HabitatDimensions.inflatedRadius d) 4.0)
        (orSome (HabitatDimensions.inflatedHeight d) 10.0)
  | MODULAR =>
      HabitatDimensions.mk MODULAR
        (HabitatDimensions.radius d) (orSome (HabitatDimensions.height d) 6.0)
        (HabitatDimensions.sphereRadius d) (HabitatDimensions.majorRadius d)
        (HabitatDimensions.minorRadius d) (HabitatDimensions.domeRadius d)
        (HabitatDimensions.domeHeight d) (orSome (HabitatDimensions.length d) 10.0)
        (orSome (HabitatDimensions.width d) 8.0) (HabitatDimensions.depth d)
        (HabitatDimensions.inflatedRadius d) (HabitatDimensions.inflatedHeight d)
  | CUSTOM => d
  end.

(** ** Inputs used in the examples *)

(** [{ shape: 'cylinder', height: 12 }]: a cylinder without its radius. *)
Definition cylinderWithoutRadius : HabitatDimensions.t :=
  HabitatDimensions.mk CYLINDER None (Some 12)
    None None None None None None None None None None.

(** [{ shape: 'cylinder', radius, height }] *)
Definition cylinder (radius height : R) : HabitatDimensions.t :=
  HabitatDimensions.mk CYLINDER (Some radius) (Some height)
    None None None None None None None None None None.

(** [{ shape: 'dome', domeRadius, domeHeight }] *)
Definition dome (domeRadius domeHeight : R) : HabitatDimensions.t :=
  HabitatDimensions.mk DOME None None None None None
    (Some domeRadius) (Some domeHeight) None None None None None.

(** [{ shape: 'sphere', sphereRadius }] *)
Definition sphere (sphereRadius : R) : HabitatDimensions.t :=
  HabitatDimensions.mk SPHERE None None (Some sphereRadius)
    None None None None None None None None None.

(** [{ shape: 'modular', length, width, height }] *)
Definition modular (length width height : R) : HabitatDimensions.t :=
  HabitatDimensions.mk MODULAR None (Some height) None None None None None
    (Some length) (Some width) None None None.

(** The mission parameters of [createDefaultDesign]. *)
Definition defaultMission : MissionParameters.t :=
  MissionParameters.mk 4 180 LUNAR_SURFACE "sls_block_1" exploration true.

Definition exampleModule (id : string) (type : ModuleType) (name : string) (volume : R)
  (adjacencyRequirements adjacencyRestrictions : list string) : FunctionalModule.t :=
  FunctionalModule.mk id type name "" volume 1000 1 2 false
    adjacencyRequirements adjacencyRestrictions.

Definition designOf (dimensions : HabitatDimensions.t)
  (modules : list FunctionalModule.t) (connections : list Connection.t)
  : HabitatDesign.t :=
  HabitatDesign.mk dimensions defaultMission modules connections 600 600 580 20000 10.

(** A crew of 4 with quarters and a laboratory, and no recreation module. *)
Definition noRecreationDesign : HabitatDesign.t :=
  designOf (cylinder 4 12)
    [exampleModule "hab" HABITATION "Crew Quarters" 20 [] [];
     exampleModule "lab" LABORATORY "Science Lab" 40 [] []]
    [].

(** The default design with the radius of its cylinder left out. *)
Definition missingRadiusDesign : HabitatDesign.t :=
  designOf cylinderWithoutRadius [] [].

(** Module A lists B twice among its adjacency requirements and once among
    its adjacency restrictions; there is no connection. *)
Definition conflictingDesign : HabitatDesign.t :=
  designOf (cylinder 4 12)
    [exampleModule "A" LABORATORY "Lab" 30 ["B"; "B"] ["B"];
     exampleModule "B" HABITATION "Quarters" 25 [] []]
    [].

(** Module A requires adjacency to B; there is no connection. *)
Definition requiringDesign : HabitatDesign.t :=
  designOf (cylinder 4 12)
    [exampleModule "A" LABORATORY "Lab" 30 ["B"] [];
     exampleModule "B" HABITATION "Quarters" 25 [] []]
    [].

(** One airlock of 4 cubic metres; the table asks for 6. *)
Definition smallAirlock : FunctionalModule.t :=
  exampleModule "air" AIRLOCK "Airlock" 4 [] [].

Definition smallAirlockDesign : HabitatDesign.t :=
  designOf (cylinder 4 12) [smallAirlock] [].

(** The dimension fields that the geometry reads for the shape. *)
Definition requiredFields (d : HabitatDimensions.t) : list (option R) :=
  match HabitatDimensions.shape d with
  | CYLINDER => [HabitatDimensions.radius d; HabitatDimensions.height d]
  | SPHERE => [HabitatDimensions.sphereRadius d]
  | TORUS => [HabitatDimensions.majorRadius d; HabitatDimensions.minorRadius d]
  | DOME => [HabitatDimensions.domeRadius d; HabitatDimensions.domeHeight d]
  | INFLATABLE => [HabitatDimensions.inflatedRadius d; HabitatDimensions.inflatedHeight d]
  | MODULAR =>
      [HabitatDimensions.length d; HabitatDimensions.width d; HabitatDimensions.height d]
  | CUSTOM => []
  end.

(** A field that is present and strictly positive. *)
Definition presentPositive (o : option R) : Prop :=
  exists x, o = Some x /\ 0 < x.

(** [{ shape: 'torus', majorRadius, minorRadius }] *)
Definition torus (majorRadius minorRadius : R) : HabitatDimensions.t :=
  HabitatDimensions.mk TORUS None None None (Some majorRadius) (Some minorRadius)
    None None None None None None None.

(** [{ shape: 'inflatable', inflatedRadius, inflatedHeight }] *)
Definition inflatable (inflatedRadius inflatedHeight : R) : HabitatDimensions.t :=
  HabitatDimensions.mk INFLATABLE None None None None None None None None None None
    (Some inflatedRadius) (Some inflatedHeight).

(** A finding whose message begins with the literal text [text]. *)
Definition startsWith (text : string) (r : ValidationResult.t) : bool :=
  match ValidationResult.message r with
  | Str s :: _ => String.eqb s text
  | _ => false
  end.

(** Some finding of the list begins with [text]. *)
Definition reports (text : string) (results : list ValidationResult.t) : bool :=
  existsb (startsWith text) results.

(** The modules of one type. *)
Definition modulesOfType (t : ModuleType) (modules : list FunctionalModule.t)
  : list FunctionalModule.t :=
  filter (fun m => String.eqb (ModuleType_value (FunctionalModule.type m)) (ModuleType_value t))
    modules.

(** The sum of a numeric field over modules, as [reduce] computes it. *)
Definition sumOf (field : FunctionalModule.t -> R) (modules : list FunctionalModule.t) : R :=
  fold_left (fun sum module => sum + field module) modules 0.

(** The design whose connections all run the other way. *)
Definition reverseConnection (c : Connection.t) : Connection.t :=
  Connection.mk (Connection.id c) (Connection.toModuleId c) (Connection.fromModuleId c)
    (Connection.type c) (Connection.diameter c) (Connection.length c)
    (Connection.pressurized c) (Connection.bidirectional c).

Definition reverseConnections (design : HabitatDesign.t) : HabitatDesign.t :=
  HabitatStore.withModules design (HabitatDesign.modules design)
    (map reverseConnection (HabitatDesign.connections design)).

(** The total of the deductions of [calculateComplianceScore]. *)
Definition deductions (results : list ValidationResult.t) : Z :=
  (15 * countSeverity Severity.error results
   + 5 * countSeverity Severity.warning results
   + countSeverity Severity.info results)%Z.

(** A store holding one design, nothing selected, no results yet. *)
Definition storeOf (design : HabitatDesign.t) : State.t :=
  State.mk (Some design) None [] 0%Z.

(** The stored results are those of the stored design. *)
Definition consistent (s : State.t) : Prop :=
  match State.currentDesign s with
  | Some design =>
      HabitatValidator.validateDesign design = Ok (State.validationResults s)
      /\ State.complianceScore s
         = HabitatValidator.calculateComplianceScore (State.validationResults s)
  | None => True
  end.

(** The design with the radius of its cylinder left out and a launch
    vehicle that is in no table. *)
Definition unknownVehicleDesign : HabitatDesign.t :=
  HabitatDesign.mk cylinderWithoutRadius
    (MissionParameters.mk 4 180 LUNAR_SURFACE "saturn_v" exploration true)
    [] [] 600 600 580 20000 10.

(** A runtime for the examples: [Math.pow(_, 1 / 3)] returns
    9.999999999999998, the value of [Math.pow(1000, 1 / 3)] on V8 (the cube
    root of 1000 is 10).  The examples whose result depends on the value
    call it at 1000 only. *)
Definition roundingRuntime : MathRuntime :=
  {| pow_third := fun _ => 9.999999999999998;
     pow_third_positive := fun _ _ => ltac:(lra) |}.

(** One workshop of 1 cubic metre. *)
Definition tinyWorkshop : FunctionalModule.t :=
  exampleModule "ws" WORKSHOP "Workshop" 1 [] [].

Definition tinyWorkshopDesign : HabitatDesign.t :=
  designOf (cylinder 4 12) [tinyWorkshop] [].

(** A finding that names no module. *)
Definition namesNoModule (r : ValidationResult.t) : Prop :=
  ValidationResult.affectedModules r = None.

(** * Properties *)

(** ** Comparisons and optional fields *)

Lemma ltb_true (x y : R) : ltb x y = true <-> x < y.
Proof. unfold ltb. destruct (Rlt_dec x y); split; intros; try easy. Qed.

Lemma ltb_false (x y : R) : ltb x y = false <-> y <= x.
Proof. unfold ltb. destruct (Rlt_dec x y); split; intros; try easy; lra. Qed.

Lemma leb_true (x y : R) : leb x y = true <-> x <= y.
Proof. unfold leb. destruct (Rle_dec x y); split; intros; try easy. Qed.

Lemma leb_false (x y : R) : leb x y = false <-> y < x.
Proof. unfold leb. destruct (Rle_dec x y); split; intros; try easy; lra. Qed.

Lemma gtb_true (x y : R) : gtb x y = true <-> y < x.
Proof. apply ltb_true. Qed.

Lemma gtb_false (x y : R) : gtb x y = false <-> x <= y.
Proof. apply ltb_false. Qed.

(** Settles every comparison of the goal by a case analysis, closing the
    impossible cases by linear arithmetic. *)
Ltac cases_cmp :=
  unfold gtb, geb, ltb, leb in *;
  repeat match goal with
         | |- context [Rlt_dec ?a ?b] => destruct (Rlt_dec a b)
         | |- context [Rle_dec ?a ?b] => destruct (Rle_dec a b)
         | |- context [Req_dec_T ?a ?b] => destruct (Req_dec_T a b)
         end;
  simpl; try lra.

(** A product of positive factors is positive. *)
Ltac positive_product :=
  repeat match goal with
         | |- 0 < _ * _ => apply Rmult_lt_0_compat
         end;
  lra.

Lemma truthy_nonzero (x : R) : x <> 0 -> truthy (Some x) = Some x.
Proof. intros H. unfold truthy. destruct (Req_dec_T x 0); [contradiction | reflexivity]. Qed.

Lemma or_else_nonzero (x d : R) : x <> 0 -> or_else (Some x) d = x.
Proof. intros H. unfold or_else. now rewrite truthy_nonzero. Qed.

Lemma or_else_None (d : R) : or_else None d = d.
Proof. reflexivity. Qed.

Lemma or_else_zero (d : R) : or_else (Some 0) d = d.
Proof. unfold or_else, truthy. destruct (Req_dec_T 0 0); [reflexivity | lra]. Qed.

Lemma falsy_nonzero (x : R) : x <> 0 -> falsy (Some x) = false.
Proof. intros H. unfold falsy. now rewrite truthy_nonzero. Qed.

(** A negative field is kept by [||], whatever the default. *)
Lemma or_else_negative (o : option R) (d : R) :
  negative o -> or_else o d < 0.
Proof.
  intros [x [-> Hx]]. rewrite or_else_nonzero; lra.
Qed.

(** With a positive default, [o || d] is positive as soon as the field is
    positive when present. *)
Lemma or_else_positive (o : option R) (d : R) :
  positiveIfPresent o -> 0 < d -> 0 < or_else o d.
Proof.
  destruct o as [x|]; simpl; intros Hx Hd.
  - rewrite or_else_nonzero; lra.
  - now rewrite or_else_None.
Qed.

Lemma or_else_orSome (o : option R) (d : R) :
  or_else (orSome o d) d = or_else o d.
Proof.
  destruct o as [x|]; simpl; [reflexivity|].
  unfold or_else, truthy. destruct (Req_dec_T d 0); reflexivity.
Qed.

(** ** Volume *)

Section Volume.
Import HabitatDimensions HabitatGeometry.

(** C1, counterexample: a cylinder whose radius is absent does not fail; the
    default radius 4.0 is substituted inside [calculateVolume]. *)
Lemma calculateVolume_missing_radius_returns :
  radius cylinderWithoutRadius = None
  /\ calculateVolume cylinderWithoutRadius = Ok (PI * 4 ^ 2 * 12).
Proof.
  split; [reflexivity|].
  unfold calculateVolume, cylinderWithoutRadius; simpl.
  rewrite or_else_None, or_else_nonzero by lra.
  assert (H1 : leb 4.0 0 = false) by (apply leb_false; lra).
  assert (H2 : leb 12 0 = false) by (apply leb_false; lra).
  rewrite H1, H2. simpl. unfold Math_pow. f_equal. lra.
Qed.

(** A radius equal to 0 is falsy: it is replaced by the default as an
    absent one is, and never reaches the test [radius <= 0]. *)
Lemma calculateVolume_zero_radius_returns :
  calculateVolume (cylinder 0 12) = Ok (PI * 4 ^ 2 * 12).
Proof.
  unfold calculateVolume, cylinder; simpl.
  rewrite or_else_zero, or_else_nonzero by lra.
  assert (H1 : leb 4.0 0 = false) by (apply leb_false; lra).
  assert (H2 : leb 12 0 = false) by (apply leb_false; lra).
  rewrite H1, H2. simpl. unfold Math_pow. f_equal. lra.
Qed.

(** C1, as amended: for the six shapes with a formula, [calculateVolume]
    throws the dimension error as soon as a field it reads is present and
    negative; a field that is absent is replaced inside the function by the
    default of the source (the result is that of the dimensions completed
    with [withVolumeDefaults]); in particular a cylinder without radius and
    with a positive height [h] yields [PI * 4^2 * h]. *)
Theorem calculateVolume_negative_throws_absent_defaults (d : HabitatDimensions.t) :
  (requiredFieldNegative d ->
   exists message, calculateVolume d = Throw (InvalidDimensions message))
  /\ calculateVolume d = calculateVolume (withVolumeDefaults d)
  /\ (forall h, shape d = CYLINDER -> radius d = None -> height d = Some h -> 0 < h ->
      calculateVolume d = Ok (PI * 4 ^ 2 * h)).
Proof.
  split; [|split].
  - unfold requiredFieldNegative, calculateVolume.
    destruct (shape d); intros H; try contradiction;
      repeat match type of H with
             | _ \/ _ => destruct H as [H|H]
             end;
      eexists;
      match type of H with
      | negative ?o =>
          match goal with
          | |- context [leb (or_else o ?dflt) 0] =>
              let Hneg := fresh in
              assert (Hneg : leb (or_else o dflt) 0 = true)
                by (apply leb_true; left; now apply or_else_negative);
              rewrite Hneg
          end
      end;
      rewrite ?orb_true_r; simpl; reflexivity.
  - unfold withVolumeDefaults, calculateVolume.
    destruct (shape d) eqn:E; simpl; rewrite ?or_else_orSome; try reflexivity.
    now rewrite E.
  - intros h Hs Hr Hh Hpos. unfold calculateVolume. rewrite Hs, Hr, Hh.
    rewrite or_else_None, or_else_nonzero by lra.
    assert (H1 : leb 4.0 0 = false) by (apply leb_false; lra).
    assert (H2 : leb h 0 = false) by (apply leb_false; lra).
    rewrite H1, H2. simpl. unfold Math_pow. f_equal. lra.
Qed.

(** C1, witness: the cylinder of radius -1 and the cylinder without radius. *)
Lemma calculateVolume_negative_throws_absent_defaults_witness :
  (exists message, calculateVolume (cylinder (-1) 12) = Throw (InvalidDimensions message))
  /\ calculateVolume cylinderWithoutRadius = Ok (PI * 4 ^ 2 * 12).
Proof.
  split.
  - apply (proj1 (calculateVolume_negative_throws_absent_defaults (cylinder (-1) 12))).
    left. exists (-1). split; [reflexivity | lra].
  - apply (proj2 (proj2 (calculateVolume_negative_throws_absent_defaults
                           cylinderWithoutRadius)) 12);
      [reflexivity | reflexivity | reflexivity | lra].
Defined.

End Volume.

Section VolumeSign.
Import HabitatDimensions HabitatGeometry.

Lemma leb_or_else_false (o : option R) (d : R) :
  positiveIfPresent o -> 0 < d -> leb (or_else o d) 0 = false.
Proof.
  intros Ho Hd. apply leb_false. now apply or_else_positive.
Qed.

(** [calculateVolume] on a dome with both fields present and positive is the
    spherical-cap formula of the source. *)
Lemma calculateVolume_dome (r h : R) :
  0 < r -> 0 < h ->
  calculateVolume (dome r h) = Ok ((PI * h * h * (3 * r - h)) / 3).
Proof.
  intros Hr Hh. unfold calculateVolume, dome; simpl.
  rewrite !or_else_nonzero by lra.
  assert (H1 : leb r 0 = false) by (apply leb_false; lra).
  assert (H2 : leb h 0 = false) by (apply leb_false; lra).
  now rewrite H1, H2.
Qed.

(** C6, counterexample: the dome of radius 1 and height 4 has positive
    fields and a negative volume; the custom shape has no volume at all. *)
Lemma calculateVolume_dome_negative :
  presentFieldsPositive (dome 1 4)
  /\ (exists v, calculateVolume (dome 1 4) = Ok v /\ v < 0)
  /\ presentFieldsPositive (only CUSTOM)
  /\ calculateVolume (only CUSTOM) = Throw (UnsupportedShape CUSTOM).
Proof.
  split; [|split; [|split]].
  - unfold presentFieldsPositive, dome; simpl. repeat split; lra.
  - eexists. split; [apply calculateVolume_dome; lra|].
    pose proof PI_RGT_0. nra.
  - unfold presentFieldsPositive, only; simpl. tauto.
  - reflexivity.
Qed.

(** C6, as amended: when every present field is strictly positive,
    [calculateVolume] returns a strictly positive number for the cylinder,
    sphere, torus, inflatable and modular shapes, and for the dome when its
    height is below three times its radius (absent fields taking the
    defaults 4.0 and 6.0); on a dome with positive radius [r] and height [h]
    the result is [PI * h * h * (3 * r - h) / 3], positive exactly when
    [h < 3 * r]; on the custom shape it throws the unsupported-shape
    error. *)
Theorem calculateVolume_positive (d : HabitatDimensions.t) :
  (presentFieldsPositive d ->
   shape d <> CUSTOM ->
   (shape d = DOME -> or_else (domeHeight d) 4.0 < 3 * or_else (domeRadius d) 6.0) ->
   exists v, calculateVolume d = Ok v /\ 0 < v)
  /\ (forall r h, 0 < r -> 0 < h ->
      calculateVolume (dome r h) = Ok ((PI * h * h * (3 * r - h)) / 3)
      /\ (0 < (PI * h * h * (3 * r - h)) / 3 <-> h < 3 * r))
  /\ (shape d = CUSTOM -> calculateVolume d = Throw (UnsupportedShape CUSTOM)).
Proof.
  split; [|split].
  - intros (Hr & Hh & Hs & HM & Hm & Hdr & Hdh & Hl & Hw & _ & Hir & Hih) Hc Hd.
    pose proof PI_RGT_0 as Hpi.
    unfold calculateVolume.
    destruct (shape d); try congruence.
    + rewrite !leb_or_else_false by (assumption || lra). simpl.
      eexists; split; [reflexivity|]. unfold Math_pow.
      pose proof (or_else_positive (radius d) 4.0 Hr ltac:(lra)).
      pose proof (or_else_positive (height d) 12.0 Hh ltac:(lra)).
      cbn [pow]. positive_product.
    + rewrite !leb_or_else_false by (assumption || lra). simpl.
      eexists; split; [reflexivity|]. unfold Math_pow.
      pose proof (or_else_positive (sphereRadius d) 5.0 Hs ltac:(lra)).
      cbn [pow]. positive_product.
    + rewrite !leb_or_else_false by (assumption || lra). simpl.
      eexists; split; [reflexivity|]. unfold Math_pow.
      pose proof (or_else_positive (majorRadius d) 8.0 HM ltac:(lra)).
      pose proof (or_else_positive (minorRadius d) 3.0 Hm ltac:(lra)).
      cbn [pow]. positive_product.
    + rewrite !leb_or_else_false by (assumption || lra). simpl.
      eexists; split; [reflexivity|].
      pose proof (or_else_positive (domeRadius d) 6.0 Hdr ltac:(lra)).
      pose proof (or_else_positive (domeHeight d) 4.0 Hdh ltac:(lra)).
      specialize (Hd eq_refl).
      apply Rdiv_lt_0_compat; [|lra].
      positive_product.
    + rewrite !leb_or_else_false by (assumption || lra). simpl.
      eexists; split; [reflexivity|]. unfold Math_pow.
      pose proof (or_else_positive (inflatedRadius d) 4.0 Hir ltac:(lra)).
      pose proof (or_else_positive (inflatedHeight d) 10.0 Hih ltac:(lra)).
      cbn [pow]. positive_product.
    + rewrite !leb_or_else_false by (assumption || lra). simpl.
      eexists; split; [reflexivity|].
      pose proof (or_else_positive (length d) 10.0 Hl ltac:(lra)).
      pose proof (or_else_positive (width d) 8.0 Hw ltac:(lra)).
      pose proof (or_else_positive (height d) 6.0 Hh ltac:(lra)).
      positive_product.
  - intros r h Hr Hh. split; [now apply calculateVolume_dome|].
    pose proof PI_RGT_0 as Hpi.
    assert (Hk : 0 < PI * h * h) by positive_product.
    split; intros H.
    + destruct (Rlt_dec h (3 * r)) as [|Hn]; [assumption|].
      exfalso. assert (3 * r - h <= 0) by lra.
      assert (PI * h * h * (3 * r - h) <= 0) by nra. lra.
    + apply Rdiv_lt_0_compat; [|lra]. apply Rmult_lt_0_compat; lra.
  - intros Hs. unfold calculateVolume. now rewrite Hs.
Qed.

(** C6, witness: the dome of radius 6 and height 4. *)
Lemma calculateVolume_positive_witness :
  exists v, calculateVolume (dome 6 4) = Ok v /\ 0 < v.
Proof.
  apply (proj1 (calculateVolume_positive (dome 6 4))).
  - unfold presentFieldsPositive, dome; simpl. repeat split; lra.
  - discriminate.
  - intros _. unfold dome; simpl. rewrite !or_else_nonzero by lra. lra.
Defined.

End VolumeSign.

(** ** Recommended dimensions *)

Section Recommended.
Import HabitatDimensions HabitatGeometry.
Context {runtime : MathRuntime}.

(** [Math.pow(x, 1 / 3)] by the sign of [x]. *)
Lemma Math_pow_third_of_positive (x : R) :
  0 < x -> Math_pow_third x = Ok (pow_third x).
Proof.
  intros Hx. unfold Math_pow_third.
  assert (H : ltb 0 x = true) by now apply ltb_true.
  now rewrite H.
Qed.

Lemma Math_pow_third_of_zero : Math_pow_third 0 = Ok 0.
Proof.
  unfold Math_pow_third.
  assert (H : ltb 0 0 = false) by (apply ltb_false; lra).
  rewrite H. destruct (Req_dec_T 0 0); [reflexivity | lra].
Qed.

Lemma Math_pow_third_of_negative (x : R) :
  x < 0 -> Math_pow_third x = NotFinite.
Proof.
  intros Hx. unfold Math_pow_third.
  assert (H : ltb 0 x = false) by (apply ltb_false; lra).
  rewrite H. destruct (Req_dec_T x 0); [lra | reflexivity].
Qed.






End Recommended.



(** ** Compliance score *)

Section Score.
Import HabitatValidator.
Open Scope Z_scope.

(** The fold of [calculateComplianceScore], from any accumulator. *)
Lemma totalDeductions_counts (results : list ValidationResult.t) (acc : Z) :
  fold_left (fun sum result =>
               match ValidationResult.severity result with
               | Severity.error => sum + 15
               | Severity.warning => sum + 5
               | Severity.info => sum + 1
               end) results acc
  = acc + 15 * countSeverity Severity.error results
    + 5 * countSeverity Severity.warning results
    + countSeverity Severity.info results.
Proof.
  revert acc. induction results as [|r rs IH]; intros acc.
  - unfold countSeverity; simpl. lia.
  - simpl fold_left. rewrite IH. unfold countSeverity. simpl filter.
    destruct (ValidationResult.severity r); simpl Severity_eqb; cbn [List.length]; lia.
Qed.

Lemma countSeverity_nonneg (s : Severity.t) (results : list ValidationResult.t) :
  0 <= countSeverity s results.
Proof. unfold countSeverity. lia. Qed.

(** C3: the score is 100 minus 15 per error, 5 per warning and 1 per info
    finding, clamped to the integers from 0 to 100; the empty list scores
    100 and two error findings score 70. *)
Theorem calculateComplianceScore_spec (results : list ValidationResult.t) :
  calculateComplianceScore results
  = Z.max 0 (Z.min 100 (100 - 15 * countSeverity Severity.error results
                            - 5 * countSeverity Severity.warning results
                            - countSeverity Severity.info results))
  /\ 0 <= calculateComplianceScore results <= 100
  /\ calculateComplianceScore [] = 100
  /\ (forall c1 m1 s1 a1 k1 c2 m2 s2 a2 k2,
        calculateComplianceScore
          [ValidationResult.mk c1 Severity.error m1 s1 a1 k1;
           ValidationResult.mk c2 Severity.error m2 s2 a2 k2] = 70).
Proof.
  unfold calculateComplianceScore. rewrite totalDeductions_counts.
  pose proof (countSeverity_nonneg Severity.error results).
  pose proof (countSeverity_nonneg Severity.warning results).
  pose proof (countSeverity_nonneg Severity.info results).
  repeat split; try lia; intros; reflexivity.
Qed.

(** Ten error findings score 0, not -50. *)
Lemma calculateComplianceScore_ten_errors (r : ValidationResult.t) :
  ValidationResult.severity r = Severity.error ->
  calculateComplianceScore (repeat r 10) = 0.
Proof.
  intros H. unfold calculateComplianceScore. simpl. rewrite H. reflexivity.
Qed.

End Score.

(** ** Required net habitable volume *)

Section RequiredVolume.
Import HabitatValidator.

(** C5: the required minimum and optimal volumes are the crew size times
    the per-crew constant (25 and 75) times a multiplier that is 1.0 up to
    180 days, 1.2 above 180 and up to 500, 1.5 above 500 and up to 1000, and
    2.0 above 1000; 180 days use 1.0 and 181 days use 1.2. *)
Theorem calculateRequiredNHV_spec (crewSize duration : R) :
  (duration <= 180 ->
   calculateRequiredNHV crewSize duration
   = RequiredNHV.mk
       (crewSize * NASA_VOLUME_STANDARDS.NHV_PER_CREW_MINIMUM * 1.0)
       (crewSize * NASA_VOLUME_STANDARDS.NHV_PER_CREW_OPTIMAL * 1.0))
  /\ (180 < duration <= 500 ->
      calculateRequiredNHV crewSize duration
      = RequiredNHV.mk
          (crewSize * NASA_VOLUME_STANDARDS.NHV_PER_CREW_MINIMUM * 1.2)
          (crewSize * NASA_VOLUME_STANDARDS.NHV_PER_CREW_OPTIMAL * 1.2))
  /\ (500 < duration <= 1000 ->
      calculateRequiredNHV crewSize duration
      = RequiredNHV.mk
          (crewSize * NASA_VOLUME_STANDARDS.NHV_PER_CREW_MINIMUM * 1.5)
          (crewSize * NASA_VOLUME_STANDARDS.NHV_PER_CREW_OPTIMAL * 1.5))
  /\ (1000 < duration ->
      calculateRequiredNHV crewSize duration
      = RequiredNHV.mk
          (crewSize * NASA_VOLUME_STANDARDS.NHV_PER_CREW_MINIMUM * 2.0)
          (crewSize * NASA_VOLUME_STANDARDS.NHV_PER_CREW_OPTIMAL * 2.0))
  /\ calculateRequiredNHV crewSize 180
     = RequiredNHV.mk
         (crewSize * NASA_VOLUME_STANDARDS.NHV_PER_CREW_MINIMUM * 1.0)
         (crewSize * NASA_VOLUME_STANDARDS.NHV_PER_CREW_OPTIMAL * 1.0)
  /\ calculateRequiredNHV crewSize 181
     = RequiredNHV.mk
         (crewSize * NASA_VOLUME_STANDARDS.NHV_PER_CREW_MINIMUM * 1.2)
         (crewSize * NASA_VOLUME_STANDARDS.NHV_PER_CREW_OPTIMAL * 1.2).
Proof.
  unfold calculateRequiredNHV.
  repeat split; intros; cases_cmp; reflexivity.
Qed.

(** C5, witness: a crew of 4 for 365 days. *)
Lemma calculateRequiredNHV_spec_witness :
  calculateRequiredNHV 4 365
  = RequiredNHV.mk
      (4 * NASA_VOLUME_STANDARDS.NHV_PER_CREW_MINIMUM * 1.2)
      (4 * NASA_VOLUME_STANDARDS.NHV_PER_CREW_OPTIMAL * 1.2).
Proof.
  apply (proj1 (proj2 (calculateRequiredNHV_spec 4 365))). lra.
Defined.

End RequiredVolume.

(** ** Launch constraints *)

Section Launch.
Import HabitatDimensions HabitatGeometry.

(** One comparison of the goal, by cases, the impossible case closed by
    linear arithmetic. *)
Ltac step_cmp :=
  match goal with
  | |- context [Rlt_dec ?a ?b] => destruct (Rlt_dec a b); try lra
  | |- context [Rle_dec ?a ?b] => destruct (Rle_dec a b); try lra
  | |- context [Req_dec_T ?a ?b] => destruct (Req_dec_T a b); try lra
  end.

(** [getMaxDiameter] never exceeds the fairing diameter it is given. *)
Lemma getMaxDiameter_le (d : HabitatDimensions.t) (fairingDiameter : R) :
  getMaxDiameter d fairingDiameter <= fairingDiameter.
Proof.
  unfold getMaxDiameter. destruct (shape d); try apply Rmin_r. lra.
Qed.

Lemma gtb_div_one (x y : R) : 0 < y -> gtb (x / y) 1.0 = ltb y x.
Proof.
  intros Hy. unfold gtb.
  destruct (Rlt_dec y x) as [H|H].
  - transitivity true; [|symmetry; now apply ltb_true].
    apply ltb_true. apply Rmult_lt_reg_r with y; [assumption|].
    unfold Rdiv. rewrite Rmult_assoc, Rinv_l by lra. lra.
  - transitivity false; [|symmetry; apply ltb_false; lra].
    apply ltb_false. apply Rmult_le_reg_r with y; [assumption|].
    unfold Rdiv. rewrite Rmult_assoc, Rinv_l by lra. lra.
Qed.

(** What [checkLaunchConstraints] reports, for positive limits and a shape
    whose surface area is computed: the height violation when the effective
    height exceeds the fairing height, the mass violation when the mass
    exceeds the limit, and never the diameter violation. *)
Lemma checkLaunchConstraints_reports (d : HabitatDimensions.t)
  (fairingDiameter fairingHeight maxMass area : R) :
  calculateSurfaceArea d = Ok area ->
  0 < fairingDiameter -> 0 < fairingHeight -> 0 < maxMass ->
  exists r,
    checkLaunchConstraints d fairingDiameter fairingHeight maxMass = Ok r
    /\ LaunchConstraints.violations r
       = (if ltb fairingHeight (getEffectiveHeight d)
          then [heightViolation (getEffectiveHeight d) fairingHeight] else [])
         ++ (if ltb maxMass (area * 0.1 * 2700)
             then [massViolation (area * 0.1 * 2700) maxMass] else [])
    /\ LaunchConstraints.fits r
       = negb (ltb fairingHeight (getEffectiveHeight d))
         && negb (ltb maxMass (area * 0.1 * 2700)).
Proof.
  intros Harea Hd Hh Hm.
  unfold checkLaunchConstraints, calculateStructuralMass_default, calculateStructuralMass.
  rewrite Harea. cbn [bind]. unfold div.
  destruct (Req_dec_T fairingDiameter 0); [lra|].
  destruct (Req_dec_T fairingHeight 0); [lra|].
  destruct (Req_dec_T maxMass 0); [lra|].
  cbn [bind]. rewrite !gtb_div_one by assumption.
  assert (Hdiam : ltb fairingDiameter (getMaxDiameter d fairingDiameter) = false)
    by (apply ltb_false; apply getMaxDiameter_le).
  rewrite Hdiam.
  eexists. split; [reflexivity|]. cbn [LaunchConstraints.violations LaunchConstraints.fits].
  destruct (ltb fairingHeight (getEffectiveHeight d));
    destruct (ltb maxMass (area * 0.1 * 2700)); split; reflexivity.
Qed.

(** C4, at the failing input: a cylinder of radius 5 (diameter 10) and
    height 8 in the Starship fairing (diameter 9.0, height 18.0, mass limit
    150000) is reported to fit, with no violation: the diameter violation
    is missing. *)
Theorem checkLaunchConstraints_oversized_cylinder_fits :
  exists r,
    checkLaunchConstraints (cylinder 5 8) 9.0 18.0 150000 = Ok r
    /\ LaunchConstraints.fits r = true
    /\ LaunchConstraints.violations r = []
    /\ 9.0 < 5 * 2
    /\ lookup "STARSHIP" PAYLOAD_FAIRINGS
       = Some (Fairing.mk 9.0 18.0 1100 150000 "SpaceX Starship").
Proof.
  pose proof PI_4. pose proof PI_RGT_0.
  unfold checkLaunchConstraints, calculateStructuralMass_default, calculateStructuralMass,
    calculateSurfaceArea, getMaxDiameter, getEffectiveHeight, cylinder, bind, div,
    falsy, or_else, truthy, gtb, ltb, Rmin.
  cbn [shape radius height inflatedHeight].
  repeat (step_cmp; cbn [orb]).
  eexists. repeat split; lra.
Qed.

(** The diameter violation is in no result of [checkLaunchConstraints] with
    a positive fairing diameter. *)
Lemma checkLaunchConstraints_never_diameter (d : HabitatDimensions.t)
  (fairingDiameter fairingHeight maxMass : R) (r : LaunchConstraints.t) (a b : R) :
  0 < fairingDiameter ->
  checkLaunchConstraints d fairingDiameter fairingHeight maxMass = Ok r ->
  ~ In (diameterViolation a b) (LaunchConstraints.violations r).
Proof.
  intros Hd. unfold checkLaunchConstraints.
  destruct (calculateStructuralMass_default d) as [m| |]; cbn [bind]; try discriminate.
  unfold div. destruct (Req_dec_T fairingDiameter 0); [lra|].
  cbn [bind]. rewrite gtb_div_one by assumption.
  assert (Hdiam : ltb fairingDiameter (getMaxDiameter d fairingDiameter) = false)
    by (apply ltb_false; apply getMaxDiameter_le).
  rewrite Hdiam.
  destruct (Req_dec_T fairingHeight 0); cbn [bind]; try discriminate.
  destruct (Req_dec_T maxMass 0); cbn [bind]; try discriminate.
  intros E. injection E as <-. cbn [LaunchConstraints.violations].
  destruct (gtb _ 1.0); destruct (gtb _ 1.0); cbn [app In];
    unfold diameterViolation, heightViolation, massViolation;
    intros Hin; repeat destruct Hin as [Hin|Hin]; try discriminate; assumption.
Qed.

End Launch.

(** ** Functional areas *)

Section FunctionalAreas.
Import HabitatValidator.

(** C7, at the failing input: a crew of 4 needs 40 cubic metres of common
    area and the design has no recreation module, yet the functional-area
    check returns no finding: the common-area warning is missing. *)
Theorem validateFunctionalAreaVolumes_no_common_area_warning :
  getVolumeByType (HabitatDesign.modules noRecreationDesign) "recreation"
  < MissionParameters.crewSize (HabitatDesign.missionParameters noRecreationDesign)
    * NASA_VOLUME_STANDARDS.COMMON_AREA_PER_CREW
  /\ validateFunctionalAreaVolumes noRecreationDesign = [].
Proof.
  unfold validateFunctionalAreaVolumes, getVolumeByType, noRecreationDesign, designOf,
    exampleModule, defaultMission,
    NASA_VOLUME_STANDARDS.COMMON_AREA_PER_CREW,
    NASA_VOLUME_STANDARDS.SLEEP_VOLUME_PER_CREW,
    NASA_VOLUME_STANDARDS.WORK_VOLUME_PER_CREW.
  simpl. split; [lra|].
  cases_cmp. reflexivity.
Qed.

(** The functional-area check has two tests, so at most two findings. *)
Lemma validateFunctionalAreaVolumes_at_most_two (design : HabitatDesign.t) :
  (List.length (validateFunctionalAreaVolumes design) <= 2)%nat.
Proof.
  unfold validateFunctionalAreaVolumes.
  destruct (ltb _ _); destruct (ltb _ _); simpl; lia.
Qed.

End FunctionalAreas.

(** ** Exceptions in [validateDesign] *)

Section Exceptions.
Import HabitatGeometry HabitatValidator.

(** Every fairing of the table has positive limits. *)
Lemma PAYLOAD_FAIRINGS_positive (key : string) (fairing : Fairing.t) :
  lookup key PAYLOAD_FAIRINGS = Some fairing ->
  0 < Fairing.diameter fairing
  /\ 0 < Fairing.height fairing
  /\ 0 < Fairing.mass_limit fairing.
Proof.
  unfold PAYLOAD_FAIRINGS. cbn [lookup].
  repeat match goal with
         | |- context [String.eqb ?a key] => destruct (String.eqb a key)
         end;
    intros E; try discriminate; injection E as <-; simpl; repeat split; lra.
Qed.

Lemma lookup_sls_block_1 :
  lookup (toUpperCase "sls_block_1") PAYLOAD_FAIRINGS
  = Some (Fairing.mk 5.0 19.1 374 27000 "NASA SLS Block 1").
Proof. reflexivity. Qed.

(** [checkLaunchConstraints] throws exactly when the surface area does. *)
Lemma checkLaunchConstraints_throws (d : HabitatDimensions.t)
  (fairingDiameter fairingHeight maxMass : R) (e : Error) :
  checkLaunchConstraints d fairingDiameter fairingHeight maxMass = Throw e
  <-> calculateSurfaceArea d = Throw e.
Proof.
  unfold checkLaunchConstraints, calculateStructuralMass_default, calculateStructuralMass.
  destruct (calculateSurfaceArea d) as [area| |]; cbn [bind].
  - unfold div.
    destruct (Req_dec_T fairingDiameter 0); cbn [bind]; [split; discriminate|].
    destruct (Req_dec_T fairingHeight 0); cbn [bind]; [split; discriminate|].
    destruct (Req_dec_T maxMass 0); cbn [bind]; split; discriminate.
  - split; intros H; injection H as ->; reflexivity.
  - split; discriminate.
Qed.

(** The launch check throws exactly when the vehicle is in the table and
    the surface area of the shape throws. *)
Lemma validateLaunchConstraints_throws (design : HabitatDesign.t) (e : Error) :
  validateLaunchConstraints design = Throw e
  <-> (exists fairing,
          lookup (toUpperCase (MissionParameters.launchVehicle
                                 (HabitatDesign.missionParameters design)))
            PAYLOAD_FAIRINGS = Some fairing)
      /\ calculateSurfaceArea (HabitatDesign.dimensions design) = Throw e.
Proof.
  unfold validateLaunchConstraints.
  destruct (lookup _ PAYLOAD_FAIRINGS) as [fairing|].
  - destruct (checkLaunchConstraints _ _ _ _) as [c| |] eqn:E; cbn [bind].
    + split; [discriminate|]. intros [_ H].
      apply (checkLaunchConstraints_throws _ (Fairing.diameter fairing)
               (Fairing.height fairing) (Fairing.mass_limit fairing)) in H.
      congruence.
    + apply checkLaunchConstraints_throws in E. split.
      * intros H. injection H as <-. split; [now exists fairing | assumption].
      * intros [_ H]. congruence.
    + split; [discriminate|]. intros [_ H].
      apply (checkLaunchConstraints_throws _ (Fairing.diameter fairing)
               (Fairing.height fairing) (Fairing.mass_limit fairing)) in H.
      congruence.
  - split; [discriminate|]. intros [[f Hf] _]. discriminate.
Qed.

(** The launch check returns as soon as the surface area is computed. *)
Lemma validateLaunchConstraints_returns (design : HabitatDesign.t) (area : R) :
  calculateSurfaceArea (HabitatDesign.dimensions design) = Ok area ->
  exists launch, validateLaunchConstraints design = Ok launch.
Proof.
  intros Harea. unfold validateLaunchConstraints.
  destruct (lookup _ PAYLOAD_FAIRINGS) as [fairing|] eqn:E; [|eexists; reflexivity].
  destruct (PAYLOAD_FAIRINGS_positive _ _ E) as (Hd & Hh & Hm).
  destruct (checkLaunchConstraints_reports _ _ _ _ _ Harea Hd Hh Hm) as (r & -> & _).
  cbn [bind]. eexists; reflexivity.
Qed.

(** The volume check divides by the crew size and throws nothing. *)
Lemma validateVolumeRequirements_returns (design : HabitatDesign.t) :
  MissionParameters.crewSize (HabitatDesign.missionParameters design) <> 0 ->
  exists volume, validateVolumeRequirements design = Ok volume.
Proof.
  intros H. unfold validateVolumeRequirements, div.
  destruct (Req_dec_T _ 0); [contradiction|]. cbn [bind]. eexists; reflexivity.
Qed.

Lemma validateVolumeRequirements_no_throw (design : HabitatDesign.t) (e : Error) :
  validateVolumeRequirements design <> Throw e.
Proof.
  unfold validateVolumeRequirements, div.
  destruct (Req_dec_T _ 0); cbn [bind]; discriminate.
Qed.

(** The life-support check divides by the total volume and throws nothing. *)
Lemma validateLifeSupportRequirements_returns (design : HabitatDesign.t) :
  HabitatDesign.totalVolume design <> 0 ->
  exists lifeSupport, validateLifeSupportRequirements design = Ok lifeSupport.
Proof.
  intros H. unfold validateLifeSupportRequirements, div.
  destruct (Req_dec_T _ 0); [contradiction|]. cbn [bind]. eexists; reflexivity.
Qed.

Lemma validateLifeSupportRequirements_no_throw (design : HabitatDesign.t) (e : Error) :
  validateLifeSupportRequirements design <> Throw e.
Proof.
  unfold validateLifeSupportRequirements, div.
  destruct (Req_dec_T _ 0); cbn [bind]; discriminate.
Qed.

(** An exception of the launch check leaves [validateDesign]. *)
Lemma validateDesign_throws (design : HabitatDesign.t) (e : Error) :
  MissionParameters.crewSize (HabitatDesign.missionParameters design) <> 0 ->
  validateLaunchConstraints design = Throw e ->
  validateDesign design = Throw e.
Proof.
  intros Hc Hl. unfold validateDesign.
  destruct (validateVolumeRequirements_returns design Hc) as [volume ->].
  cbn [bind]. rewrite Hl. reflexivity.
Qed.

(** When [validateDesign] returns, it returns the findings of the six
    sub-checks, in order. *)
Lemma validateDesign_Ok (design : HabitatDesign.t) (results : list ValidationResult.t) :
  validateDesign design = Ok results ->
  exists volume launch lifeSupport,
    validateVolumeRequirements design = Ok volume
    /\ validateLaunchConstraints design = Ok launch
    /\ validateLifeSupportRequirements design = Ok lifeSupport
    /\ results = volume ++ launch ++ validateCrewRequirements design
                 ++ validateSafetyRequirements design
                 ++ validateModuleRequirements design ++ lifeSupport.
Proof.
  unfold validateDesign.
  destruct (validateVolumeRequirements design) as [volume| |]; cbn [bind]; try discriminate.
  destruct (validateLaunchConstraints design) as [launch| |]; cbn [bind]; try discriminate.
  destruct (validateLifeSupportRequirements design) as [lifeSupport| |];
    cbn [bind]; try discriminate.
  intros E. injection E as <-. now exists volume, launch, lifeSupport.
Qed.

(** [validateDesign] returns when no divisor is zero and the surface area
    of the shape is computed. *)
Lemma validateDesign_returns (design : HabitatDesign.t) (area : R) :
  MissionParameters.crewSize (HabitatDesign.missionParameters design) <> 0 ->
  HabitatDesign.totalVolume design <> 0 ->
  calculateSurfaceArea (HabitatDesign.dimensions design) = Ok area ->
  exists results, validateDesign design = Ok results.
Proof.
  intros Hc Hv Ha. unfold validateDesign.
  destruct (validateVolumeRequirements_returns design Hc) as [volume ->].
  destruct (validateLaunchConstraints_returns design area Ha) as [launch ->].
  destruct (validateLifeSupportRequirements_returns design Hv) as [lifeSupport ->].
  cbn [bind]. eexists; reflexivity.
Qed.

(** C2, counterexample: on the default design with the radius of the
    cylinder left out, [validateDesign] throws the error of the surface
    area; the findings of the safety check (the missing essential modules)
    are not returned. *)
Lemma validateDesign_missing_radius_throws :
  validateDesign missingRadiusDesign
  = Throw (InvalidDimensions "Cylinder requires radius and height")
  /\ validateSafetyRequirements missingRadiusDesign <> [].
Proof.
  split.
  - apply validateDesign_throws.
    + simpl. lra.
    + apply validateLaunchConstraints_throws. split.
      * eexists. apply lookup_sls_block_1.
      * reflexivity.
  - unfold validateSafetyRequirements, missingRadiusDesign, designOf, defaultMission.
    cbn. cases_cmp; discriminate.
Qed.

(** C2, as amended: of the six sub-checks only the launch check can throw,
    and it throws exactly when the launch vehicle is in the fairing table
    and the surface area of the shape throws (a dimension missing or zero,
    or the custom shape).  That exception leaves [validateDesign], which
    returns no finding then; when the launch check returns, [validateDesign]
    returns the findings of the six sub-checks, in order.  (Crew size and
    total volume are not zero.) *)
Theorem validateDesign_exceptions (design : HabitatDesign.t) :
  MissionParameters.crewSize (HabitatDesign.missionParameters design) <> 0 ->
  HabitatDesign.totalVolume design <> 0 ->
  (forall e,
      validateDesign design = Throw e
      <-> (exists fairing,
              lookup (toUpperCase (MissionParameters.launchVehicle
                                     (HabitatDesign.missionParameters design)))
                PAYLOAD_FAIRINGS = Some fairing)
          /\ calculateSurfaceArea (HabitatDesign.dimensions design) = Throw e)
  /\ (forall launch,
        validateLaunchConstraints design = Ok launch ->
        exists volume lifeSupport,
          validateVolumeRequirements design = Ok volume
          /\ validateLifeSupportRequirements design = Ok lifeSupport
          /\ validateDesign design
             = Ok (volume ++ launch ++ validateCrewRequirements design
                   ++ validateSafetyRequirements design
                   ++ validateModuleRequirements design ++ lifeSupport)).
Proof.
  intros Hc Hv. split.
  - intros e. rewrite <- validateLaunchConstraints_throws. split.
    + unfold validateDesign.
      destruct (validateVolumeRequirements_returns design Hc) as [volume ->].
      destruct (validateLifeSupportRequirements_returns design Hv) as [lifeSupport ->].
      cbn [bind].
      destruct (validateLaunchConstraints design); cbn [bind]; congruence.
    + now apply validateDesign_throws.
  - intros launch Hl.
    destruct (validateVolumeRequirements_returns design Hc) as [volume Hvol].
    destruct (validateLifeSupportRequirements_returns design Hv) as [lifeSupport Hls].
    exists volume, lifeSupport. repeat split; try assumption.
    unfold validateDesign. rewrite Hvol, Hl, Hls. reflexivity.
Qed.

(** C2, witness: the design with the radius left out throws; the default
    design with its radius returns. *)
Lemma validateDesign_exceptions_witness :
  validateDesign missingRadiusDesign
  = Throw (InvalidDimensions "Cylinder requires radius and height").
Proof.
  apply (proj1 (validateDesign_exceptions missingRadiusDesign
                  ltac:(simpl; lra) ltac:(simpl; lra))).
  split.
  - eexists. apply lookup_sls_block_1.
  - reflexivity.
Defined.

End Exceptions.

(** ** Module volumes *)

Section ModuleVolumes.
Import HabitatValidator.

(** The minimum-volume entries of [MODULE_TYPES], by module type: eight of
    the ten types have one; [workshop] and [recreation] have none. *)
Lemma MODULE_TYPES_minimum :
  let entry t := option_map ModuleConfig.min_volume
                   (lookup (toUpperCase (ModuleType_value t)) MODULE_TYPES) in
  entry COMMAND = Some 15 /\ entry HABITATION = Some 20
  /\ entry LABORATORY = Some 25 /\ entry LOGISTICS = Some 10
  /\ entry EXERCISE = Some 15 /\ entry MEDICAL = Some 8
  /\ entry AIRLOCK = Some 6 /\ entry GREENHOUSE = Some 20
  /\ entry WORKSHOP = None /\ entry RECREATION = None.
Proof. repeat split; reflexivity. Qed.

Lemma moduleFindings_in (design : HabitatDesign.t) (module : FunctionalModule.t)
  (r : ValidationResult.t) :
  In module (HabitatDesign.modules design) ->
  In r (moduleFindings design module) ->
  In r (validateModuleRequirements design).
Proof.
  intros Hm Hr. unfold validateModuleRequirements.
  apply in_flat_map. now exists module.
Qed.

(** A finding of the module check is a finding of [validateDesign]. *)
Lemma validateModuleRequirements_in (design : HabitatDesign.t)
  (results : list ValidationResult.t) (r : ValidationResult.t) :
  validateDesign design = Ok results ->
  In r (validateModuleRequirements design) ->
  In r results.
Proof.
  intros H Hr.
  destruct (validateDesign_Ok _ _ H) as (volume & launch & lifeSupport & _ & _ & _ & ->).
  rewrite !in_app_iff. tauto.
Qed.

(** The findings of the sub-checks other than the module check name no
    module. *)
Ltac pushes_namesNoModule :=
  repeat match goal with
         | |- context [if ?c then _ else _] => destruct c
         end;
  rewrite ?Forall_app;
  repeat split;
  repeat constructor.

Lemma map_namesNoModule {A : Type} (make : A -> ValidationResult.t) (l : list A) :
  (forall a, namesNoModule (make a)) -> Forall namesNoModule (map make l).
Proof.
  intros H. apply Forall_forall. intros r Hr. apply in_map_iff in Hr.
  destruct Hr as (a & <- & _). apply H.
Qed.

Lemma validateFunctionalAreaVolumes_namesNoModule (design : HabitatDesign.t) :
  Forall namesNoModule (validateFunctionalAreaVolumes design).
Proof. unfold validateFunctionalAreaVolumes. pushes_namesNoModule. Qed.

Lemma validateVolumeRequirements_namesNoModule (design : HabitatDesign.t)
  (volume : list ValidationResult.t) :
  validateVolumeRequirements design = Ok volume -> Forall namesNoModule volume.
Proof.
  unfold validateVolumeRequirements.
  destruct (div _ _); cbn [bind]; try discriminate.
  intros E. injection E as <-.
  apply Forall_app. split; [|apply validateFunctionalAreaVolumes_namesNoModule].
  pushes_namesNoModule.
Qed.

Lemma validateLaunchConstraints_namesNoModule (design : HabitatDesign.t)
  (launch : list ValidationResult.t) :
  validateLaunchConstraints design = Ok launch -> Forall namesNoModule launch.
Proof.
  unfold validateLaunchConstraints.
  destruct (lookup _ PAYLOAD_FAIRINGS) as [fairing|].
  - destruct (HabitatGeometry.checkLaunchConstraints _ _ _ _) as [c| |];
      cbn [bind]; try discriminate.
    intros E. injection E as <-.
    destruct (negb _); destruct (ltb _ 0.6);
      rewrite ?Forall_app; repeat split;
      try (apply map_namesNoModule; intros v; reflexivity);
      repeat constructor.
  - intros E. injection E as <-. pushes_namesNoModule.
Qed.

Lemma validateCrewRequirements_namesNoModule (design : HabitatDesign.t) :
  Forall namesNoModule (validateCrewRequirements design).
Proof. unfold validateCrewRequirements. pushes_namesNoModule. Qed.

Lemma validateSafetyRequirements_namesNoModule (design : HabitatDesign.t) :
  Forall namesNoModule (validateSafetyRequirements design).
Proof.
  unfold validateSafetyRequirements.
  repeat match goal with
         | |- context [if ?c then _ else _] => destruct c
         end;
    rewrite ?Forall_app; repeat split;
    try (apply map_namesNoModule; intros v; reflexivity);
    repeat constructor.
Qed.

Lemma validateLifeSupportRequirements_namesNoModule (design : HabitatDesign.t)
  (lifeSupport : list ValidationResult.t) :
  validateLifeSupportRequirements design = Ok lifeSupport ->
  Forall namesNoModule lifeSupport.
Proof.
  unfold validateLifeSupportRequirements.
  destruct (div _ _); cbn [bind]; try discriminate.
  intros E. injection E as <-. pushes_namesNoModule.
Qed.

(** A finding of [validateDesign] that names a module comes from the module
    check. *)
Lemma validateDesign_names_module (design : HabitatDesign.t)
  (results : list ValidationResult.t) (r : ValidationResult.t) :
  validateDesign design = Ok results ->
  In r results ->
  namesNoModule r \/ In r (validateModuleRequirements design).
Proof.
  intros H Hin.
  destruct (validateDesign_Ok _ _ H) as (volume & launch & lifeSupport & Hv & Hl & Hs & ->).
  pose proof (validateVolumeRequirements_namesNoModule _ _ Hv) as H1.
  pose proof (validateLaunchConstraints_namesNoModule _ _ Hl) as H2.
  pose proof (validateCrewRequirements_namesNoModule design) as H3.
  pose proof (validateSafetyRequirements_namesNoModule design) as H4.
  pose proof (validateLifeSupportRequirements_namesNoModule _ _ Hs) as H5.
  rewrite Forall_forall in H1, H2, H3, H4, H5.
  rewrite !in_app_iff in Hin.
  destruct Hin as [Hin|[Hin|[Hin|[Hin|[Hin|Hin]]]]]; auto.
Qed.

(** What the module check pushes for a module whose type has no entry in
    [MODULE_TYPES]: adjacency findings only. *)
Lemma moduleFindings_without_entry (design : HabitatDesign.t) (module : FunctionalModule.t)
  (r : ValidationResult.t) :
  lookup (toUpperCase (ModuleType_value (FunctionalModule.type module))) MODULE_TYPES
  = None ->
  In r (moduleFindings design module) ->
  ValidationResult.category r = Category.adjacency.
Proof.
  intros Hcfg. unfold moduleFindings. rewrite Hcfg, app_nil_r, in_app_iff.
  intros [H|H]; apply in_flat_map in H; destruct H as (x & _ & H);
    destruct (hasConnection _ _ _); cbn [negb In] in H;
    try contradiction; destruct H as [<-|[]]; reflexivity.
Qed.

(** C9: for every module of the design whose type is one of the eight that
    have an entry in [MODULE_TYPES] (command, habitation, laboratory,
    logistics, exercise, medical, airlock, greenhouse) and whose volume is
    below the minimum volume of that entry, the module check yields a
    warning whose affected module is that module, and [validateDesign]
    returns it among its findings: in every run that returns, and a run
    returns when the surface area of the shape is computed and neither the
    crew size nor the total volume is zero.  For a module of type workshop
    or recreation the table has no entry, and the module check pushes
    adjacency findings only: no volume warning, whatever the volume. *)
Theorem validateDesign_module_volume_warning
  (design : HabitatDesign.t) (module : FunctionalModule.t) :
  In module (HabitatDesign.modules design) ->
  (In (FunctionalModule.type module)
      [COMMAND; HABITATION; LABORATORY; LOGISTICS; EXERCISE; MEDICAL; AIRLOCK; GREENHOUSE] ->
   exists moduleConfig,
     lookup (toUpperCase (ModuleType_value (FunctionalModule.type module))) MODULE_TYPES
     = Some moduleConfig
     /\ (FunctionalModule.volume module < ModuleConfig.min_volume moduleConfig ->
         ValidationResult.severity (volumeWarning module moduleConfig) = Severity.warning
         /\ ValidationResult.affectedModules (volumeWarning module moduleConfig)
            = Some [FunctionalModule.id module]
         /\ In (volumeWarning module moduleConfig) (validateModuleRequirements design)
         /\ (forall results,
               validateDesign design = Ok results ->
               In (volumeWarning module moduleConfig) results)
         /\ (forall area,
               MissionParameters.crewSize (HabitatDesign.missionParameters design) <> 0 ->
               HabitatDesign.totalVolume design <> 0 ->
               HabitatGeometry.calculateSurfaceArea (HabitatDesign.dimensions design)
               = Ok area ->
               exists results,
                 validateDesign design = Ok results
                 /\ In (volumeWarning module moduleConfig) results)))
  /\ (In (FunctionalModule.type module) [WORKSHOP; RECREATION] ->
      lookup (toUpperCase (ModuleType_value (FunctionalModule.type module))) MODULE_TYPES
      = None
      /\ forall r,
           In r (moduleFindings design module) ->
           ValidationResult.category r = Category.adjacency).
Proof.
  intros Hm. split.
  - intros Ht.
    assert (Hcfg : exists moduleConfig,
               lookup (toUpperCase (ModuleType_value (FunctionalModule.type module)))
                 MODULE_TYPES = Some moduleConfig).
    { cbn [In] in Ht.
      destruct Ht as [<-|[<-|[<-|[<-|[<-|[<-|[<-|[<-|[]]]]]]]]];
        eexists; reflexivity. }
    destruct Hcfg as [moduleConfig Hcfg]. exists moduleConfig.
    split; [exact Hcfg|]. intros Hvol.
    assert (Hin : In (volumeWarning module moduleConfig)
                    (validateModuleRequirements design)).
    { apply moduleFindings_in with module; [assumption|].
      unfold moduleFindings. rewrite Hcfg.
      assert (Hlt : ltb (FunctionalModule.volume module)
                      (ModuleConfig.min_volume moduleConfig) = true)
        by now apply ltb_true.
      rewrite Hlt. rewrite !in_app_iff. right; right. now left. }
    repeat split; try assumption.
    + intros results H. now apply validateModuleRequirements_in with design.
    + intros area Hc Hv Ha.
      destruct (validateDesign_returns design area Hc Hv Ha) as [results H].
      exists results. split; [assumption|].
      now apply validateModuleRequirements_in with design.
  - intros Ht.
    assert (Hcfg : lookup (toUpperCase (ModuleType_value (FunctionalModule.type module)))
                     MODULE_TYPES = None).
    { cbn [In] in Ht. destruct Ht as [<-|[<-|[]]]; reflexivity. }
    split; [exact Hcfg|].
    intros r. now apply moduleFindings_without_entry.
Qed.

(** C9, witness: the default design with one airlock of 4 cubic metres;
    [validateDesign] returns, and the warning is among its findings. *)
Lemma validateDesign_module_volume_warning_witness :
  exists results,
    validateDesign smallAirlockDesign = Ok results
    /\ In (volumeWarning smallAirlock
             (ModuleConfig.mk true 6 2 "EVA preparation and equipment"))
         results.
Proof.
  assert (Hin : In smallAirlock (HabitatDesign.modules smallAirlockDesign))
    by (left; reflexivity).
  destruct (proj1 (validateDesign_module_volume_warning smallAirlockDesign smallAirlock
                     Hin))
    as (moduleConfig & Hcfg & H).
  { cbn. tauto. }
  assert (E : moduleConfig = ModuleConfig.mk true 6 2 "EVA preparation and equipment").
  { change (Some (ModuleConfig.mk true 6 2 "EVA preparation and equipment")
            = Some moduleConfig) in Hcfg.
    now injection Hcfg. }
  subst moduleConfig.
  apply (proj2 (proj2 (proj2 (proj2 (H ltac:(simpl; lra)))))
           (2 * PI * 4 * (4 + 12))).
  - simpl. lra.
  - simpl. lra.
  - unfold smallAirlockDesign, designOf, cylinder, HabitatGeometry.calculateSurfaceArea.
    cbn [HabitatDesign.dimensions HabitatDimensions.shape HabitatDimensions.radius
           HabitatDimensions.height].
    rewrite !falsy_nonzero, !or_else_nonzero by lra. reflexivity.
Defined.

(** C9, counterexample: a workshop of 1 cubic metre in the default design.
    [MODULE_TYPES] has no entry for its type, the module check returns no
    finding, and [validateDesign] returns findings none of which names a
    module: no warning cites the workshop. *)
Lemma validateDesign_workshop_no_warning :
  lookup (toUpperCase (ModuleType_value (FunctionalModule.type tinyWorkshop))) MODULE_TYPES
  = None
  /\ validateModuleRequirements tinyWorkshopDesign = []
  /\ exists results,
       validateDesign tinyWorkshopDesign = Ok results
       /\ Forall namesNoModule results.
Proof.
  split; [reflexivity|]. split; [reflexivity|].
  destruct (validateDesign_returns tinyWorkshopDesign (2 * PI * 4 * (4 + 12)))
    as [results Hres].
  - simpl. lra.
  - simpl. lra.
  - unfold tinyWorkshopDesign, designOf, cylinder, HabitatGeometry.calculateSurfaceArea.
    cbn [HabitatDesign.dimensions HabitatDimensions.shape HabitatDimensions.radius
           HabitatDimensions.height].
    rewrite !falsy_nonzero, !or_else_nonzero by lra. reflexivity.
  - exists results. split; [assumption|].
    apply Forall_forall. intros r Hr.
    destruct (validateDesign_names_module _ _ _ Hres Hr) as [H|H]; [assumption|].
    contradiction.
Qed.

End ModuleVolumes.

(** ** Adjacency *)

Section Adjacency.
Import HabitatValidator.

Lemma cites_notAdjacency (s : Severity.t) (a b : string) (r : ValidationResult.t) :
  notAdjacency r -> cites s a b r = false.
Proof.
  unfold notAdjacency, cites. destruct (ValidationResult.category r); simpl; congruence.
Qed.

Lemma countCiting_app (s : Severity.t) (a b : string) (l1 l2 : list ValidationResult.t) :
  countCiting s a b (l1 ++ l2) = (countCiting s a b l1 + countCiting s a b l2)%nat.
Proof.
  unfold countCiting. now rewrite filter_app, length_app.
Qed.

Lemma countCiting_notAdjacency (s : Severity.t) (a b : string)
  (l : list ValidationResult.t) :
  Forall notAdjacency l -> countCiting s a b l = 0%nat.
Proof.
  unfold countCiting. induction 1 as [|r l Hr _ IH]; [reflexivity|].
  simpl. now rewrite cites_notAdjacency.
Qed.

(** The findings of a sub-check built by tests and pushes, none of them in
    the adjacency category. *)
Ltac pushes_notAdjacency :=
  repeat match goal with
         | |- context [if ?c then _ else _] => destruct c
         end;
  rewrite ?Forall_app;
  repeat split;
  repeat constructor;
  unfold notAdjacency; simpl; discriminate.

Lemma validateFunctionalAreaVolumes_notAdjacency (design : HabitatDesign.t) :
  Forall notAdjacency (validateFunctionalAreaVolumes design).
Proof. unfold validateFunctionalAreaVolumes. pushes_notAdjacency. Qed.

Lemma validateVolumeRequirements_notAdjacency (design : HabitatDesign.t)
  (volume : list ValidationResult.t) :
  validateVolumeRequirements design = Ok volume -> Forall notAdjacency volume.
Proof.
  unfold validateVolumeRequirements.
  destruct (div _ _); cbn [bind]; try discriminate.
  intros E. injection E as <-.
  apply Forall_app. split; [|apply validateFunctionalAreaVolumes_notAdjacency].
  pushes_notAdjacency.
Qed.

Lemma validateLaunchConstraints_notAdjacency (design : HabitatDesign.t)
  (launch : list ValidationResult.t) :
  validateLaunchConstraints design = Ok launch -> Forall notAdjacency launch.
Proof.
  unfold validateLaunchConstraints.
  destruct (lookup _ PAYLOAD_FAIRINGS) as [fairing|].
  - destruct (HabitatGeometry.checkLaunchConstraints _ _ _ _) as [c| |];
      cbn [bind]; try discriminate.
    intros E. injection E as <-.
    assert (Hmap : forall l,
               Forall notAdjacency
                 (map (fun violation =>
                         finding Category.mass Severity.error violation
                           [Str "Reduce habitat size or select larger launch vehicle"]
                           None [Str (Fairing.label fairing); Str " Specifications"]) l)).
    { intros l. apply Forall_forall. intros r Hr. apply in_map_iff in Hr.
      destruct Hr as (v & <- & _). unfold notAdjacency; simpl; discriminate. }
    destruct (negb _); destruct (ltb _ 0.6);
      rewrite ?Forall_app; repeat split; try apply Hmap;
      repeat constructor; unfold notAdjacency; simpl; discriminate.
  - intros E. injection E as <-. pushes_notAdjacency.
Qed.

Lemma validateCrewRequirements_notAdjacency (design : HabitatDesign.t) :
  Forall notAdjacency (validateCrewRequirements design).
Proof. unfold validateCrewRequirements. pushes_notAdjacency. Qed.

Lemma validateSafetyRequirements_notAdjacency (design : HabitatDesign.t) :
  Forall notAdjacency (validateSafetyRequirements design).
Proof.
  unfold validateSafetyRequirements.
  assert (Hmap : forall l,
             Forall notAdjacency
               (map (fun moduleType =>
                       finding Category.safety Severity.error
                         [Str "Missing essential module: "; Str moduleType]
                         [Str "Add "; Str moduleType; Str " module for mission safety"]
                         None [Str "NASA-STD-3001-V2"]) l)).
  { intros l. apply Forall_forall. intros r Hr. apply in_map_iff in Hr.
    destruct Hr as (v & <- & _). unfold notAdjacency; simpl; discriminate. }
  repeat match goal with
         | |- context [if ?c then _ else _] => destruct c
         end;
    rewrite ?Forall_app; repeat split; try apply Hmap;
    repeat constructor; unfold notAdjacency; simpl; discriminate.
Qed.

Lemma validateLifeSupportRequirements_notAdjacency (design : HabitatDesign.t)
  (lifeSupport : list ValidationResult.t) :
  validateLifeSupportRequirements design = Ok lifeSupport ->
  Forall notAdjacency lifeSupport.
Proof.
  unfold validateLifeSupportRequirements.
  destruct (div _ _); cbn [bind]; try discriminate.
  intros E. injection E as <-. pushes_notAdjacency.
Qed.

(** The adjacency findings of [validateDesign] are those of the module
    check. *)
Lemma countCiting_validateDesign (design : HabitatDesign.t)
  (results : list ValidationResult.t) (s : Severity.t) (a b : string) :
  validateDesign design = Ok results ->
  countCiting s a b results = countCiting s a b (validateModuleRequirements design).
Proof.
  intros H.
  destruct (validateDesign_Ok _ _ H) as (volume & launch & lifeSupport & Hv & Hl & Hs & ->).
  rewrite !countCiting_app.
  rewrite (countCiting_notAdjacency _ _ _ volume)
    by now apply validateVolumeRequirements_notAdjacency with design.
  rewrite (countCiting_notAdjacency _ _ _ launch)
    by now apply validateLaunchConstraints_notAdjacency with design.
  rewrite (countCiting_notAdjacency _ _ _ (validateCrewRequirements design))
    by apply validateCrewRequirements_notAdjacency.
  rewrite (countCiting_notAdjacency _ _ _ (validateSafetyRequirements design))
    by apply validateSafetyRequirements_notAdjacency.
  rewrite (countCiting_notAdjacency _ _ _ lifeSupport)
    by now apply validateLifeSupportRequirements_notAdjacency with design.
  lia.
Qed.

(** The count of the findings citing [a] and [b] among those pushed by a
    loop over a list of ids that pushes [make r] when [test r] holds. *)
Lemma countCiting_loop (s : Severity.t) (a b : string) (k : bool)
  (test : string -> bool) (make : string -> ValidationResult.t) (l : list string) :
  (forall r, cites s a b (make r) = k && String.eqb r b) ->
  countCiting s a b (flat_map (fun r => if test r then [make r] else []) l)
  = if k && test b then count_occ string_dec l b else 0%nat.
Proof.
  intros Hmake. induction l as [|r l IH].
  - simpl. now destruct (k && test b).
  - cbn [flat_map]. rewrite countCiting_app, IH. cbn [count_occ].
    destruct (string_dec r b) as [->|Hne].
    + destruct (test b); unfold countCiting; simpl.
      * rewrite Hmake, String.eqb_refl, andb_true_r. destruct k; simpl; lia.
      * now rewrite andb_false_r.
    + destruct (test r); unfold countCiting; simpl; [|reflexivity].
      rewrite Hmake. apply String.eqb_neq in Hne. rewrite Hne, andb_false_r. reflexivity.
Qed.

Lemma cites_adjacencyWarning (design : HabitatDesign.t) (module : FunctionalModule.t)
  (s : Severity.t) (a b r : string) :
  cites s a b (adjacencyWarning design module r)
  = (Severity_eqb Severity.warning s && String.eqb (FunctionalModule.id module) a)
    && String.eqb r b.
Proof. unfold cites; simpl. now rewrite andb_assoc. Qed.

Lemma cites_restrictionError (design : HabitatDesign.t) (module : FunctionalModule.t)
  (s : Severity.t) (a b r : string) :
  cites s a b (restrictionError design module r)
  = (Severity_eqb Severity.error s && String.eqb (FunctionalModule.id module) a)
    && String.eqb r b.
Proof. unfold cites; simpl. now rewrite andb_assoc. Qed.

(** The adjacency findings pushed for one module: warnings for the required
    ids without connection, errors for the restricted ids with one. *)
Lemma countCiting_moduleFindings (design : HabitatDesign.t) (module : FunctionalModule.t)
  (s : Severity.t) (a b : string) :
  countCiting s a b (moduleFindings design module)
  = if String.eqb (FunctionalModule.id module) a
    then match s with
         | Severity.warning =>
             if hasConnection design a b then 0%nat
             else count_occ string_dec (FunctionalModule.adjacencyRequirements module) b
         | Severity.error =>
             if hasConnection design a b
             then count_occ string_dec (FunctionalModule.adjacencyRestrictions module) b
             else 0%nat
         | Severity.info => 0%nat
         end
    else 0%nat.
Proof.
  unfold moduleFindings. rewrite !countCiting_app.
  rewrite (countCiting_loop s a b
             (Severity_eqb Severity.warning s && String.eqb (FunctionalModule.id module) a)
             (fun r => negb (hasConnection design (FunctionalModule.id module) r))
             (adjacencyWarning design module))
    by (intros r; apply cites_adjacencyWarning).
  rewrite (countCiting_loop s a b
             (Severity_eqb Severity.error s && String.eqb (FunctionalModule.id module) a)
             (fun r => hasConnection design (FunctionalModule.id module) r)
             (restrictionError design module))
    by (intros r; apply cites_restrictionError).
  assert (Hvol : countCiting s a b
                   match lookup (toUpperCase
                                   (ModuleType_value (FunctionalModule.type module)))
                           MODULE_TYPES with
                   | Some moduleConfig =>
                       if ltb (FunctionalModule.volume module)
                            (ModuleConfig.min_volume moduleConfig)
                       then [volumeWarning module moduleConfig]
                       else []
                   | None => []
                   end = 0%nat).
  { apply countCiting_notAdjacency.
    destruct (lookup _ MODULE_TYPES); [destruct (ltb _ _)|];
      repeat constructor; unfold notAdjacency; simpl; discriminate. }
  rewrite Hvol.
  destruct (String.eqb_spec (FunctionalModule.id module) a) as [->|Hne];
    destruct s; simpl; rewrite ?andb_false_r; simpl;
    try destruct (hasConnection design a b); simpl; lia.
Qed.

(** With unique module ids, the adjacency findings citing module [M] first
    are those pushed for [M]. *)
Lemma countCiting_modules (design : HabitatDesign.t) (M : FunctionalModule.t)
  (s : Severity.t) (b : string) (l : list FunctionalModule.t) :
  NoDup (map FunctionalModule.id l) ->
  In M l ->
  countCiting s (FunctionalModule.id M) b (flat_map (moduleFindings design) l)
  = countCiting s (FunctionalModule.id M) b (moduleFindings design M).
Proof.
  induction l as [|X l IH]; intros Hnd Hin; [contradiction|].
  cbn [map] in Hnd. apply NoDup_cons_iff in Hnd. destruct Hnd as [Hx Hnd].
  cbn [flat_map]. rewrite countCiting_app.
  destruct Hin as [->|Hin].
  - assert (Hrest : countCiting s (FunctionalModule.id M) b
                      (flat_map (moduleFindings design) l) = 0%nat).
    { clear IH Hnd. induction l as [|Y l IHl]; [reflexivity|].
      cbn [flat_map]. rewrite countCiting_app, IHl.
      - rewrite countCiting_moduleFindings.
        destruct (String.eqb_spec (FunctionalModule.id Y) (FunctionalModule.id M)) as [E|_];
          [|reflexivity].
        exfalso. apply Hx. left. assumption.
      - intros H. apply Hx. right. assumption. }
    rewrite Hrest. lia.
  - rewrite IH by assumption.
    rewrite (countCiting_moduleFindings design X).
    destruct (String.eqb_spec (FunctionalModule.id X) (FunctionalModule.id M)) as [E|_];
      [|reflexivity].
    exfalso. apply Hx. rewrite E. now apply in_map.
Qed.

(** *** Adding a connection *)

Lemma hasConnection_addConnection (design : HabitatDesign.t)
  (generatedId fromId toId : string) (type : ConnectionType) (a b : string) :
  hasConnection (addConnection design generatedId fromId toId type) a b
  = hasConnection design a b
    || ((String.eqb fromId a && String.eqb toId b)
        || (String.eqb toId a && String.eqb fromId b)).
Proof.
  unfold hasConnection, addConnection. cbn [HabitatDesign.connections].
  rewrite existsb_app. cbn [existsb Connection.fromModuleId Connection.toModuleId].
  now rewrite orb_false_r.
Qed.

(** The connection between [a] and [b], in either direction. *)
Lemma hasConnection_added (design : HabitatDesign.t)
  (generatedId fromId toId : string) (type : ConnectionType) (a b : string) :
  (fromId = a /\ toId = b) \/ (fromId = b /\ toId = a) ->
  hasConnection (addConnection design generatedId fromId toId type) a b = true.
Proof.
  intros H. rewrite hasConnection_addConnection.
  destruct H as [[-> ->]|[-> ->]]; rewrite !String.eqb_refl; simpl;
    rewrite ?orb_true_r; reflexivity.
Qed.

(** The other sub-checks do not read the connections: after [addConnection]
    the run differs in the module check only. *)
Lemma validateDesign_addConnection (design : HabitatDesign.t)
  (generatedId fromId toId : string) (type : ConnectionType)
  (results : list ValidationResult.t) :
  validateDesign design = Ok results ->
  exists before after,
    results = before ++ validateModuleRequirements design ++ after
    /\ validateDesign (addConnection design generatedId fromId toId type)
       = Ok (before
             ++ validateModuleRequirements
                  (addConnection design generatedId fromId toId type)
             ++ after).
Proof.
  intros H.
  destruct (validateDesign_Ok _ _ H) as (volume & launch & lifeSupport & Hv & Hl & Hs & ->).
  exists (volume ++ launch ++ validateCrewRequirements design
          ++ validateSafetyRequirements design), lifeSupport.
  split; [now rewrite <- !app_assoc|].
  unfold validateDesign.
  change (validateVolumeRequirements (addConnection design generatedId fromId toId type))
    with (validateVolumeRequirements design).
  change (validateLaunchConstraints (addConnection design generatedId fromId toId type))
    with (validateLaunchConstraints design).
  change (validateLifeSupportRequirements
            (addConnection design generatedId fromId toId type))
    with (validateLifeSupportRequirements design).
  rewrite Hv, Hl, Hs. cbn [bind].
  change (validateCrewRequirements (addConnection design generatedId fromId toId type))
    with (validateCrewRequirements design).
  change (validateSafetyRequirements (addConnection design generatedId fromId toId type))
    with (validateSafetyRequirements design).
  now rewrite <- !app_assoc.
Qed.

(** When neither end of the new connection lists the other among its
    restrictions, the findings pushed for a module after [addConnection]
    were pushed before. *)
Lemma moduleFindings_addConnection_incl (design : HabitatDesign.t)
  (generatedId fromId toId : string) (type : ConnectionType)
  (X : FunctionalModule.t) :
  (FunctionalModule.id X = fromId -> ~ In toId (FunctionalModule.adjacencyRestrictions X)) ->
  (FunctionalModule.id X = toId -> ~ In fromId (FunctionalModule.adjacencyRestrictions X)) ->
  incl (moduleFindings (addConnection design generatedId fromId toId type) X)
       (moduleFindings design X).
Proof.
  intros Hfrom Hto r. unfold moduleFindings. rewrite !in_app_iff, !in_flat_map.
  intros [(q & Hq & Hr)|[(q & Hq & Hr)|Hr]].
  - left. exists q. split; [assumption|].
    rewrite hasConnection_addConnection in Hr.
    destruct (hasConnection design (FunctionalModule.id X) q); [destruct Hr|].
    simpl in Hr |- *.
    destruct (_ || _) in Hr; [destruct Hr|]. exact Hr.
  - right; left. exists q. split; [assumption|].
    rewrite hasConnection_addConnection in Hr.
    destruct (hasConnection design (FunctionalModule.id X) q); [exact Hr|].
    simpl in Hr.
    destruct (String.eqb_spec fromId (FunctionalModule.id X)) as [E1|_];
      destruct (String.eqb_spec toId q) as [E2|_];
      destruct (String.eqb_spec toId (FunctionalModule.id X)) as [E3|_];
      destruct (String.eqb_spec fromId q) as [E4|_];
      simpl in Hr; try destruct Hr; exfalso;
      try (apply Hfrom; [now symmetry | now rewrite E2]);
      try (apply Hto; [now symmetry | now rewrite E4]).
  - right; right. exact Hr.
Qed.

(** The surface area of the cylinder of the example designs. *)
Lemma calculateSurfaceArea_cylinder_4_12 :
  HabitatGeometry.calculateSurfaceArea (cylinder 4 12) = Ok (2 * PI * 4 * (4 + 12)).
Proof.
  unfold cylinder, HabitatGeometry.calculateSurfaceArea.
  cbn [HabitatDimensions.shape HabitatDimensions.radius HabitatDimensions.height].
  rewrite !falsy_nonzero, !or_else_nonzero by lra. reflexivity.
Qed.

(** C8, counterexample: module A lists B twice among its requirements and
    once among its restrictions.  Without connection [validateDesign]
    returns two warnings citing A and B, not one; after [addConnection]
    between A and B it returns an error citing A and B that was not there
    before. *)
Lemma validateDesign_adjacency_conflict :
  exists results results',
    validateDesign conflictingDesign = Ok results
    /\ validateDesign (addConnection conflictingDesign "c1" "A" "B" corridor) = Ok results'
    /\ countCiting Severity.warning "A" "B" results = 2%nat
    /\ countCiting Severity.error "A" "B" results = 0%nat
    /\ countCiting Severity.error "A" "B" results' = 1%nat.
Proof.
  destruct (validateDesign_returns conflictingDesign (2 * PI * 4 * (4 + 12)))
    as [results Hres];
    [simpl; lra | simpl; lra | apply calculateSurfaceArea_cylinder_4_12 |].
  destruct (validateDesign_returns
              (addConnection conflictingDesign "c1" "A" "B" corridor)
              (2 * PI * 4 * (4 + 12)))
    as [results' Hres'];
    [simpl; lra | simpl; lra | apply calculateSurfaceArea_cylinder_4_12 |].
  exists results, results'. repeat split; try assumption.
  - rewrite (countCiting_validateDesign _ _ _ _ _ Hres).
    unfold validateModuleRequirements, conflictingDesign, designOf.
    cbn [HabitatDesign.modules flat_map]. rewrite !countCiting_app.
    rewrite !countCiting_moduleFindings. reflexivity.
  - rewrite (countCiting_validateDesign _ _ _ _ _ Hres).
    unfold validateModuleRequirements, conflictingDesign, designOf.
    cbn [HabitatDesign.modules flat_map]. rewrite !countCiting_app.
    rewrite !countCiting_moduleFindings. reflexivity.
  - rewrite (countCiting_validateDesign _ _ _ _ _ Hres').
    unfold validateModuleRequirements, conflictingDesign, designOf, addConnection.
    cbn [HabitatDesign.modules flat_map]. rewrite !countCiting_app.
    rewrite !countCiting_moduleFindings. reflexivity.
Qed.

(** C8, as amended: in a design with unique module ids, for every module M,
    (1) for every id R without connection to M, [validateDesign] returns as
    many warnings citing M and R as R occurs in the adjacency requirements
    of M (exactly one when R is listed once);
    (2) for every id S with a connection to M, it returns as many errors
    citing M and S as S occurs in the adjacency restrictions of M;
    (3) after [addConnection] between M and R, in either direction, the
    next run returns no warning citing M and R, and every finding it returns
    was returned before, provided that no module with the id of M lists R,
    and no module with the id R lists M, among its adjacency restrictions. *)
Theorem validateDesign_adjacency (design : HabitatDesign.t) (M : FunctionalModule.t) :
  NoDup (map FunctionalModule.id (HabitatDesign.modules design)) ->
  In M (HabitatDesign.modules design) ->
  (forall R results,
      hasConnection design (FunctionalModule.id M) R = false ->
      validateDesign design = Ok results ->
      countCiting Severity.warning (FunctionalModule.id M) R results
      = count_occ string_dec (FunctionalModule.adjacencyRequirements M) R)
  /\ (forall S results,
        hasConnection design (FunctionalModule.id M) S = true ->
        validateDesign design = Ok results ->
        countCiting Severity.error (FunctionalModule.id M) S results
        = count_occ string_dec (FunctionalModule.adjacencyRestrictions M) S)
  /\ (forall R generatedId fromId toId type results,
        (fromId = FunctionalModule.id M /\ toId = R)
        \/ (fromId = R /\ toId = FunctionalModule.id M) ->
        validateDesign design = Ok results ->
        exists results',
          validateDesign (addConnection design generatedId fromId toId type) = Ok results'
          /\ countCiting Severity.warning (FunctionalModule.id M) R results' = 0%nat
          /\ ((forall X,
                  In X (HabitatDesign.modules design) ->
                  (FunctionalModule.id X = FunctionalModule.id M ->
                   ~ In R (FunctionalModule.adjacencyRestrictions X))
                  /\ (FunctionalModule.id X = R ->
                      ~ In (FunctionalModule.id M)
                          (FunctionalModule.adjacencyRestrictions X))) ->
              incl results' results)).
Proof.
  intros Hnd HM. split; [|split].
  - intros R results Hc H.
    rewrite (countCiting_validateDesign _ _ _ _ _ H).
    unfold validateModuleRequirements. rewrite countCiting_modules by assumption.
    rewrite countCiting_moduleFindings, String.eqb_refl, Hc. reflexivity.
  - intros S results Hc H.
    rewrite (countCiting_validateDesign _ _ _ _ _ H).
    unfold validateModuleRequirements. rewrite countCiting_modules by assumption.
    rewrite countCiting_moduleFindings, String.eqb_refl, Hc. reflexivity.
  - intros R generatedId fromId toId type results Hends H.
    destruct (validateDesign_addConnection design generatedId fromId toId type results H)
      as (before & after & -> & H').
    eexists. split; [exact H'|]. split.
    + rewrite (countCiting_validateDesign _ _ _ _ _ H').
      unfold validateModuleRequirements.
      change (HabitatDesign.modules (addConnection design generatedId fromId toId type))
        with (HabitatDesign.modules design).
      rewrite countCiting_modules by assumption.
      rewrite countCiting_moduleFindings, String.eqb_refl.
      now rewrite hasConnection_added.
    + intros Hrestr r. rewrite !in_app_iff.
      intros [Hr|[Hr|Hr]]; [now left | | now right; right].
      right; left. unfold validateModuleRequirements in *.
      change (HabitatDesign.modules (addConnection design generatedId fromId toId type))
        with (HabitatDesign.modules design) in Hr.
      apply in_flat_map in Hr. destruct Hr as (X & HX & Hr).
      apply in_flat_map. exists X. split; [assumption|].
      revert Hr. apply moduleFindings_addConnection_incl.
      * destruct Hends as [[-> ->]|[-> ->]]; intros E; now apply (Hrestr X HX).
      * destruct Hends as [[-> ->]|[-> ->]]; intros E; now apply (Hrestr X HX).
Qed.

(** C8, witness: module A requires adjacency to B and there is no
    connection: exactly one warning cites A and B; after [addConnection]
    between A and B there is none, and no finding is new. *)
Lemma validateDesign_adjacency_witness :
  exists results results',
    validateDesign requiringDesign = Ok results
    /\ countCiting Severity.warning "A" "B" results = 1%nat
    /\ validateDesign (addConnection requiringDesign "c1" "A" "B" corridor) = Ok results'
    /\ countCiting Severity.warning "A" "B" results' = 0%nat
    /\ incl results' results.
Proof.
  destruct (validateDesign_returns requiringDesign (2 * PI * 4 * (4 + 12)))
    as [results Hres];
    [simpl; lra | simpl; lra | apply calculateSurfaceArea_cylinder_4_12 |].
  assert (Hnd : NoDup (map FunctionalModule.id (HabitatDesign.modules requiringDesign))).
  { simpl. repeat constructor; simpl; intuition discriminate. }
  pose (A := exampleModule "A" LABORATORY "Lab" 30 ["B"] []).
  assert (HA : In A (HabitatDesign.modules requiringDesign)) by (left; reflexivity).
  destruct (validateDesign_adjacency requiringDesign A Hnd HA) as (H1 & _ & H3).
  destruct (H3 "B" "c1" "A" "B" corridor results (or_introl (conj eq_refl eq_refl)) Hres)
    as (results' & Hres' & Hnone & Hincl).
  exists results, results'. repeat split; try assumption.
  - apply (H1 "B" results); [reflexivity | assumption].
  - apply Hincl. intros X [<-|[<-|[]]]; simpl; split; intros _ [].
Defined.

End Adjacency.

(** * Further properties of the geometry, the validator and the store *)

(** ** Surface area *)

Section SurfaceArea.
Import HabitatDimensions HabitatGeometry.

Lemma falsy_presentPositive (o : option R) : presentPositive o -> falsy o = false.
Proof. intros [x [-> Hx]]. apply falsy_nonzero. lra. Qed.

Lemma or_else_presentPositive (o : option R) (d : R) :
  presentPositive o -> 0 < or_else o d /\ o = Some (or_else o d).
Proof.
  intros [x [-> Hx]]. rewrite or_else_nonzero by lra. split; [assumption | reflexivity].
Qed.

Lemma calculateSurfaceArea_throws (d : HabitatDimensions.t) :
  (exists e, calculateSurfaceArea d = Throw e)
  <-> shape d = CUSTOM \/ existsb falsy (requiredFields d) = true.
Proof.
  unfold calculateSurfaceArea, requiredFields.
  destruct (shape d); cbn [existsb]; rewrite ?orb_false_r, ?orb_assoc;
    try (split;
         [ intros [e He]; right;
           match goal with
           | |- ?g = true => destruct g; [reflexivity|]
           end;
           try discriminate;
           unfold Math_sqrt, bind in He; destruct (ltb _ 0); discriminate
         | intros [H|H]; [discriminate|]; rewrite H; eexists; reflexivity ]).
  split; [now left | intros _; eexists; reflexivity].
Qed.

(** X1: [calculateSurfaceArea] throws exactly on the custom shape and on a
    shape one of whose fields is absent or zero; a negative field is
    accepted. *)
Theorem calculateSurfaceArea_throws_iff (d : HabitatDimensions.t) :
  (exists e, calculateSurfaceArea d = Throw e)
  <-> shape d = CUSTOM \/ existsb falsy (requiredFields d) = true.
Proof. exact (calculateSurfaceArea_throws d). Qed.

(** X2: when the fields of the shape are present and positive,
    [calculateSurfaceArea] returns a positive area for the cylinder, sphere,
    torus, inflatable and modular shapes.  For a dome of radius [r] and
    height [h] it takes the square root of [2 * r * h - h * h]: when this
    is not negative it returns the positive area
    [2 * PI * r * h + PI * base * base] for that root [base], and when it
    is negative (a dome higher than its diameter) the result leaves the
    finite numbers. *)
Theorem calculateSurfaceArea_positive (d : HabitatDimensions.t) :
  Forall presentPositive (requiredFields d) ->
  (shape d <> CUSTOM -> shape d <> DOME ->
   exists area, calculateSurfaceArea d = Ok area /\ 0 < area)
  /\ (forall r h, 0 < r -> 0 < h ->
      (0 <= 2 * r * h - h * h ->
       calculateSurfaceArea (dome r h)
       = Ok (2 * PI * r * h
             + PI * sqrt (2 * r * h - h * h) * sqrt (2 * r * h - h * h))
       /\ 0 < 2 * PI * r * h
              + PI * sqrt (2 * r * h - h * h) * sqrt (2 * r * h - h * h))
      /\ (2 * r * h - h * h < 0 -> calculateSurfaceArea (dome r h) = NotFinite)).
Proof.
  intros Hreq. pose proof PI_RGT_0 as Hpi. split.
  - intros Hc Hd. unfold calculateSurfaceArea. unfold requiredFields in Hreq.
    destruct (shape d); try congruence;
      repeat match goal with
             | H : Forall _ (_ :: _) |- _ => inversion H; subst; clear H
             end;
      repeat match goal with
             | H : presentPositive ?o |- _ =>
                 rewrite (falsy_presentPositive o H);
                 let Hp := fresh "Hp" in
                 destruct (or_else_presentPositive o 0 H) as [Hp _];
                 clear H
             end;
      cbn [orb]; eexists; (split; [reflexivity|]);
      unfold Math_pow; cbn [pow]; first [positive_product | nra].
  - intros r h Hr Hh. unfold calculateSurfaceArea, dome.
    cbn [shape domeRadius domeHeight].
    rewrite !falsy_nonzero, !or_else_nonzero by lra. cbn [orb].
    unfold Math_sqrt. split; intros Hrh.
    + assert (Hlt : ltb (2 * r * h - h * h) 0 = false) by (apply ltb_false; lra).
      rewrite Hlt. cbn [bind]. split; [reflexivity|].
      pose proof (sqrt_pos (2 * r * h - h * h)) as Hbase.
      assert (H1 : 0 < 2 * PI * r * h) by positive_product.
      assert (H2 : 0 <= PI * sqrt (2 * r * h - h * h) * sqrt (2 * r * h - h * h)).
      { apply Rmult_le_pos; [apply Rmult_le_pos|]; lra. }
      lra.
    + assert (Hlt : ltb (2 * r * h - h * h) 0 = true) by (apply ltb_true; lra).
      now rewrite Hlt.
Qed.

(** X2, witness: a cylinder of radius 4 and height 12. *)
Lemma calculateSurfaceArea_positive_witness :
  exists area, calculateSurfaceArea (cylinder 4 12) = Ok area /\ 0 < area.
Proof.
  apply (proj1 (calculateSurfaceArea_positive (cylinder 4 12)
                  ltac:(repeat constructor; eexists; (split; [reflexivity | lra])))).
  - discriminate.
  - discriminate.
Defined.

End SurfaceArea.

(** ** Volume: when it throws *)

Section VolumeThrows.
Import HabitatDimensions HabitatGeometry.

(** [o || d] with a positive default is not positive only for a negative
    field. *)
Lemma or_else_nonpositive (o : option R) (d : R) :
  0 < d -> leb (or_else o d) 0 = true -> negative o.
Proof.
  intros Hd H. apply leb_true in H. unfold or_else, truthy in H.
  destruct o as [x|]; [|lra].
  destruct (Req_dec_T x 0); [lra|].
  exists x. split; [reflexivity | lra].
Qed.

Lemma leb_or_else_negative (o : option R) (d : R) :
  negative o -> leb (or_else o d) 0 = true.
Proof. intros H. apply leb_true. left. now apply or_else_negative. Qed.

Lemma calculateVolume_throws (d : HabitatDimensions.t) :
  (exists e, calculateVolume d = Throw e)
  <-> shape d = CUSTOM \/ requiredFieldNegative d.
Proof.
  unfold calculateVolume, requiredFieldNegative.
  destruct (shape d);
    try (split;
         [ intros [e He]; right;
           repeat match type of He with
                  | context [leb (or_else ?o ?dflt) 0] =>
                      let E := fresh "E" in
                      destruct (leb (or_else o dflt) 0) eqn:E;
                      [apply or_else_nonpositive in E; [tauto | lra] |]
                  end;
           discriminate
         | intros [H|H]; [discriminate|];
           repeat match type of H with
                  | _ \/ _ => destruct H as [H|H]
                  end;
           rewrite (leb_or_else_negative _ _ H), ?orb_true_r;
           eexists; reflexivity ]).
  split; [now left | intros _; eexists; reflexivity].
Qed.

(** X3: [calculateVolume] throws exactly on the custom shape and on a shape
    one of whose fields is present and negative: an absent or zero field
    never makes it throw. *)
Theorem calculateVolume_throws_iff (d : HabitatDimensions.t) :
  (exists e, calculateVolume d = Throw e)
  <-> shape d = CUSTOM \/ requiredFieldNegative d.
Proof. exact (calculateVolume_throws d). Qed.

End VolumeThrows.

(** ** Launch constraints, continued *)

Section LaunchMore.
Import HabitatDimensions HabitatGeometry.

(** X4: [getMaxDiameter] never exceeds the fairing diameter it is given,
    and for an inflatable shape it reads [radius], not [inflatedRadius]: on
    an inflatable given by its inflated radius and height it is the fairing
    diameter itself. *)
Theorem getMaxDiameter_clamped (d : HabitatDimensions.t)
  (fairingDiameter inflatedRadius inflatedHeight : R) :
  getMaxDiameter d fairingDiameter <= fairingDiameter
  /\ getMaxDiameter (inflatable inflatedRadius inflatedHeight) fairingDiameter
     = fairingDiameter.
Proof.
  split; [apply getMaxDiameter_le|].
  unfold getMaxDiameter, inflatable. cbn. unfold Rmin.
  destruct (Rle_dec fairingDiameter fairingDiameter); reflexivity.
Qed.




End LaunchMore.

(** ** Recommended dimensions for a target volume that is not positive *)

Section RecommendedEdge.
Import HabitatDimensions HabitatGeometry.
Context {runtime : MathRuntime}.

Lemma calculateVolume_of_zero_fields (aspectRatio : R) :
  calculateVolume (cylinder 0 (aspectRatio * 2 * 0)) = Ok (PI * Math_pow 4.0 2 * 12.0)
  /\ calculateVolume (sphere 0) = Ok ((4 / 3) * PI * Math_pow 5.0 3)
  /\ calculateVolume (modular 0 0 0) = Ok (10.0 * 8.0 * 6.0).
Proof.
  replace (aspectRatio * 2 * 0) with 0 by ring.
  unfold calculateVolume, cylinder, sphere, modular.
  cbn [shape radius height sphereRadius length width].
  rewrite !or_else_zero.
  assert (H4 : leb 4.0 0 = false) by (apply leb_false; lra).
  assert (H12 : leb 12.0 0 = false) by (apply leb_false; lra).
  assert (H5 : leb 5.0 0 = false) by (apply leb_false; lra).
  assert (H10 : leb 10.0 0 = false) by (apply leb_false; lra).
  assert (H8 : leb 8.0 0 = false) by (apply leb_false; lra).
  assert (H6 : leb 6.0 0 = false) by (apply leb_false; lra).
  rewrite H4, H12, H5, H10, H8, H6. repeat split.
Qed.

Lemma falsy_zero : falsy (Some 0) = true.
Proof. unfold falsy, truthy. destruct (Req_dec_T 0 0); [reflexivity | lra]. Qed.

(** X6: for the target volume 0, [generateRecommendedDimensions] returns the
    cylinder (for an aspect ratio other than 0), the sphere and the modular
    shape with every field 0.  On these [calculateVolume] takes its defaults
    and returns the volume of the default cylinder, sphere and box, not 0,
    and [calculateSurfaceArea] throws.  For a negative target volume, and
    for the cylinder with the aspect ratio 0, the result leaves the finite
    numbers. *)
Theorem generateRecommendedDimensions_not_positive (aspectRatio : R) :
  (aspectRatio <> 0 ->
   generateRecommendedDimensions CYLINDER 0 aspectRatio
   = Ok (cylinder 0 (aspectRatio * 2 * 0))
   /\ calculateVolume (cylinder 0 (aspectRatio * 2 * 0))
      = Ok (PI * Math_pow 4.0 2 * 12.0)
   /\ calculateSurfaceArea (cylinder 0 (aspectRatio * 2 * 0))
      = Throw (InvalidDimensions "Cylinder requires radius and height"))
  /\ (generateRecommendedDimensions SPHERE 0 aspectRatio = Ok (sphere 0)
      /\ calculateVolume (sphere 0) = Ok ((4 / 3) * PI * Math_pow 5.0 3)
      /\ calculateSurfaceArea (sphere 0)
         = Throw (InvalidDimensions "Sphere requires sphereRadius"))
  /\ (generateRecommendedDimensions MODULAR 0 aspectRatio = Ok (modular 0 0 0)
      /\ calculateVolume (modular 0 0 0) = Ok (10.0 * 8.0 * 6.0)
      /\ calculateSurfaceArea (modular 0 0 0)
         = Throw (InvalidDimensions "Modular requires length, width, and height"))
  /\ (forall targetVolume,
        targetVolume < 0 ->
        generateRecommendedDimensions SPHERE targetVolume aspectRatio = NotFinite
        /\ generateRecommendedDimensions MODULAR targetVolume aspectRatio = NotFinite
        /\ (0 < aspectRatio ->
            generateRecommendedDimensions CYLINDER targetVolume aspectRatio = NotFinite))
  /\ (forall targetVolume,
        aspectRatio = 0 ->
        generateRecommendedDimensions CYLINDER targetVolume aspectRatio = NotFinite).
Proof.
  pose proof PI_RGT_0 as Hpi.
  destruct (calculateVolume_of_zero_fields aspectRatio) as (Hc & Hs & Hm).
  split; [|split; [|split; [|split]]].
  - intros Ha. split; [|split; [exact Hc|]].
    + unfold generateRecommendedDimensions, div.
      destruct (Req_dec_T (2 * PI * aspectRatio) 0) as [E|_]; [nra|].
      cbn [bind]. replace (0 / (2 * PI * aspectRatio)) with 0 by (field; nra).
      now rewrite Math_pow_third_of_zero.
    + unfold calculateSurfaceArea, cylinder. cbn [shape radius height].
      now rewrite falsy_zero.
  - split; [|split; [exact Hs|]].
    + unfold generateRecommendedDimensions.
      replace (3 * 0 / (4 * PI)) with 0 by (field; lra).
      now rewrite Math_pow_third_of_zero.
    + unfold calculateSurfaceArea, sphere. cbn [shape sphereRadius].
      now rewrite falsy_zero.
  - split; [|split; [exact Hm|]].
    + unfold generateRecommendedDimensions. now rewrite Math_pow_third_of_zero.
    + unfold calculateSurfaceArea, modular. cbn [shape length width height].
      now rewrite falsy_zero.
  - intros targetVolume HV. split; [|split].
    + unfold generateRecommendedDimensions.
      rewrite Math_pow_third_of_negative; [reflexivity|].
      apply Ropp_lt_cancel. rewrite Ropp_0.
      replace (- (3 * targetVolume / (4 * PI)))
        with (3 * (- targetVolume) / (4 * PI)) by (field; lra).
      apply Rdiv_lt_0_compat; lra.
    + unfold generateRecommendedDimensions.
      now rewrite Math_pow_third_of_negative.
    + intros Ha. unfold generateRecommendedDimensions, div.
      destruct (Req_dec_T (2 * PI * aspectRatio) 0) as [E|_]; [nra|].
      cbn [bind]. rewrite Math_pow_third_of_negative; [reflexivity|].
      apply Ropp_lt_cancel. rewrite Ropp_0.
      replace (- (targetVolume / (2 * PI * aspectRatio)))
        with ((- targetVolume) / (2 * PI * aspectRatio)) by (field; nra).
      apply Rdiv_lt_0_compat; nra.
  - intros targetVolume ->. unfold generateRecommendedDimensions, div.
    destruct (Req_dec_T (2 * PI * 0) 0) as [_|E]; [reflexivity | exfalso; apply E; ring].
Qed.

End RecommendedEdge.

(** X6, witness: the cylinder recommended for the volume 0 with the default
    aspect ratio. *)
Lemma generateRecommendedDimensions_not_positive_witness :
  HabitatGeometry.generateRecommendedDimensions (runtime := roundingRuntime) CYLINDER 0 2.0
  = Ok (cylinder 0 (2.0 * 2 * 0))
  /\ HabitatGeometry.calculateVolume (cylinder 0 (2.0 * 2 * 0))
     = Ok (PI * Math_pow 4.0 2 * 12.0)
  /\ HabitatGeometry.calculateSurfaceArea (cylinder 0 (2.0 * 2 * 0))
     = Throw (InvalidDimensions "Cylinder requires radius and height").
Proof.
  apply (proj1 (generateRecommendedDimensions_not_positive
                  (runtime := roundingRuntime) 2.0)).
  lra.
Defined.

(** ** Moment of inertia *)

(** The three ways a dimension field stands to the two tests of the
    geometry, [!x] and [(x || d) <= 0] with a positive default [d]: absent
    or zero, negative, or positive. *)
Lemma field_status (o : option R) (d : R) :
  0 < d ->
  (falsy o = true /\ leb (or_else o d) 0 = false
   /\ ~ presentPositive o /\ ~ negative o)
  \/ (falsy o = false /\ leb (or_else o d) 0 = true
      /\ ~ presentPositive o /\ negative o)
  \/ (falsy o = false /\ leb (or_else o d) 0 = false
      /\ presentPositive o /\ ~ negative o).
Proof.
  intros Hd. destruct o as [x|].
  - destruct (Rtotal_order x 0) as [Hx|[Hx|Hx]].
    + right; left. rewrite falsy_nonzero, or_else_nonzero by lra.
      repeat split.
      * apply leb_true. lra.
      * intros [y [E Hy]]. injection E as <-. lra.
      * exists x. split; [reflexivity | assumption].
    + left. subst x. rewrite or_else_zero. unfold falsy, truthy.
      destruct (Req_dec_T 0 0); [|lra]. repeat split.
      * apply leb_false. lra.
      * intros [y [E Hy]]. injection E as <-. lra.
      * intros [y [E Hy]]. injection E as <-. lra.
    + right; right. rewrite falsy_nonzero, or_else_nonzero by lra.
      repeat split.
      * apply leb_false. lra.
      * exists x. split; [reflexivity | assumption].
      * intros [y [E Hy]]. injection E as <-. lra.
  - left. rewrite or_else_None. repeat split.
    + apply leb_false. lra.
    + intros [y [E _]]. discriminate.
    + intros [y [E _]]. discriminate.
Qed.

(** Case analysis on the status of every field tested in the goal. *)
Ltac by_field_status :=
  repeat match goal with
         | |- context [leb (or_else ?o ?dflt) 0] =>
             let Hf := fresh "Hf" in
             let Hl := fresh "Hl" in
             let Hp := fresh "Hp" in
             let Hn := fresh "Hn" in
             destruct (field_status o dflt ltac:(lra))
               as [(Hf & Hl & Hp & Hn)|[(Hf & Hl & Hp & Hn)|(Hf & Hl & Hp & Hn)]];
             rewrite Hl, ?Hf
         end.

Section MomentOfInertia.
Import HabitatDimensions HabitatGeometry.
Context {runtime : MathRuntime}.

(** X7: [calculateMomentOfInertia] computes the volume first, with its
    defaults, and then tests the fields again for the shapes it has a
    formula for.  So for the cylinder, sphere and modular shapes it returns
    without exception exactly when every field of the shape is present and
    positive; for the torus, dome and inflatable shapes, which it
    approximates, it throws exactly when a field is negative (an absent
    field takes its default); on the custom shape it throws the
    unsupported-shape error of the volume. *)
Theorem calculateMomentOfInertia_throws (d : HabitatDimensions.t) :
  (shape d = CYLINDER \/ shape d = SPHERE \/ shape d = MODULAR ->
   ((forall e, calculateMomentOfInertia d <> Throw e)
    <-> Forall presentPositive (requiredFields d)))
  /\ (shape d = TORUS \/ shape d = DOME \/ shape d = INFLATABLE ->
      ((exists e, calculateMomentOfInertia d = Throw e) <-> requiredFieldNegative d))
  /\ (shape d = CUSTOM -> calculateMomentOfInertia d = Throw (UnsupportedShape CUSTOM)).
Proof.
  unfold calculateMomentOfInertia, calculateVolume, requiredFields, requiredFieldNegative.
  split; [|split]; intros Hs.
  - destruct (shape d); try (destruct Hs as [Hs|[Hs|Hs]]; discriminate);
      by_field_status; cbn [orb bind];
      (split;
       [ intros H; try (exfalso; eapply H; reflexivity);
         repeat constructor; assumption
       | intros H; inversion H; subst;
         repeat match goal with
                | Hx : Forall _ (_ :: _) |- _ => inversion Hx; subst; clear Hx
                end;
         try contradiction; intros e; discriminate ]).
  - destruct (shape d); try (destruct Hs as [Hs|[Hs|Hs]]; discriminate);
      by_field_status; cbn [orb bind];
      (split;
       [ intros [e He];
         first [ discriminate
               | tauto
               | unfold Math_pow_third, bind in He;
                 repeat match type of He with
                        | context [if ?c then _ else _] => destruct c
                        end;
                 discriminate ]
       | intros H; first [eexists; reflexivity | exfalso; tauto] ]).
  - now rewrite Hs.
Qed.

(** X8: for a torus, dome or inflatable shape, [calculateMomentOfInertia]
    returns three equal moments that it computes from the volume [V] alone:
    [(2 / 5) * mass * Math.pow(approxRadius, 2)] with the mass [V * 1000]
    and the radius [Math.pow((3 * V) / (4 * PI), 1 / 3)].  So two such
    shapes of equal volume get equal moments, whatever their proportions.
    When the volume is negative (a dome higher than three times its radius)
    the result leaves the finite numbers. *)
Theorem calculateMomentOfInertia_sphere_equivalent (d : HabitatDimensions.t) (volume : R) :
  shape d = TORUS \/ shape d = DOME \/ shape d = INFLATABLE ->
  calculateVolume d = Ok volume ->
  (0 <= volume ->
   exists approxRadius,
     Math_pow_third ((3 * volume) / (4 * PI)) = Ok approxRadius
     /\ 0 <= approxRadius
     /\ calculateMomentOfInertia d
        = Ok (Inertia.mk ((2 / 5) * (volume * 1000) * Math_pow approxRadius 2)
                ((2 / 5) * (volume * 1000) * Math_pow approxRadius 2)
                ((2 / 5) * (volume * 1000) * Math_pow approxRadius 2)))
  /\ (volume < 0 -> calculateMomentOfInertia d = NotFinite)
  /\ (forall d',
        shape d' = TORUS \/ shape d' = DOME \/ shape d' = INFLATABLE ->
        calculateVolume d' = Ok volume ->
        calculateMomentOfInertia d' = calculateMomentOfInertia d).
Proof.
  intros Hs Hv. pose proof PI_RGT_0 as Hpi.
  split; [|split].
  - intros Hsign.
    assert (Hthird : exists approxRadius,
               Math_pow_third ((3 * volume) / (4 * PI)) = Ok approxRadius
               /\ 0 <= approxRadius).
    { destruct Hsign as [Hpos|<-].
      - assert (Hq : 0 < 3 * volume / (4 * PI)) by (apply Rdiv_lt_0_compat; lra).
        exists (pow_third (3 * volume / (4 * PI))).
        split; [now apply Math_pow_third_of_positive|].
        left. now apply pow_third_positive.
      - exists 0. split; [|lra].
        replace (3 * 0 / (4 * PI)) with 0 by (field; lra).
        apply Math_pow_third_of_zero. }
    destruct Hthird as (approxRadius & Er & Hr).
    exists approxRadius. split; [assumption|]. split; [assumption|].
    unfold calculateMomentOfInertia. rewrite Hv. cbn [bind].
    destruct Hs as [Hs|[Hs|Hs]]; rewrite Hs, Er; reflexivity.
  - intros Hsign.
    assert (Hq : 3 * volume / (4 * PI) < 0).
    { apply Ropp_lt_cancel. rewrite Ropp_0.
      replace (- (3 * volume / (4 * PI))) with (3 * (- volume) / (4 * PI)) by (field; lra).
      apply Rdiv_lt_0_compat; lra. }
    unfold calculateMomentOfInertia. rewrite Hv. cbn [bind].
    destruct Hs as [Hs|[Hs|Hs]];
      rewrite Hs, (Math_pow_third_of_negative _ Hq); reflexivity.
  - intros d' Hs' Hv'.
    unfold calculateMomentOfInertia. rewrite Hv, Hv'. cbn [bind].
    destruct Hs as [Hs|[Hs|Hs]]; destruct Hs' as [Hs'|[Hs'|Hs']];
      rewrite Hs, Hs'; reflexivity.
Qed.

End MomentOfInertia.

(** X7, witness: the cylinder of radius 4 and height 12 has its moments. *)
Lemma calculateMomentOfInertia_throws_witness :
  HabitatGeometry.calculateMomentOfInertia (runtime := roundingRuntime) (cylinder 4 12)
  <> Throw (InvalidDimensions "Cylinder requires radius and height").
Proof.
  apply (proj2 (proj1 (calculateMomentOfInertia_throws (runtime := roundingRuntime)
                         (cylinder 4 12))
                  (or_introl eq_refl))).
  repeat constructor; eexists; (split; [reflexivity | lra]).
Defined.

(** X8, witness: the torus of radii 8 and 3. *)
Lemma calculateMomentOfInertia_sphere_equivalent_witness :
  exists approxRadius,
    Math_pow_third (runtime := roundingRuntime)
      ((3 * (2 * Math_pow PI 2 * 8 * Math_pow 3 2)) / (4 * PI))
    = Ok approxRadius
    /\ 0 <= approxRadius
    /\ HabitatGeometry.calculateMomentOfInertia (runtime := roundingRuntime) (torus 8 3)
       = Ok (Inertia.mk
               ((2 / 5) * (2 * Math_pow PI 2 * 8 * Math_pow 3 2 * 1000)
                * Math_pow approxRadius 2)
               ((2 / 5) * (2 * Math_pow PI 2 * 8 * Math_pow 3 2 * 1000)
                * Math_pow approxRadius 2)
               ((2 / 5) * (2 * Math_pow PI 2 * 8 * Math_pow 3 2 * 1000)
                * Math_pow approxRadius 2)).
Proof.
  assert (Hv : HabitatGeometry.calculateVolume (torus 8 3)
               = Ok (2 * Math_pow PI 2 * 8 * Math_pow 3 2)).
  { unfold HabitatGeometry.calculateVolume, torus.
    cbn [HabitatDimensions.shape HabitatDimensions.majorRadius
         HabitatDimensions.minorRadius].
    rewrite !or_else_nonzero by lra.
    assert (H1 : leb 8 0 = false) by (apply leb_false; lra).
    assert (H2 : leb 3 0 = false) by (apply leb_false; lra).
    now rewrite H1, H2. }
  apply (proj1 (calculateMomentOfInertia_sphere_equivalent (runtime := roundingRuntime)
                  (torus 8 3) _ (or_introl eq_refl) Hv)).
  pose proof PI_RGT_0. unfold Math_pow. cbn [pow]. left. positive_product.
Defined.

(** ** Mission duration and crew *)

(** Every comparison of the goal, by cases, each case with its inequality
    as a hypothesis. *)
Ltac by_comparisons :=
  unfold gtb, geb in *;
  repeat match goal with
         | |- context [ltb ?a ?b] =>
             let E := fresh "E" in
             destruct (ltb a b) eqn:E;
             [apply ltb_true in E | apply ltb_false in E]
         | |- context [leb ?a ?b] =>
             let E := fresh "E" in
             destruct (leb a b) eqn:E;
             [apply leb_true in E | apply leb_false in E]
         end.

Section Crew.
Import HabitatValidator.

(** The category of a duration: the range that holds it, and [EXTENDED]
    when no range does. *)
Lemma getMissionDurationCategory_cases (duration : R) :
  (getMissionDurationCategory duration = "SHORT_TERM" /\ 1 <= duration <= 30)
  \/ (getMissionDurationCategory duration = "MEDIUM_TERM" /\ 31 <= duration <= 180)
  \/ (getMissionDurationCategory duration = "LONG_TERM" /\ 181 <= duration <= 500)
  \/ (getMissionDurationCategory duration = "EXTENDED"
      /\ (501 <= duration <= 1000
          \/ duration < 1 \/ 30 < duration < 31 \/ 180 < duration < 181
          \/ 500 < duration < 501 \/ 1000 < duration < 1001))
  \/ (getMissionDurationCategory duration = "PERMANENT" /\ 1001 <= duration).
Proof.
  unfold getMissionDurationCategory, MISSION_DURATIONS, firstCategory.
  cbn [DurationRange.min DurationRange.max].
  by_comparisons; cbn [andb]; try lra;
    first [ left; split; [reflexivity | lra]
          | right; left; split; [reflexivity | lra]
          | right; right; left; split; [reflexivity | lra]
          | right; right; right; left; split; [reflexivity | lra]
          | right; right; right; right; split; [reflexivity | lra] ].
Qed.

(** X9: [getMissionDurationCategory] returns the name of the range of
    [MISSION_DURATIONS] that holds the duration.  The ranges have integer
    bounds, so a duration below 1 day or strictly between two ranges (30.5,
    180.5, ...) is in none: it is classed [EXTENDED], like 501 to 1000. *)
Theorem getMissionDurationCategory_spec (duration : R) :
  (1 <= duration <= 30 -> getMissionDurationCategory duration = "SHORT_TERM")
  /\ (31 <= duration <= 180 -> getMissionDurationCategory duration = "MEDIUM_TERM")
  /\ (181 <= duration <= 500 -> getMissionDurationCategory duration = "LONG_TERM")
  /\ (501 <= duration <= 1000 -> getMissionDurationCategory duration = "EXTENDED")
  /\ (1001 <= duration -> getMissionDurationCategory duration = "PERMANENT")
  /\ (duration < 1 \/ 30 < duration < 31 \/ 180 < duration < 181
      \/ 500 < duration < 501 \/ 1000 < duration < 1001 ->
      getMissionDurationCategory duration = "EXTENDED").
Proof.
  destruct (getMissionDurationCategory_cases duration)
    as [[-> H]|[[-> H]|[[-> H]|[[-> H]|[-> H]]]]];
    repeat split; intros; try reflexivity; exfalso; lra.
Qed.

(** X9, witness: half a day is classed [EXTENDED]. *)
Lemma getMissionDurationCategory_spec_witness :
  getMissionDurationCategory 0.5 = "EXTENDED".
Proof.
  apply (proj2 (proj2 (proj2 (proj2 (proj2 (getMissionDurationCategory_spec 0.5)))))).
  left. lra.
Defined.

Lemma existsb_filter_nil {A : Type} (f : A -> bool) (l : list A) :
  existsb f l = false <-> filter f l = [].
Proof.
  induction l as [|a l IH]; simpl; [tauto|].
  destruct (f a); simpl; [split; discriminate | exact IH].
Qed.

(** X10: the findings of [validateCrewRequirements]: the crew-size error
    exactly when the crew is below 2, the large-crew warning exactly when
    it is above 12, and the food-production warning exactly when there is
    no greenhouse module and the duration is above 500 days or in no range
    of [MISSION_DURATIONS] (below 1, or strictly between 30 and 31, or
    between 180 and 181). *)
Theorem validateCrewRequirements_findings (design : HabitatDesign.t) :
  let crewSize := MissionParameters.crewSize (HabitatDesign.missionParameters design) in
  let duration := MissionParameters.duration (HabitatDesign.missionParameters design) in
  let results := validateCrewRequirements design in
  (reports "Crew size (" results = true <-> crewSize < 2)
  /\ (reports "Large crew size (" results = true <-> 12 < crewSize)
  /\ (reports "Long-duration missions should include food production capability" results
      = true
      <-> modulesOfType GREENHOUSE (HabitatDesign.modules design) = []
          /\ (500 < duration \/ duration < 1 \/ 30 < duration < 31
              \/ 180 < duration < 181)).
Proof.
  intros crewSize duration results. subst results.
  unfold validateCrewRequirements, modulesOfType.
  fold crewSize. fold duration.
  unfold CREW_CONSTRAINTS.MIN_CREW, CREW_CONSTRAINTS.MAX_CREW_LARGE.
  cbn [ModuleType_value].
  rewrite <- existsb_filter_nil.
  destruct (existsb _ (HabitatDesign.modules design));
    destruct (getMissionDurationCategory_cases duration)
      as [[-> H]|[[-> H]|[[-> H]|[[-> H]|[-> H]]]]];
    by_comparisons; try lra; cbn;
    repeat split; intros; try discriminate; try reflexivity; try lra;
    try tauto;
    try (split; [reflexivity | lra]);
    match goal with
    | Hx : _ /\ _ |- _ => destruct Hx; try discriminate; lra
    end.
Qed.

End Crew.

(** ** Safety *)

Section Safety.
Import HabitatValidator.

Lemma reports_app (text : string) (l1 l2 : list ValidationResult.t) :
  reports text (l1 ++ l2) = reports text l1 || reports text l2.
Proof. apply existsb_app. Qed.

(** The finding pushed for a missing essential module type. *)
Lemma essentialModules_names :
  map (fun entry => toLowerCase (fst entry))
    (filter (fun entry => ModuleConfig.essential (snd entry)) MODULE_TYPES)
  = ["command"; "habitation"; "logistics"; "exercise"; "medical"; "airlock"].
Proof. reflexivity. Qed.

Lemma includes_false (l : list string) (x : string) :
  includes l x = false <-> ~ In x l.
Proof.
  unfold includes. induction l as [|a l IH]; simpl; [tauto|].
  destruct (String.eqb_spec x a) as [->|Hne]; simpl.
  - split; [discriminate | intros H; exfalso; apply H; now left].
  - rewrite IH. split; [intros H [E|Hin]; [congruence | contradiction] | tauto].
Qed.

(** X11: [validateSafetyRequirements] reports a missing essential module
    for exactly those of the six types flagged essential in [MODULE_TYPES]
    (command, habitation, logistics, exercise, medical, airlock) of which
    the design has no module; never for laboratory or greenhouse, which are
    not essential, nor for workshop or recreation, which the table lacks. *)
Theorem validateSafetyRequirements_missing_essential
  (design : HabitatDesign.t) (moduleType : string) :
  In (finding Category.safety Severity.error
        [Str "Missing essential module: "; Str moduleType]
        [Str "Add "; Str moduleType; Str " module for mission safety"]
        None [Str "NASA-STD-3001-V2"])
     (validateSafetyRequirements design)
  <-> In moduleType ["command"; "habitation"; "logistics"; "exercise"; "medical"; "airlock"]
      /\ (forall m, In m (HabitatDesign.modules design) ->
                    ModuleType_value (FunctionalModule.type m) <> moduleType).
Proof.
  unfold validateSafetyRequirements. rewrite essentialModules_names.
  set (present := map (fun m => ModuleType_value (FunctionalModule.type m))
                    (HabitatDesign.modules design)).
  set (missing := filter (fun type => negb (includes present type)) _).
  set (pushed := map _ missing).
  assert (Hpushed :
            In (finding Category.safety Severity.error
                  [Str "Missing essential module: "; Str moduleType]
                  [Str "Add "; Str moduleType; Str " module for mission safety"]
                  None [Str "NASA-STD-3001-V2"]) pushed
            <-> In moduleType missing).
  { subst pushed. rewrite in_map_iff. split.
    - intros (t & E & Ht). injection E as ->. assumption.
    - intros H. exists moduleType. split; [reflexivity | assumption]. }
  assert (Hmissing :
            In moduleType missing
            <-> In moduleType
                  ["command"; "habitation"; "logistics"; "exercise"; "medical"; "airlock"]
                /\ (forall m, In m (HabitatDesign.modules design) ->
                              ModuleType_value (FunctionalModule.type m) <> moduleType)).
  { subst missing. rewrite filter_In, negb_true_iff, includes_false.
    subst present. rewrite in_map_iff. split; intros [H1 H2]; split; try assumption.
    - intros m Hm E. apply H2. now exists m.
    - intros (m & E & Hm). now apply (H2 m). }
  rewrite <- Hmissing, <- Hpushed.
  repeat match goal with
         | |- context [if ?c then _ else _] => destruct c
         end;
    rewrite ?in_app_iff; cbn [In]; split; intros H; try tauto;
    repeat destruct H as [H|H]; try discriminate; try contradiction; assumption.
Qed.

Lemma reports_pushed_essential (text : string) (missing : list string) :
  text <> "Missing essential module: " ->
  reports text
    (map (fun moduleType =>
            finding Category.safety Severity.error
              [Str "Missing essential module: "; Str moduleType]
              [Str "Add "; Str moduleType; Str " module for mission safety"]
              None [Str "NASA-STD-3001-V2"]) missing) = false.
Proof.
  intros Hne. unfold reports. induction missing as [|t l IH]; [reflexivity|].
  cbn [map existsb]. rewrite IH, orb_false_r.
  unfold startsWith, finding. cbn [ValidationResult.message].
  apply String.eqb_neq. congruence.
Qed.

(** X12: [validateSafetyRequirements] warns about redundant airlocks
    exactly when the design has fewer than two airlock modules and the
    mission lasts more than 30 days, and reports insufficient evacuation
    capacity exactly when [emergencyEvacuation] is set and the crew
    capacities of the airlock modules sum to less than the crew size. *)
Theorem validateSafetyRequirements_airlocks (design : HabitatDesign.t) :
  let mission := HabitatDesign.missionParameters design in
  let airlocks := modulesOfType AIRLOCK (HabitatDesign.modules design) in
  let results := validateSafetyRequirements design in
  (reports "Long-duration missions should have redundant airlocks" results = true
   <-> (List.length airlocks < 2)%nat /\ 30 < MissionParameters.duration mission)
  /\ (reports "Insufficient emergency evacuation capacity" results = true
      <-> MissionParameters.emergencyEvacuation mission = true
          /\ sumOf FunctionalModule.crewCapacity airlocks
             < MissionParameters.crewSize mission).
Proof.
  intros mission airlocks results. subst results airlocks mission.
  unfold validateSafetyRequirements, modulesOfType, sumOf. cbn [ModuleType_value].
  set (airlocks := filter _ (HabitatDesign.modules design)).
  set (pushed := map _ _).
  assert (H1 : reports "Long-duration missions should have redundant airlocks" pushed
               = false)
    by (apply reports_pushed_essential; discriminate).
  assert (H2 : reports "Insufficient emergency evacuation capacity" pushed = false)
    by (apply reports_pushed_essential; discriminate).
  destruct (MissionParameters.emergencyEvacuation _);
    destruct (Nat.ltb_spec (List.length airlocks) 2);
    by_comparisons; cbn [andb];
    rewrite ?reports_app, ?H1, ?H2; cbn;
    repeat split; intros; try discriminate; try reflexivity; try lia; try lra;
    try tauto;
    match goal with
    | Hx : _ /\ _ |- _ => destruct Hx; try discriminate; try lia; lra
    end.
Qed.

End Safety.

(** ** Volume and life support *)

Section VolumeLifeSupport.
Import HabitatValidator.

Lemma ltb_div (x y c : R) : 0 < y -> ltb (x / y) c = ltb x (c * y).
Proof.
  intros Hy.
  destruct (Rlt_dec x (c * y)) as [H|H].
  - transitivity true; [|symmetry; now apply ltb_true].
    apply ltb_true. apply Rmult_lt_reg_r with y; [assumption|].
    unfold Rdiv. rewrite Rmult_assoc, Rinv_l by lra. lra.
  - transitivity false; [|symmetry; apply ltb_false; lra].
    apply ltb_false. apply Rmult_le_reg_r with y; [assumption|].
    unfold Rdiv. rewrite Rmult_assoc, Rinv_l by lra. lra.
Qed.

(** X13: for a positive total volume, [validateLifeSupportRequirements]
    returns, with the low-air-circulation warning exactly when the total
    volume exceeds 60 cubic metres per crew member, and the power warning
    exactly when the power requirements of the modules sum to more than
    twice the total volume. *)
Theorem validateLifeSupportRequirements_findings (design : HabitatDesign.t) :
  0 < HabitatDesign.totalVolume design ->
  exists results,
    validateLifeSupportRequirements design = Ok results
    /\ (reports "Low air circulation rate for crew size" results = true
        <-> 60 * MissionParameters.crewSize (HabitatDesign.missionParameters design)
            < HabitatDesign.totalVolume design)
    /\ (reports "Power requirement (" results = true
        <-> 2 * HabitatDesign.totalVolume design
            < sumOf FunctionalModule.powerRequirement (HabitatDesign.modules design)).
Proof.
  intros Hv. unfold validateLifeSupportRequirements, div, sumOf.
  destruct (Req_dec_T (HabitatDesign.totalVolume design) 0); [lra|].
  cbn [bind]. rewrite ltb_div by assumption.
  eexists. split; [reflexivity|].
  by_comparisons; cbn; repeat split; intros; try discriminate; try reflexivity; lra.
Qed.

(** X13, witness: the example design of 600 cubic metres for a crew of 4. *)
Lemma validateLifeSupportRequirements_findings_witness :
  exists results,
    validateLifeSupportRequirements smallAirlockDesign = Ok results
    /\ (reports "Low air circulation rate for crew size" results = true
        <-> 60 * 4 < 600).
Proof.
  destruct (validateLifeSupportRequirements_findings smallAirlockDesign
              ltac:(simpl; lra))
    as (results & H & Hair & _).
  exists results. split; assumption.
Defined.

(** The multiplier of [calculateRequiredNHV] is at least 1. *)
Lemma calculateRequiredNHV_at_least (crewSize duration : R) :
  0 < crewSize ->
  crewSize * 25 <= RequiredNHV.minimum (calculateRequiredNHV crewSize duration)
  /\ crewSize * 75 <= RequiredNHV.optimal (calculateRequiredNHV crewSize duration)
  /\ (duration <= 180 ->
      RequiredNHV.minimum (calculateRequiredNHV crewSize duration) = crewSize * 25).
Proof.
  intros Hc. unfold calculateRequiredNHV, NASA_VOLUME_STANDARDS.NHV_PER_CREW_MINIMUM,
    NASA_VOLUME_STANDARDS.NHV_PER_CREW_OPTIMAL.
  cbn [RequiredNHV.minimum RequiredNHV.optimal].
  by_comparisons; repeat split; intros; nra.
Qed.

(** X14: for a positive crew size, [validateVolumeRequirements] returns.
    It reports the habitable volume below the minimum exactly when it is,
    below the optimum exactly when it is between minimum and optimum, and
    the volume per crew member below 25 exactly when the habitable volume is
    below 25 times the crew size.  The per-crew error therefore never comes
    without the minimum error, and up to 180 days the two come together. *)
Theorem validateVolumeRequirements_findings (design : HabitatDesign.t) :
  let crewSize := MissionParameters.crewSize (HabitatDesign.missionParameters design) in
  let duration := MissionParameters.duration (HabitatDesign.missionParameters design) in
  let required := calculateRequiredNHV crewSize duration in
  let actual := HabitatDesign.netHabitableVolume design in
  0 < crewSize ->
  exists results,
    validateVolumeRequirements design = Ok results
    /\ (reports "Net Habitable Volume (" results = true
        <-> actual < RequiredNHV.minimum required)
    /\ (reports "Net Habitable Volume is below optimal requirement (" results = true
        <-> RequiredNHV.minimum required <= actual < RequiredNHV.optimal required)
    /\ (reports "Volume per crew member (" results = true <-> actual < 25 * crewSize)
    /\ (reports "Volume per crew member (" results = true ->
        reports "Net Habitable Volume (" results = true)
    /\ (duration <= 180 ->
        reports "Net Habitable Volume (" results = true ->
        reports "Volume per crew member (" results = true).
Proof.
  intros crewSize duration required actual Hc.
  destruct (calculateRequiredNHV_at_least crewSize duration Hc) as (Hmin & Hopt & H180).
  unfold validateVolumeRequirements, div. fold crewSize duration actual.
  fold required. fold required in Hmin, Hopt, H180.
  destruct (Req_dec_T crewSize 0); [lra|]. cbn [bind].
  rewrite ltb_div by assumption.
  unfold NASA_VOLUME_STANDARDS.NHV_PER_CREW_MINIMUM.
  unfold validateFunctionalAreaVolumes.
  eexists. split; [reflexivity|].
  clearbody required actual.
  set (sleep := getVolumeByType _ "habitation").
  set (work := getVolumeByType _ "laboratory" + getVolumeByType _ "command").
  destruct (ltb sleep _); destruct (ltb work _);
    destruct (ltb actual (RequiredNHV.minimum required)) eqn:E1;
    [apply ltb_true in E1 | apply ltb_false in E1
    |apply ltb_true in E1 | apply ltb_false in E1
    |apply ltb_true in E1 | apply ltb_false in E1
    |apply ltb_true in E1 | apply ltb_false in E1];
    destruct (ltb actual (RequiredNHV.optimal required)) eqn:E2;
    try (apply ltb_true in E2); try (apply ltb_false in E2);
    destruct (ltb actual (25 * crewSize)) eqn:E3;
    try (apply ltb_true in E3); try (apply ltb_false in E3);
    cbn; repeat split; intros; try discriminate; try reflexivity; try lra;
    try (specialize (H180 ltac:(assumption)); lra).
Qed.

(** X14, witness: the example design, 580 cubic metres for a crew of 4. *)
Lemma validateVolumeRequirements_findings_witness :
  exists results,
    validateVolumeRequirements smallAirlockDesign = Ok results
    /\ (reports "Volume per crew member (" results = true <-> 580 < 25 * 4).
Proof.
  destruct (validateVolumeRequirements_findings smallAirlockDesign ltac:(simpl; lra))
    as (results & H & _ & _ & Hcrew & _).
  exists results. split; assumption.
Defined.

End VolumeLifeSupport.

(** ** The whole validation *)

Section WholeValidation.
Import HabitatValidator.

Lemma countSeverity_app (s : Severity.t) (l1 l2 : list ValidationResult.t) :
  countSeverity s (l1 ++ l2) = (countSeverity s l1 + countSeverity s l2)%Z.
Proof.
  unfold countSeverity. rewrite filter_app, length_app. lia.
Qed.

Lemma calculateComplianceScore_deductions (results : list ValidationResult.t) :
  calculateComplianceScore results = Z.max 0 (100 - deductions results).
Proof.
  unfold calculateComplianceScore, deductions. rewrite totalDeductions_counts.
  f_equal; try lia.
Qed.

Lemma deductions_app (l1 l2 : list ValidationResult.t) :
  deductions (l1 ++ l2) = (deductions l1 + deductions l2)%Z.
Proof. unfold deductions. rewrite !countSeverity_app. lia. Qed.

Lemma deductions_nonneg (results : list ValidationResult.t) :
  (0 <= deductions results)%Z.
Proof.
  unfold deductions.
  pose proof (countSeverity_nonneg Severity.error results).
  pose proof (countSeverity_nonneg Severity.warning results).
  pose proof (countSeverity_nonneg Severity.info results).
  lia.
Qed.

Lemma countSeverity_Permutation (s : Severity.t) (l1 l2 : list ValidationResult.t) :
  Permutation l1 l2 -> countSeverity s l1 = countSeverity s l2.
Proof.
  intros H. unfold countSeverity. f_equal.
  induction H as [|x l l' _ IH|x y l|l l' l'' _ IH1 _ IH2]; simpl.
  - reflexivity.
  - destruct (Severity_eqb _ s); simpl; lia.
  - destruct (Severity_eqb _ s); destruct (Severity_eqb _ s); reflexivity.
  - lia.
Qed.

(** X15: the compliance score does not depend on the order of the
    findings, and more findings never raise it: the score of a list followed
    by another is the score of the first less the deductions of the second,
    not below 0. *)
Theorem calculateComplianceScore_order_and_growth (l1 l2 : list ValidationResult.t) :
  (Permutation l1 l2 -> calculateComplianceScore l1 = calculateComplianceScore l2)
  /\ (calculateComplianceScore (l1 ++ l2) <= calculateComplianceScore l1)%Z
  /\ calculateComplianceScore (l1 ++ l2)
     = Z.max 0 (calculateComplianceScore l1 - deductions l2)
  /\ (calculateComplianceScore l1 = 0%Z <-> (100 <= deductions l1)%Z).
Proof.
  rewrite !calculateComplianceScore_deductions, deductions_app.
  pose proof (deductions_nonneg l1). pose proof (deductions_nonneg l2).
  repeat split; try lia.
  intros HP. unfold deductions.
  now rewrite !(countSeverity_Permutation _ l1 l2 HP).
Qed.

(** X15, witness: two findings in both orders. *)
Lemma calculateComplianceScore_order_and_growth_witness :
  calculateComplianceScore
    [restrictionError requiringDesign smallAirlock "B";
     volumeWarning smallAirlock (ModuleConfig.mk true 6 2 "EVA preparation and equipment")]
  = calculateComplianceScore
      [volumeWarning smallAirlock (ModuleConfig.mk true 6 2 "EVA preparation and equipment");
       restrictionError requiringDesign smallAirlock "B"].
Proof.
  apply (proj1 (calculateComplianceScore_order_and_growth _ _)).
  apply perm_swap.
Defined.

Lemma countSeverity_In (s : Severity.t) (results : list ValidationResult.t)
  (r : ValidationResult.t) :
  In r results -> ValidationResult.severity r = s -> (1 <= countSeverity s results)%Z.
Proof.
  intros Hin Hs. unfold countSeverity.
  assert (H : In r (filter (fun r => Severity_eqb (ValidationResult.severity r) s) results)).
  { apply filter_In. split; [assumption|]. rewrite Hs. now destruct s. }
  destruct (filter _ results); [contradiction | simpl; lia].
Qed.

(** A finding that is not informational costs at least 5 points. *)
Lemma deductions_In (results : list ValidationResult.t) (r : ValidationResult.t) :
  In r results -> ValidationResult.severity r <> Severity.info ->
  (5 <= deductions results)%Z.
Proof.
  intros Hin Hs. unfold deductions.
  pose proof (countSeverity_nonneg Severity.error results).
  pose proof (countSeverity_nonneg Severity.warning results).
  pose proof (countSeverity_nonneg Severity.info results).
  destruct (ValidationResult.severity r) eqn:E; try congruence.
  - pose proof (countSeverity_In _ _ _ Hin E). lia.
  - pose proof (countSeverity_In _ _ _ Hin E). lia.
Qed.

(** Below the optimum the volume check returns an error or a warning. *)
Lemma validateVolumeRequirements_below_optimal (design : HabitatDesign.t)
  (volume : list ValidationResult.t) :
  validateVolumeRequirements design = Ok volume ->
  HabitatDesign.netHabitableVolume design
  < RequiredNHV.optimal
      (calculateRequiredNHV
         (MissionParameters.crewSize (HabitatDesign.missionParameters design))
         (MissionParameters.duration (HabitatDesign.missionParameters design))) ->
  exists r, In r volume /\ ValidationResult.severity r <> Severity.info.
Proof.
  unfold validateVolumeRequirements. cbv zeta.
  destruct (div _ _); cbn [bind]; try discriminate.
  match goal with
  | |- Ok ?l = Ok volume -> _ =>
      intros E; assert (E' : volume = l) by congruence; subst volume; clear E
  end.
  intros Hlow. apply ltb_true in Hlow. rewrite Hlow. clear Hlow.
  destruct (ltb (HabitatDesign.netHabitableVolume design) (RequiredNHV.minimum _));
    destruct (ltb _ NASA_VOLUME_STANDARDS.NHV_PER_CREW_MINIMUM);
    cbn [app]; eexists; (split; [cbn [In]; left; reflexivity | discriminate]).
Qed.

(** Above 60 cubic metres per crew member the life-support check returns
    the air-circulation warning. *)
Lemma validateLifeSupportRequirements_low_air (design : HabitatDesign.t)
  (lifeSupport : list ValidationResult.t) :
  validateLifeSupportRequirements design = Ok lifeSupport ->
  0 < HabitatDesign.totalVolume design ->
  60 * MissionParameters.crewSize (HabitatDesign.missionParameters design)
  < HabitatDesign.totalVolume design ->
  exists r, In r lifeSupport /\ ValidationResult.severity r <> Severity.info.
Proof.
  unfold validateLifeSupportRequirements, div. cbv zeta.
  destruct (Req_dec_T _ 0); cbn [bind]; try discriminate.
  match goal with
  | |- Ok ?l = Ok lifeSupport -> _ =>
      intros E; assert (E' : lifeSupport = l) by congruence; subst lifeSupport; clear E
  end.
  intros Hv Hair.
  assert (Hlt : ltb (MissionParameters.crewSize (HabitatDesign.missionParameters design)
                     * 0.5 * 60 / HabitatDesign.totalVolume design) 0.5 = true).
  { apply ltb_true. apply Rmult_lt_reg_r with (HabitatDesign.totalVolume design);
      [assumption|].
    unfold Rdiv. rewrite Rmult_assoc, Rinv_l by lra. lra. }
  rewrite Hlt.
  destruct (gtb _ _); cbn [app]; eexists;
    (split; [cbn [In]; first [left; reflexivity | right; left; reflexivity]
            | discriminate]).
Qed.

(** X16: no design with a positive crew whose habitable volume is within
    its total volume passes the validation clean.  Either the habitable
    volume is below the optimum of 75 cubic metres per crew member, which
    the volume check reports, or the total volume exceeds 60 cubic metres
    per crew member, which the life-support check reports as low air
    circulation: [validateDesign] returns an error or a warning, and the
    score is at most 95. *)
Theorem validateDesign_never_clean (design : HabitatDesign.t)
  (results : list ValidationResult.t) :
  0 < MissionParameters.crewSize (HabitatDesign.missionParameters design) ->
  HabitatDesign.netHabitableVolume design <= HabitatDesign.totalVolume design ->
  validateDesign design = Ok results ->
  (exists r, In r results /\ ValidationResult.severity r <> Severity.info)
  /\ (calculateComplianceScore results <= 95)%Z.
Proof.
  intros Hc Hnhv H.
  destruct (validateDesign_Ok _ _ H) as (volume & launch & lifeSupport & Hv & _ & Hl & ->).
  destruct (calculateRequiredNHV_at_least
              (MissionParameters.crewSize (HabitatDesign.missionParameters design))
              (MissionParameters.duration (HabitatDesign.missionParameters design)) Hc)
    as (_ & Hopt75 & _).
  assert (Hfinding :
            exists r,
              In r (volume ++ launch ++ validateCrewRequirements design
                    ++ validateSafetyRequirements design
                    ++ validateModuleRequirements design ++ lifeSupport)
              /\ ValidationResult.severity r <> Severity.info).
  { destruct (Rlt_dec (HabitatDesign.netHabitableVolume design)
                (RequiredNHV.optimal
                   (calculateRequiredNHV
                      (MissionParameters.crewSize (HabitatDesign.missionParameters design))
                      (MissionParameters.duration
                         (HabitatDesign.missionParameters design)))))
      as [Hlow|Hlow].
    - destruct (validateVolumeRequirements_below_optimal _ _ Hv Hlow) as (r & Hin & Hs).
      exists r. split; [rewrite !in_app_iff; tauto | assumption].
    - destruct (validateLifeSupportRequirements_low_air _ _ Hl) as (r & Hin & Hs);
        [lra | lra |].
      exists r. split; [rewrite !in_app_iff; tauto | assumption]. }
  split; [exact Hfinding|].
  destruct Hfinding as (r & Hin & Hsev).
  pose proof (deductions_In _ _ Hin Hsev).
  rewrite calculateComplianceScore_deductions. lia.
Qed.

(** X16, witness: the example design with one small airlock. *)
Lemma validateDesign_never_clean_witness :
  exists results,
    validateDesign smallAirlockDesign = Ok results
    /\ (calculateComplianceScore results <= 95)%Z.
Proof.
  destruct (validateDesign_returns smallAirlockDesign (2 * PI * 4 * (4 + 12)))
    as [results Hres];
    [simpl; lra | simpl; lra | apply calculateSurfaceArea_cylinder_4_12 |].
  exists results. split; [assumption|].
  apply (proj2 (validateDesign_never_clean smallAirlockDesign results
                  ltac:(simpl; lra) ltac:(simpl; lra) Hres)).
Defined.

(** X17: with a launch vehicle that is no key of [PAYLOAD_FAIRINGS] the
    launch check returns its single unknown-vehicle error without looking
    at the shape, so [validateDesign] throws no exception, whatever the
    dimensions. *)
Theorem validateDesign_unknown_vehicle (design : HabitatDesign.t) :
  lookup (toUpperCase (MissionParameters.launchVehicle
                         (HabitatDesign.missionParameters design)))
    PAYLOAD_FAIRINGS = None ->
  validateLaunchConstraints design
  = Ok [finding Category.mass Severity.error
          [Str "Unknown launch vehicle: ";
           Str (MissionParameters.launchVehicle (HabitatDesign.missionParameters design))]
          [Str "Select a valid launch vehicle"]
          None [Str "Launch Vehicle Specifications"]]
  /\ (forall e, validateDesign design <> Throw e).
Proof.
  intros Hl.
  assert (H : validateLaunchConstraints design
              = Ok [finding Category.mass Severity.error
                      [Str "Unknown launch vehicle: ";
                       Str (MissionParameters.launchVehicle
                              (HabitatDesign.missionParameters design))]
                      [Str "Select a valid launch vehicle"]
                      None [Str "Launch Vehicle Specifications"]]).
  { unfold validateLaunchConstraints. now rewrite Hl. }
  split; [exact H|].
  intros e. unfold validateDesign. rewrite H.
  pose proof (validateVolumeRequirements_no_throw design e).
  pose proof (validateLifeSupportRequirements_no_throw design e).
  destruct (validateVolumeRequirements design); cbn [bind]; try congruence.
  destruct (validateLifeSupportRequirements design); cbn [bind]; congruence.
Qed.

(** X17, witness: the design with the radius left out, on a vehicle that
    is in no table. *)
Lemma validateDesign_unknown_vehicle_witness :
  validateLaunchConstraints unknownVehicleDesign
  = Ok [finding Category.mass Severity.error
          [Str "Unknown launch vehicle: "; Str "saturn_v"]
          [Str "Select a valid launch vehicle"]
          None [Str "Launch Vehicle Specifications"]].
Proof.
  apply (proj1 (validateDesign_unknown_vehicle unknownVehicleDesign eq_refl)).
Defined.

End WholeValidation.

(** ** Connections and module volumes *)

Section ConnectionsVolumes.
Import HabitatValidator.

Lemma hasConnection_symmetric (design : HabitatDesign.t) (a b : string) :
  hasConnection design a b = hasConnection design b a.
Proof.
  unfold hasConnection. induction (HabitatDesign.connections design) as [|c l IH].
  - reflexivity.
  - cbn [existsb]. rewrite IH. f_equal.
    destruct (String.eqb (Connection.fromModuleId c) a),
      (String.eqb (Connection.toModuleId c) b),
      (String.eqb (Connection.toModuleId c) a),
      (String.eqb (Connection.fromModuleId c) b); reflexivity.
Qed.

Lemma hasConnection_reverseConnections (design : HabitatDesign.t) (a b : string) :
  hasConnection (reverseConnections design) a b = hasConnection design a b.
Proof.
  unfold hasConnection, reverseConnections, HabitatStore.withModules.
  cbn [HabitatDesign.connections].
  induction (HabitatDesign.connections design) as [|c l IH].
  - reflexivity.
  - cbn [map existsb]. rewrite IH. f_equal.
    unfold reverseConnection. cbn [Connection.fromModuleId Connection.toModuleId].
    apply orb_comm.
Qed.

(** X18: the connections are read as undirected: a connection from A to B
    links B and A as well, and turning every connection of a design round
    changes nothing in what [validateDesign] returns. *)
Theorem validateDesign_connection_direction (design : HabitatDesign.t) :
  (forall a b, hasConnection design a b = hasConnection design b a)
  /\ validateDesign (reverseConnections design) = validateDesign design.
Proof.
  split; [intros a b; apply hasConnection_symmetric|].
  assert (Hm : validateModuleRequirements (reverseConnections design)
               = validateModuleRequirements design).
  { unfold validateModuleRequirements.
    change (HabitatDesign.modules (reverseConnections design))
      with (HabitatDesign.modules design).
    apply flat_map_ext. intros m. unfold moduleFindings. f_equal; [|f_equal].
    - apply flat_map_ext. intros r. now rewrite hasConnection_reverseConnections.
    - apply flat_map_ext. intros r. now rewrite hasConnection_reverseConnections. }
  unfold validateDesign. rewrite Hm. reflexivity.
Qed.

Lemma fold_left_sum_from {A : Type} (f : A -> R) (l : list A) (acc : R) :
  fold_left (fun sum x => sum + f x) l acc
  = acc + fold_left (fun sum x => sum + f x) l 0.
Proof.
  revert acc. induction l as [|x l IH]; intros acc; simpl.
  - lra.
  - rewrite IH, (IH (0 + f x)). lra.
Qed.


Lemma sumOf_cons (f : FunctionalModule.t -> R) (m : FunctionalModule.t)
  (l : list FunctionalModule.t) :
  sumOf f (m :: l) = f m + sumOf f l.
Proof.
  unfold sumOf. simpl. rewrite fold_left_sum_from. lra.
Qed.

Lemma getVolumeByType_sumOf (modules : list FunctionalModule.t) (t : ModuleType) :
  getVolumeByType modules (ModuleType_value t)
  = sumOf FunctionalModule.volume (modulesOfType t modules).
Proof. reflexivity. Qed.

Lemma sumOf_at_least (f : FunctionalModule.t -> R) (l : list FunctionalModule.t)
  (m : FunctionalModule.t) :
  (forall x, In x l -> 0 <= f x) -> In m l -> f m <= sumOf f l.
Proof.
  induction l as [|x l IH]; intros Hnn Hin; [contradiction|].
  rewrite sumOf_cons.
  assert (Hrest : 0 <= sumOf f l).
  { clear IH Hin. induction l as [|y l IH].
    - unfold sumOf. simpl. lra.
    - rewrite sumOf_cons.
      assert (0 <= f y) by (apply Hnn; right; now left).
      assert (0 <= sumOf f l).
      { apply IH. intros z Hz. apply Hnn. destruct Hz as [->|Hz].
        - now left.
        - right; now right. }
      lra. }
  destruct Hin as [->|Hin].
  - lra.
  - assert (0 <= f x) by (apply Hnn; now left).
    assert (f m <= sumOf f l) by (apply IH; [intros z Hz; apply Hnn; now right | assumption]).
    lra.
Qed.

(** X19: [getVolumeByType] adds up the volumes of the modules of one type,
    in the order of the list: a module added at the end adds its volume to
    the total of its own type and leaves the totals of the other types as
    they are; a type without module has the total 0; and when no volume is
    negative, the total of a type is at least the volume of each module of
    that type. *)
Theorem getVolumeByType_by_type (modules : list FunctionalModule.t)
  (m : FunctionalModule.t) (type : string) :
  getVolumeByType (modules ++ [m]) type
  = (if String.eqb (ModuleType_value (FunctionalModule.type m)) type
     then getVolumeByType modules type + FunctionalModule.volume m
     else getVolumeByType modules type)
  /\ ((forall x, In x modules -> ModuleType_value (FunctionalModule.type x) <> type) ->
      getVolumeByType modules type = 0)
  /\ ((forall x, In x modules -> 0 <= FunctionalModule.volume x) ->
      forall x,
        In x modules -> ModuleType_value (FunctionalModule.type x) = type ->
        FunctionalModule.volume x <= getVolumeByType modules type).
Proof.
  split; [|split].
  - unfold getVolumeByType. rewrite filter_app, fold_left_app. cbn [filter].
    destruct (String.eqb _ type); reflexivity.
  - intros Hnone. unfold getVolumeByType.
    assert (Hnil : filter (fun m0 => String.eqb (ModuleType_value (FunctionalModule.type m0))
                                       type) modules = []).
    { induction modules as [|y l IH]; [reflexivity|].
      cbn [filter].
      assert (Hy : String.eqb (ModuleType_value (FunctionalModule.type y)) type = false)
        by (apply String.eqb_neq, Hnone; now left).
      rewrite Hy. apply IH. intros z Hz. apply Hnone. now right. }
    now rewrite Hnil.
  - intros Hnn x Hin Ht.
    change (getVolumeByType modules type)
      with (sumOf FunctionalModule.volume
              (filter (fun m0 => String.eqb (ModuleType_value (FunctionalModule.type m0))
                                   type) modules)).
    apply sumOf_at_least.
    + intros z Hz. apply filter_In in Hz. apply Hnn. tauto.
    + apply filter_In. split; [assumption|]. now apply String.eqb_eq.
Qed.

End ConnectionsVolumes.

(** ** The store: metrics *)

Section StoreMetrics.
Import HabitatGeometry HabitatStore.

(** What [calculateDesignMetrics] returns, when it returns. *)
Lemma calculateDesignMetrics_Ok (design : HabitatDesign.t) (metrics : Metrics.t) :
  calculateDesignMetrics design = Ok metrics ->
  exists volume area,
    calculateVolume (HabitatDesign.dimensions design) = Ok volume
    /\ calculateSurfaceArea (HabitatDesign.dimensions design) = Ok area
    /\ metrics
       = Metrics.mk volume volume
           (Rmax 0 (volume
                    - sumOf FunctionalModule.volume (HabitatDesign.modules design) * 0.3))
           (sumOf FunctionalModule.mass (HabitatDesign.modules design) + area * 0.1 * 2700)
           (sumOf FunctionalModule.powerRequirement (HabitatDesign.modules design)).
Proof.
  unfold calculateDesignMetrics, calculateStructuralMass_default, calculateStructuralMass.
  destruct (calculateVolume _) as [volume| |]; cbn [bind]; try discriminate.
  destruct (calculateSurfaceArea _) as [area| |]; cbn [bind]; try discriminate.
  intros E. exists volume, area. injection E as <-. repeat split.
Qed.

Lemma calculateDesignMetrics_throws (design : HabitatDesign.t) (e : Error) :
  calculateDesignMetrics design = Throw e
  <-> calculateVolume (HabitatDesign.dimensions design) = Throw e
      \/ ((exists volume, calculateVolume (HabitatDesign.dimensions design) = Ok volume)
          /\ calculateSurfaceArea (HabitatDesign.dimensions design) = Throw e).
Proof.
  unfold calculateDesignMetrics, calculateStructuralMass_default, calculateStructuralMass.
  destruct (calculateVolume _) as [volume| |]; cbn [bind].
  - destruct (calculateSurfaceArea _) as [area| |]; cbn [bind]; split.
    + discriminate.
    + intros [H|[_ H]]; discriminate.
    + intros H. right. split; [now exists volume | congruence].
    + intros [H|[_ H]]; [discriminate | congruence].
    + discriminate.
    + intros [H|[_ H]]; discriminate.
  - split; [intros H; left; congruence | intros [H|[[v Hv] _]]; congruence].
  - split; [discriminate | intros [H|[[v Hv] _]]; discriminate].
Qed.

(** X20: [calculateDesignMetrics] computes the volume, which takes defaults
    for absent fields, and then the structural mass, which does not.  It
    returns without exception exactly when the shape is not custom and
    every field of the shape is present and positive.  What it returns has
    the volume of the shape as total and pressurized volume, and a net
    habitable volume that is never negative, and not above the total volume
    when that and the sum of the module volumes are not negative. *)
Theorem calculateDesignMetrics_spec (design : HabitatDesign.t) :
  ((forall e, calculateDesignMetrics design <> Throw e)
   <-> HabitatDimensions.shape (HabitatDesign.dimensions design) <> CUSTOM
       /\ Forall presentPositive (requiredFields (HabitatDesign.dimensions design)))
  /\ (forall metrics,
        calculateDesignMetrics design = Ok metrics ->
        calculateVolume (HabitatDesign.dimensions design) = Ok (Metrics.totalVolume metrics)
        /\ Metrics.pressurizedVolume metrics = Metrics.totalVolume metrics
        /\ 0 <= Metrics.netHabitableVolume metrics
        /\ (0 <= sumOf FunctionalModule.volume (HabitatDesign.modules design) ->
            0 <= Metrics.totalVolume metrics ->
            Metrics.netHabitableVolume metrics <= Metrics.totalVolume metrics)).
Proof.
  split.
  - unfold calculateDesignMetrics, calculateStructuralMass_default, calculateStructuralMass,
      calculateVolume, calculateSurfaceArea, requiredFields.
    destruct (HabitatDimensions.shape (HabitatDesign.dimensions design));
      by_field_status; cbn [orb bind];
      (split;
       [ intros H;
         first [ exfalso; eapply H; reflexivity
               | split; [discriminate | repeat constructor; assumption] ]
       | intros [Hc H]; try congruence; inversion H; subst;
         repeat match goal with
                | Hx : Forall _ (_ :: _) |- _ => inversion Hx; subst; clear Hx
                end;
         try contradiction; intros e;
         try discriminate;
         unfold Math_sqrt, bind; destruct (ltb _ 0); discriminate ]).
  - intros metrics H.
    destruct (calculateDesignMetrics_Ok _ _ H) as (volume & area & Hv & _ & ->).
    cbn [Metrics.totalVolume Metrics.pressurizedVolume Metrics.netHabitableVolume].
    repeat split; try assumption.
    + apply Rmax_l.
    + intros Hm Hvol. apply Rmax_lub; lra.
Qed.

(** X20, witness: the default design. *)
Lemma calculateDesignMetrics_spec_witness :
  calculateDesignMetrics createDefaultDesign
  <> Throw (InvalidDimensions "Cylinder requires radius and height").
Proof.
  apply (proj2 (proj1 (calculateDesignMetrics_spec createDefaultDesign))).
  split; [discriminate|].
  repeat constructor; eexists; (split; [reflexivity | lra]).
Defined.

End StoreMetrics.

(** ** The store: actions *)

(** Runs an action of the store up to its validation. *)
Ltac run_action E :=
  unfold HabitatStore.updateHabitatDimensions, HabitatStore.addModule,
    HabitatStore.removeModule, HabitatStore.addConnection,
    HabitatStore.removeConnection, HabitatStore.createNewDesign,
    HabitatStore.andThen, HabitatStore.get, HabitatStore.set, HabitatStore.lift,
    HabitatStore.ret;
  cbn [fst snd];
  rewrite ?E.

Section StoreActions.
Import HabitatStore.

(** An exception of [validateDesign] is an exception of the launch check. *)
Lemma validateDesign_Throw_launch (design : HabitatDesign.t) (e : Error) :
  HabitatValidator.validateDesign design = Throw e ->
  HabitatValidator.validateLaunchConstraints design = Throw e.
Proof.
  unfold HabitatValidator.validateDesign.
  pose proof (validateVolumeRequirements_no_throw design e).
  pose proof (validateLifeSupportRequirements_no_throw design e).
  destruct (HabitatValidator.validateVolumeRequirements design);
    cbn [bind]; try congruence.
  destruct (HabitatValidator.validateLaunchConstraints design);
    cbn [bind]; try congruence.
  destruct (HabitatValidator.validateLifeSupportRequirements design);
    cbn [bind]; congruence.
Qed.

(** A design whose metrics were computed is validated without exception. *)
Lemma validateDesign_after_metrics (design : HabitatDesign.t) (metrics : Metrics.t)
  (e : Error) :
  calculateDesignMetrics design = Ok metrics ->
  HabitatValidator.validateDesign (withMetrics design metrics) <> Throw e.
Proof.
  intros Hm Hv. apply validateDesign_Throw_launch in Hv.
  apply validateLaunchConstraints_throws in Hv. destruct Hv as [_ Hv].
  destruct (calculateDesignMetrics_Ok _ _ Hm) as (volume & area & _ & Ha & _).
  change (HabitatDesign.dimensions (withMetrics design metrics))
    with (HabitatDesign.dimensions design) in Hv.
  congruence.
Qed.

(** The volume of a cylinder without radius is computed, with the default. *)
Lemma calculateVolume_without_radius :
  exists volume, HabitatGeometry.calculateVolume cylinderWithoutRadius = Ok volume.
Proof.
  unfold HabitatGeometry.calculateVolume, cylinderWithoutRadius.
  cbn [HabitatDimensions.shape HabitatDimensions.radius HabitatDimensions.height].
  rewrite or_else_None, or_else_nonzero by lra.
  assert (H1 : leb 4.0 0 = false) by (apply leb_false; lra).
  assert (H2 : leb 12 0 = false) by (apply leb_false; lra).
  rewrite H1, H2. eexists; reflexivity.
Qed.

(** The store's [validateDesign], outcome by outcome. *)
Lemma store_validateDesign (s : State.t) (design : HabitatDesign.t) :
  State.currentDesign s = Some design ->
  validateDesign s
  = match HabitatValidator.validateDesign design with
    | Ok results =>
        (State.mk (Some design) (State.selectedModuleId s) results
           (HabitatValidator.calculateComplianceScore results), Ok tt)
    | Throw e => (s, Throw e)
    | NotFinite => (s, NotFinite)
    end.
Proof.
  intros H. unfold validateDesign, andThen, get, lift, set. rewrite H.
  destruct (HabitatValidator.validateDesign design); reflexivity.
Qed.

Lemma store_validateDesign_consistent (s s' : State.t) :
  validateDesign s = (s', Ok tt) -> consistent s'.
Proof.
  destruct (State.currentDesign s) as [design|] eqn:E.
  - rewrite (store_validateDesign s design E).
    destruct (HabitatValidator.validateDesign design) eqn:Hv; intros H;
      try discriminate.
    injection H as <-. unfold consistent. cbn. now split.
  - unfold validateDesign, andThen, get, ret. rewrite E. intros H. injection H as <-.
    unfold consistent. now rewrite E.
Qed.

(** X21: the actions that recompute the metrics are all-or-nothing:
    when [updateHabitatDimensions], [addModule] or [removeModule] ends by an
    exception, the state of the store is what it was.  (The exception comes
    from the metrics, before [set]; once they are computed the validation
    cannot throw.) *)
Theorem metric_actions_atomic (s s' : State.t) (e : Error) :
  (forall dimensions, updateHabitatDimensions dimensions s = (s', Throw e) -> s' = s)
  /\ (forall moduleData generatedId,
        addModule moduleData generatedId s = (s', Throw e) -> s' = s)
  /\ (forall id, removeModule id s = (s', Throw e) -> s' = s).
Proof.
  repeat split; intros *;
    destruct (State.currentDesign s) as [design|] eqn:E;
    run_action E; try (intros H; congruence);
    match goal with
    | |- context [calculateDesignMetrics ?d] =>
        destruct (calculateDesignMetrics d) as [metrics| |] eqn:Hm;
        try (intros H; congruence)
    end;
    erewrite store_validateDesign by reflexivity;
    pose proof (validateDesign_after_metrics _ _ e Hm) as Hno;
    match goal with
    | |- context [HabitatValidator.validateDesign ?d] =>
        destruct (HabitatValidator.validateDesign d); intros H; congruence
    end.
Qed.

(** X21, witness: removing a module from a store holding the design with
    the radius left out throws, and changes nothing. *)
Lemma metric_actions_atomic_witness :
  removeModule "air" (storeOf missingRadiusDesign)
  = (storeOf missingRadiusDesign,
     Throw (InvalidDimensions "Cylinder requires radius and height")).
Proof.
  destruct (removeModule "air" (storeOf missingRadiusDesign)) as [s' out] eqn:E.
  assert (Hout : out = Throw (InvalidDimensions "Cylinder requires radius and height")).
  { revert E. unfold removeModule, andThen, get, lift, storeOf.
    cbn [State.currentDesign].
    assert (Hm : calculateDesignMetrics
                   (withModules missingRadiusDesign
                      (filter (fun module => negb (String.eqb (FunctionalModule.id module) "air"))
                         (HabitatDesign.modules missingRadiusDesign))
                      (filter (fun conn =>
                                 negb (String.eqb (Connection.fromModuleId conn) "air")
                                 && negb (String.eqb (Connection.toModuleId conn) "air"))
                         (HabitatDesign.connections missingRadiusDesign)))
                 = Throw (InvalidDimensions "Cylinder requires radius and height")).
    { apply calculateDesignMetrics_throws. right. split.
      - apply calculateVolume_without_radius.
      - reflexivity. }
    rewrite Hm. intros H. now injection H. }
  subst out.
  now rewrite (proj2 (proj2 (metric_actions_atomic (storeOf missingRadiusDesign) s' _))
                 "air" E).
Defined.

(** X22: every action of the store that completes leaves the store
    consistent: the stored findings are those of [validateDesign] on the
    stored design, and the stored score is the score of those findings. *)
Theorem actions_leave_consistent (s s' : State.t) :
  (validateDesign s = (s', Ok tt) -> consistent s')
  /\ (createNewDesign s = (s', Ok tt) -> consistent s')
  /\ (forall dimensions,
        updateHabitatDimensions dimensions s = (s', Ok tt) -> consistent s')
  /\ (forall moduleData generatedId,
        addModule moduleData generatedId s = (s', Ok tt) -> consistent s')
  /\ (forall id, removeModule id s = (s', Ok tt) -> consistent s')
  /\ (forall generatedId fromId toId type,
        addConnection generatedId fromId toId type s = (s', Ok tt) -> consistent s')
  /\ (forall connectionId, removeConnection connectionId s = (s', Ok tt) -> consistent s').
Proof.
  split; [apply store_validateDesign_consistent|].
  repeat split; intros *;
    destruct (State.currentDesign s) as [design|] eqn:E;
    run_action E;
    try (intros H; injection H as <-; unfold consistent; now rewrite E);
    try match goal with
        | |- context [calculateDesignMetrics ?d] =>
            destruct (calculateDesignMetrics d) as [metrics| |] eqn:Hm;
            try (intros H; discriminate)
        end;
    apply store_validateDesign_consistent.
Qed.

(** X22, witness: the validation of the example design, in the store. *)
Lemma actions_leave_consistent_witness :
  exists s', validateDesign (storeOf requiringDesign) = (s', Ok tt) /\ consistent s'.
Proof.
  destruct (validateDesign_returns requiringDesign (2 * PI * 4 * (4 + 12)))
    as [results Hres];
    [simpl; lra | simpl; lra | apply calculateSurfaceArea_cylinder_4_12 |].
  assert (H : validateDesign (storeOf requiringDesign)
              = (State.mk (Some requiringDesign) None results
                   (HabitatValidator.calculateComplianceScore results), Ok tt)).
  { erewrite store_validateDesign by reflexivity. now rewrite Hres. }
  eexists. split; [exact H|].
  apply (proj1 (actions_leave_consistent (storeOf requiringDesign) _) H).
Defined.

End StoreActions.

(** ** The store: runs on the example designs *)

Lemma calculateVolume_cylinder_4_12 :
  HabitatGeometry.calculateVolume (cylinder 4 12) = Ok (PI * Math_pow 4 2 * 12).
Proof.
  unfold HabitatGeometry.calculateVolume, cylinder.
  cbn [HabitatDimensions.shape HabitatDimensions.radius HabitatDimensions.height].
  rewrite !or_else_nonzero by lra.
  assert (H1 : leb 4 0 = false) by (apply leb_false; lra).
  assert (H2 : leb 12 0 = false) by (apply leb_false; lra).
  now rewrite H1, H2.
Qed.

(** On a design whose shape is the cylinder of radius 4 and height 12, with
    a crew, the metrics are computed and the validation of the design with
    these metrics returns. *)
Lemma cylinder_4_12_returns (design : HabitatDesign.t) :
  HabitatDesign.dimensions design = cylinder 4 12 ->
  MissionParameters.crewSize (HabitatDesign.missionParameters design) <> 0 ->
  exists metrics results,
    HabitatStore.calculateDesignMetrics design = Ok metrics
    /\ Metrics.totalVolume metrics = PI * Math_pow 4 2 * 12
    /\ HabitatValidator.validateDesign (HabitatStore.withMetrics design metrics)
       = Ok results.
Proof.
  intros Hd Hc.
  assert (Hm : exists metrics,
             HabitatStore.calculateDesignMetrics design = Ok metrics
             /\ Metrics.totalVolume metrics = PI * Math_pow 4 2 * 12).
  { unfold HabitatStore.calculateDesignMetrics,
      HabitatGeometry.calculateStructuralMass_default,
      HabitatGeometry.calculateStructuralMass.
    rewrite Hd, calculateVolume_cylinder_4_12, calculateSurfaceArea_cylinder_4_12.
    cbn [bind]. eexists; split; reflexivity. }
  destruct Hm as (metrics & Hm & Hv). exists metrics.
  destruct (validateDesign_returns (HabitatStore.withMetrics design metrics)
              (2 * PI * 4 * (4 + 12))) as [results Hres].
  - exact Hc.
  - cbn [HabitatStore.withMetrics HabitatDesign.totalVolume]. rewrite Hv.
    unfold Math_pow. pose proof PI_RGT_0. nra.
  - cbn [HabitatStore.withMetrics HabitatDesign.dimensions]. rewrite Hd.
    apply calculateSurfaceArea_cylinder_4_12.
  - exists results. repeat split; assumption.
Qed.

(** Runs an action of the store on a store whose design, after the change,
    has the cylinder of radius 4 and height 12 as shape. *)
Ltac run_on_cylinder :=
  unfold HabitatStore.removeModule, HabitatStore.addModule,
    HabitatStore.updateHabitatDimensions, HabitatStore.andThen, HabitatStore.get,
    HabitatStore.set, HabitatStore.lift, storeOf;
  cbn [State.currentDesign State.selectedModuleId fst snd];
  match goal with
  | |- context [HabitatStore.calculateDesignMetrics ?d] =>
      let metrics := fresh "metrics" in
      let results := fresh "results" in
      let Hm := fresh "Hm" in
      let Hres := fresh "Hres" in
      destruct (cylinder_4_12_returns d eq_refl ltac:(cbn; lra))
        as (metrics & results & Hm & _ & Hres);
      rewrite Hm;
      erewrite store_validateDesign by reflexivity;
      cbn [State.currentDesign];
      rewrite Hres
  end.

(** ** The store: connections *)

Section StoreConnections.

(** X23: [addConnection] and [removeConnection] write the design before
    validating it and do not recompute the metrics.  When the validation
    throws, the action ends by that exception with the connection list
    already changed, and with the findings and the score of the design as
    it was before. *)
Theorem connection_actions_not_atomic (s s' : State.t) (design : HabitatDesign.t)
  (e : Error) :
  State.currentDesign s = Some design ->
  (forall generatedId fromId toId type,
      HabitatStore.addConnection generatedId fromId toId type s = (s', Throw e) ->
      State.currentDesign s' = Some (addConnection design generatedId fromId toId type)
      /\ State.validationResults s' = State.validationResults s
      /\ State.complianceScore s' = State.complianceScore s)
  /\ (forall connectionId,
        HabitatStore.removeConnection connectionId s = (s', Throw e) ->
        State.currentDesign s'
        = Some (HabitatStore.withModules design (HabitatDesign.modules design)
                  (filter (fun conn => negb (String.eqb (Connection.id conn) connectionId))
                     (HabitatDesign.connections design)))
        /\ State.validationResults s' = State.validationResults s
        /\ State.complianceScore s' = State.complianceScore s).
Proof.
  intros E. split; intros *; run_action E;
    erewrite store_validateDesign by reflexivity;
    match goal with
    | |- context [HabitatValidator.validateDesign ?d] =>
        destruct (HabitatValidator.validateDesign d); intros H; try discriminate
    end;
    injection H as <- _; cbn; repeat split.
Qed.

(** X23, witness: a connection added to the design with the radius left
    out. *)
Lemma connection_actions_not_atomic_witness :
  exists s',
    HabitatStore.addConnection "c1" "A" "B" corridor (storeOf missingRadiusDesign)
    = (s', Throw (InvalidDimensions "Cylinder requires radius and height"))
    /\ State.currentDesign s'
       = Some (addConnection missingRadiusDesign "c1" "A" "B" corridor)
    /\ State.validationResults s' = [].
Proof.
  destruct (HabitatStore.addConnection "c1" "A" "B" corridor (storeOf missingRadiusDesign))
    as [s' out] eqn:E.
  assert (Hout : out = Throw (InvalidDimensions "Cylinder requires radius and height")).
  { revert E. unfold HabitatStore.addConnection, HabitatStore.andThen, HabitatStore.get,
      HabitatStore.set, storeOf.
    cbn [State.currentDesign fst snd].
    erewrite store_validateDesign by reflexivity.
    assert (Hv : HabitatValidator.validateDesign
                   (addConnection missingRadiusDesign "c1" "A" "B" corridor)
                 = Throw (InvalidDimensions "Cylinder requires radius and height")).
    { apply validateDesign_throws; [simpl; lra|].
      apply validateLaunchConstraints_throws. split.
      - eexists. apply lookup_sls_block_1.
      - reflexivity. }
    rewrite Hv. intros H. now injection H. }
  subst out. exists s'. split; [reflexivity|].
  destruct (proj1 (connection_actions_not_atomic (storeOf missingRadiusDesign) s'
                     missingRadiusDesign _ eq_refl) "c1" "A" "B" corridor E)
    as (H1 & H2 & _).
  split; assumption.
Defined.

Lemma filter_all {A : Type} (f : A -> bool) (l : list A) :
  (forall x, In x l -> f x = true) -> filter f l = l.
Proof.
  induction l as [|a l IH]; intros H; [reflexivity|].
  cbn [filter]. rewrite (H a) by now left. f_equal. apply IH.
  intros x Hx. apply H. now right.
Qed.

(** X24: removing a connection that was just added gives the design back:
    when the id generated for the new connection is the id of no connection
    of the design, [addConnection] followed by [removeConnection] of that
    id, both completing, leaves the design as it was, with its findings. *)
Theorem addConnection_removeConnection (s s1 s2 : State.t) (design : HabitatDesign.t)
  (generatedId fromId toId : string) (type : ConnectionType) :
  State.currentDesign s = Some design ->
  (forall c, In c (HabitatDesign.connections design) -> Connection.id c <> generatedId) ->
  HabitatStore.addConnection generatedId fromId toId type s = (s1, Ok tt) ->
  HabitatStore.removeConnection generatedId s1 = (s2, Ok tt) ->
  State.currentDesign s2 = Some design
  /\ State.selectedModuleId s2 = State.selectedModuleId s
  /\ HabitatValidator.validateDesign design = Ok (State.validationResults s2).
Proof.
  intros E Hfresh. run_action E.
  erewrite store_validateDesign by reflexivity.
  destruct (HabitatValidator.validateDesign _) as [results1| |]; try discriminate.
  intros H1. injection H1 as <-. cbn [State.currentDesign].
  erewrite store_validateDesign by reflexivity.
  cbn [State.currentDesign State.selectedModuleId State.validationResults
         State.complianceScore].
  assert (Hd : HabitatStore.withModules (addConnection design generatedId fromId toId type)
                 (HabitatDesign.modules (addConnection design generatedId fromId toId type))
                 (filter (fun conn => negb (String.eqb (Connection.id conn) generatedId))
                    (HabitatDesign.connections
                       (addConnection design generatedId fromId toId type)))
               = design).
  { unfold addConnection, HabitatStore.withModules. cbn.
    rewrite filter_app. cbn [filter Connection.id]. rewrite String.eqb_refl. cbn [negb].
    rewrite app_nil_r, filter_all.
    - now destruct design.
    - intros c Hc. apply negb_true_iff, String.eqb_neq. now apply Hfresh. }
  rewrite Hd.
  destruct (HabitatValidator.validateDesign design) as [results2| |]; try discriminate.
  intros H2. injection H2 as <-. cbn. repeat split.
Qed.

(** X24, witness: on the example design, which has no connection. *)
Lemma addConnection_removeConnection_witness :
  exists s1 s2,
    HabitatStore.addConnection "c1" "A" "B" corridor (storeOf requiringDesign)
    = (s1, Ok tt)
    /\ HabitatStore.removeConnection "c1" s1 = (s2, Ok tt)
    /\ State.currentDesign s2 = Some requiringDesign.
Proof.
  destruct (validateDesign_returns requiringDesign (2 * PI * 4 * (4 + 12)))
    as [results Hres];
    [simpl; lra | simpl; lra | apply calculateSurfaceArea_cylinder_4_12 |].
  destruct (validateDesign_returns (addConnection requiringDesign "c1" "A" "B" corridor)
              (2 * PI * 4 * (4 + 12)))
    as [results1 Hres1];
    [simpl; lra | simpl; lra | apply calculateSurfaceArea_cylinder_4_12 |].
  assert (H1 : HabitatStore.addConnection "c1" "A" "B" corridor (storeOf requiringDesign)
               = (State.mk (Some (addConnection requiringDesign "c1" "A" "B" corridor))
                    None results1
                    (HabitatValidator.calculateComplianceScore results1), Ok tt)).
  { unfold HabitatStore.addConnection, HabitatStore.andThen, HabitatStore.get,
      HabitatStore.set, storeOf.
    cbn [State.currentDesign fst snd].
    erewrite store_validateDesign by reflexivity. now rewrite Hres1. }
  destruct (HabitatStore.removeConnection "c1"
              (State.mk (Some (addConnection requiringDesign "c1" "A" "B" corridor))
                 None results1 (HabitatValidator.calculateComplianceScore results1)))
    as [s2 out] eqn:H2.
  assert (Hout : out = Ok tt).
  { revert H2. unfold HabitatStore.removeConnection, HabitatStore.andThen,
      HabitatStore.get, HabitatStore.set.
    cbn [State.currentDesign fst snd].
    erewrite store_validateDesign by reflexivity.
    cbn [State.currentDesign].
    match goal with
    | |- context [HabitatValidator.validateDesign ?d] =>
        change d with requiringDesign
    end.
    rewrite Hres. intros H. now injection H. }
  subst out. eexists; exists s2. split; [exact H1|]. split; [exact H2|].
  apply (proj1 (addConnection_removeConnection (storeOf requiringDesign) _ s2
                  requiringDesign "c1" "A" "B" corridor eq_refl
                  ltac:(intros c []) H1 H2)).
Defined.

End StoreConnections.

(** ** The store: removing a module *)

Section StoreModules.

Lemma find_filtered_out (id : string) (modules : list FunctionalModule.t) :
  find (fun m => String.eqb (FunctionalModule.id m) id)
    (filter (fun module => negb (String.eqb (FunctionalModule.id module) id)) modules)
  = None.
Proof.
  induction modules as [|m l IH]; [reflexivity|].
  cbn [filter]. destruct (String.eqb (FunctionalModule.id m) id) eqn:E; cbn [negb].
  - exact IH.
  - cbn [find]. now rewrite E.
Qed.

Lemma hasConnection_filtered_out (design : HabitatDesign.t) (id x : string)
  (connections : list Connection.t) :
  HabitatDesign.connections design
  = filter (fun conn =>
              negb (String.eqb (Connection.fromModuleId conn) id)
              && negb (String.eqb (Connection.toModuleId conn) id))
      connections ->
  HabitatValidator.hasConnection design id x = false.
Proof.
  intros E. unfold HabitatValidator.hasConnection. rewrite E. clear E.
  induction connections as [|c l IH]; [reflexivity|].
  cbn [filter].
  destruct (String.eqb (Connection.fromModuleId c) id) eqn:E1;
    destruct (String.eqb (Connection.toModuleId c) id) eqn:E2;
    cbn [negb andb]; try exact IH.
  cbn [existsb]. cbn beta. rewrite E1, E2. cbn [andb orb]. exact IH.
Qed.

(** X25: after a [removeModule] that completes, the design has no module
    with the removed id, no connection from or to it, and the selection is
    not on it.  The adjacency lists of the other modules are not touched:
    a module that required the removed one still does, and the findings
    hold the warning for it, which names the removed module by its id. *)
Theorem removeModule_removes (s s' : State.t) (design : HabitatDesign.t) (id : string) :
  State.currentDesign s = Some design ->
  HabitatStore.removeModule id s = (s', Ok tt) ->
  exists design',
    State.currentDesign s' = Some design'
    /\ HabitatDesign.modules design'
       = filter (fun module => negb (String.eqb (FunctionalModule.id module) id))
           (HabitatDesign.modules design)
    /\ (forall m, In m (HabitatDesign.modules design') -> FunctionalModule.id m <> id)
    /\ (forall x, HabitatValidator.hasConnection design' id x = false)
    /\ State.selectedModuleId s' <> Some id
    /\ (forall A,
          In A (HabitatDesign.modules design') ->
          In id (FunctionalModule.adjacencyRequirements A) ->
          HabitatValidator.nameOrId design' id = id
          /\ In (HabitatValidator.adjacencyWarning design' A id)
               (State.validationResults s')).
Proof.
  intros E. run_action E.
  destruct (HabitatStore.calculateDesignMetrics _) as [metrics| |] eqn:Hm;
    try discriminate.
  erewrite store_validateDesign by reflexivity.
  match goal with
  | |- context [HabitatValidator.validateDesign ?d] =>
      set (design' := d);
      destruct (HabitatValidator.validateDesign design') as [results| |] eqn:Hv;
      try discriminate
  end.
  intros H. injection H as <-. exists design'.
  cbn [State.currentDesign State.selectedModuleId State.validationResults].
  assert (Hmods : forall m, In m (HabitatDesign.modules design') ->
                            FunctionalModule.id m <> id).
  { intros m Hin. cbn in Hin. apply filter_In in Hin. destruct Hin as [_ Hne].
    apply negb_true_iff in Hne. now apply String.eqb_neq. }
  assert (Hconn : forall x, HabitatValidator.hasConnection design' id x = false).
  { intros x. apply hasConnection_filtered_out with (HabitatDesign.connections design).
    reflexivity. }
  repeat split; try assumption; try reflexivity.
  - destruct (State.selectedModuleId s) as [selected|]; [|discriminate].
    destruct (String.eqb_spec selected id) as [->|Hne]; [discriminate | congruence].
  - unfold HabitatValidator.nameOrId. cbn [HabitatDesign.modules design'].
    unfold design'. cbn. now rewrite find_filtered_out.
  - apply validateModuleRequirements_in with design'; [assumption|].
    apply moduleFindings_in with A; [assumption|].
    unfold HabitatValidator.moduleFindings. rewrite !in_app_iff. left.
    apply in_flat_map. exists id. split; [assumption|].
    rewrite hasConnection_symmetric, Hconn. now left.
Qed.

(** X25, witness: removing B from the design where A requires B. *)
Lemma removeModule_removes_witness :
  exists s' design',
    HabitatStore.removeModule "B" (storeOf requiringDesign) = (s', Ok tt)
    /\ State.currentDesign s' = Some design'
    /\ (forall m, In m (HabitatDesign.modules design') -> FunctionalModule.id m <> "B").
Proof.
  destruct (HabitatStore.removeModule "B" (storeOf requiringDesign)) as [s' out] eqn:E.
  assert (Hout : out = Ok tt).
  { revert E. run_on_cylinder. intros H. now injection H. }
  subst out.
  destruct (removeModule_removes (storeOf requiringDesign) s' requiringDesign "B"
              eq_refl E)
    as (design' & Hcur & _ & Hmods & _).
  exists s', design'. repeat split; assumption.
Defined.

End StoreModules.

(** ** The store: a change of shape *)

Section ShapeSwitch.
Import HabitatDimensions HabitatGeometry.

Lemma falsy_orDefault (o : option R) (d : R) :
  d <> 0 -> falsy (HabitatStore.orDefault o d) = false.
Proof.
  intros Hd. unfold HabitatStore.orDefault.
  destruct (falsy o) eqn:E; [now apply falsy_nonzero | exact E].
Qed.

Lemma or_else_orDefault (o : option R) (d : R) :
  d <> 0 -> or_else (HabitatStore.orDefault o d) d = or_else o d.
Proof.
  intros Hd. unfold HabitatStore.orDefault, falsy.
  destruct (truthy o) eqn:E; [reflexivity|].
  unfold or_else. now rewrite E, truthy_nonzero.
Qed.

Lemma HabitatShape_eqb_neq (a b : HabitatShape) :
  a <> b -> HabitatShape_eqb a b = false.
Proof. destruct a, b; try reflexivity; congruence. Qed.

Lemma newDimensions_switch (current : HabitatDimensions.t)
  (dimensions : DimensionsUpdate.t) (s : HabitatShape) :
  DimensionsUpdate.shape dimensions = Some s ->
  s <> shape current ->
  HabitatStore.newDimensions current dimensions
  = HabitatStore.addDefaults s (HabitatStore.mergeDimensions current dimensions)
  /\ shape (HabitatStore.mergeDimensions current dimensions) = s.
Proof.
  intros Hs Hne. unfold HabitatStore.newDimensions.
  rewrite Hs, (HabitatShape_eqb_neq _ _ Hne). cbn [negb]. split; [reflexivity|].
  unfold HabitatStore.mergeDimensions. cbn [shape]. now rewrite Hs.
Qed.

(** X26: when [updateHabitatDimensions] changes the shape, the dimensions it
    computes have every field of the new shape present and not zero, so the
    surface area throws no exception on them; the defaults it fills in are
    those that [calculateVolume] would take, so they leave the volume as it
    is for the merged dimensions, exception included (a negative value
    carried over from before still throws).  A change to the custom shape
    always throws, and leaves the store as it was. *)
Theorem updateHabitatDimensions_shape_switch (current : HabitatDimensions.t)
  (dimensions : DimensionsUpdate.t) (s : HabitatShape) :
  DimensionsUpdate.shape dimensions = Some s ->
  s <> shape current ->
  shape (HabitatStore.newDimensions current dimensions) = s
  /\ calculateVolume (HabitatStore.newDimensions current dimensions)
     = calculateVolume (HabitatStore.mergeDimensions current dimensions)
  /\ (s <> CUSTOM ->
      existsb falsy (requiredFields (HabitatStore.newDimensions current dimensions)) = false
      /\ forall e,
           calculateSurfaceArea (HabitatStore.newDimensions current dimensions) <> Throw e)
  /\ (s = CUSTOM ->
      forall store design,
        State.currentDesign store = Some design ->
        HabitatDesign.dimensions design = current ->
        HabitatStore.updateHabitatDimensions dimensions store
        = (store, Throw (UnsupportedShape CUSTOM))).
Proof.
  intros Hs Hne.
  destruct (newDimensions_switch current dimensions s Hs Hne) as [Hnew Hshape].
  assert (Hfields :
            s <> CUSTOM ->
            existsb falsy (requiredFields (HabitatStore.newDimensions current dimensions))
            = false).
  { intros Hc. rewrite Hnew.
    destruct (HabitatStore.mergeDimensions current dimensions). cbn [shape] in Hshape.
    subst shape0.
    destruct s; try congruence; unfold HabitatStore.addDefaults, requiredFields;
      cbn [shape radius height sphereRadius majorRadius minorRadius domeRadius
           domeHeight length width depth inflatedRadius inflatedHeight existsb];
      rewrite !falsy_orDefault by lra; reflexivity. }
  assert (Hsh : shape (HabitatStore.newDimensions current dimensions) = s).
  { rewrite Hnew. destruct s; exact Hshape. }
  split; [exact Hsh|]. split; [|split].
  - rewrite Hnew.
    destruct (HabitatStore.mergeDimensions current dimensions). cbn [shape] in Hshape.
    subst shape0.
    destruct s; unfold HabitatStore.addDefaults, calculateVolume;
      cbn [shape radius height sphereRadius majorRadius minorRadius domeRadius
           domeHeight length width depth inflatedRadius inflatedHeight];
      rewrite ?or_else_orDefault by lra; reflexivity.
  - intros Hc. split; [now apply Hfields|].
    intros e He.
    destruct (proj1 (calculateSurfaceArea_throws _) (ex_intro _ e He)) as [H|H].
    + congruence.
    + rewrite (Hfields Hc) in H. discriminate.
  - intros -> store design Hd <-.
    unfold HabitatStore.updateHabitatDimensions, HabitatStore.andThen, HabitatStore.get,
      HabitatStore.lift.
    rewrite Hd.
    assert (Hm : HabitatStore.calculateDesignMetrics
                   (HabitatStore.withDimensions design
                      (HabitatStore.newDimensions (HabitatDesign.dimensions design)
                         dimensions))
                 = Throw (UnsupportedShape CUSTOM)).
    { unfold HabitatStore.calculateDesignMetrics, HabitatStore.withDimensions.
      cbn [HabitatDesign.dimensions]. unfold calculateVolume. now rewrite Hsh. }
    now rewrite Hm.
Qed.

(** X26, witness: the default cylinder changed to a sphere gets the radius
    5 of the switch. *)
Lemma updateHabitatDimensions_shape_switch_witness :
  shape (HabitatStore.newDimensions (cylinder 4 12) (DimensionsUpdate.shapeOnly SPHERE))
  = SPHERE
  /\ existsb falsy
       (requiredFields
          (HabitatStore.newDimensions (cylinder 4 12) (DimensionsUpdate.shapeOnly SPHERE)))
     = false.
Proof.
  pose proof (updateHabitatDimensions_shape_switch (cylinder 4 12)
                (DimensionsUpdate.shapeOnly SPHERE) SPHERE eq_refl
                ltac:(discriminate)) as (H1 & _ & H2 & _).
  split; [exact H1 | apply H2; discriminate].
Defined.

End ShapeSwitch.

(** ** The store: adding a module *)

Section StoreAddModule.




End StoreAddModule.

(** ** The status shown for a score *)

Section Status.
Import HabitatValidator.
Open Scope Z_scope.

Lemma getOverallStatus_status (score : Z) :
  OverallStatus.status (getOverallStatus score)
  = if 80 <=? score then "pass" else if 60 <=? score then "warning" else "fail".
Proof.
  unfold getOverallStatus.
  destruct (Z.leb_spec 90 score), (Z.leb_spec 80 score), (Z.leb_spec 70 score),
    (Z.leb_spec 60 score); try reflexivity; lia.
Qed.

Lemma getOverallStatus_deductions (results : list ValidationResult.t) :
  OverallStatus.status (getOverallStatus (calculateComplianceScore results))
  = if deductions results <=? 20 then "pass"
    else if deductions results <=? 40 then "warning" else "fail".
Proof.
  rewrite getOverallStatus_status, calculateComplianceScore_deductions.
  pose proof (deductions_nonneg results).
  destruct (Z.leb_spec 80 (Z.max 0 (100 - deductions results))),
    (Z.leb_spec 60 (Z.max 0 (100 - deductions results))),
    (Z.leb_spec (deductions results) 20), (Z.leb_spec (deductions results) 40);
    try reflexivity; lia.
Qed.

(** X28: the status that the validation panel shows for the score of a list
    of findings, in terms of the findings: pass when the deductions (15 for
    an error, 5 for a warning, 1 for an information) are at most 20, warning
    when they are above 20 and at most 40, fail above 40.  So one error
    passes, two errors give a warning, three fail. *)
Theorem getOverallStatus_of_findings (results : list ValidationResult.t) :
  let status := OverallStatus.status (getOverallStatus (calculateComplianceScore results)) in
  (status = "pass" <-> deductions results <= 20)
  /\ (status = "warning" <-> 20 < deductions results <= 40)
  /\ (status = "fail" <-> 40 < deductions results).
Proof.
  cbv zeta. rewrite getOverallStatus_deductions.
  destruct (Z.leb_spec (deductions results) 20), (Z.leb_spec (deductions results) 40);
    repeat split; intros; try reflexivity; try discriminate; lia.
Qed.

(** The safety check of a design without modules reports the six essential
    module types as missing: 90 points of deductions, and 15 more when an
    emergency evacuation is asked for a crew. *)
Lemma validateSafetyRequirements_without_modules (design : HabitatDesign.t) :
  HabitatDesign.modules design = [] ->
  90 <= deductions (validateSafetyRequirements design)
  /\ (MissionParameters.emergencyEvacuation (HabitatDesign.missionParameters design) = true ->
      (0 < MissionParameters.crewSize (HabitatDesign.missionParameters design))%R ->
      105 <= deductions (validateSafetyRequirements design)).
Proof.
  intros Hm. unfold validateSafetyRequirements. rewrite Hm.
  cbn [map filter fold_left List.length Nat.ltb Nat.leb andb].
  destruct (gtb _ 30%R);
    destruct (MissionParameters.emergencyEvacuation _);
    try destruct (ltb 0%R _) eqn:El;
    (split; [vm_compute; discriminate|]); intros He Hc;
    try discriminate;
    try (apply ltb_false in El; lra);
    vm_compute; discriminate.
Qed.

Lemma validateDesign_without_modules_deductions (design : HabitatDesign.t)
  (results : list ValidationResult.t) :
  HabitatDesign.modules design = [] ->
  validateDesign design = Ok results ->
  90 <= deductions results
  /\ (MissionParameters.emergencyEvacuation (HabitatDesign.missionParameters design) = true ->
      (0 < MissionParameters.crewSize (HabitatDesign.missionParameters design))%R ->
      105 <= deductions results).
Proof.
  intros Hm H.
  destruct (validateDesign_Ok _ _ H) as (volume & launch & lifeSupport & _ & _ & _ & ->).
  destruct (validateSafetyRequirements_without_modules design Hm) as [H90 H105].
  rewrite !deductions_app.
  pose proof (deductions_nonneg volume). pose proof (deductions_nonneg launch).
  pose proof (deductions_nonneg (validateCrewRequirements design)).
  pose proof (deductions_nonneg (validateModuleRequirements design)).
  pose proof (deductions_nonneg lifeSupport).
  split; [lia|]. intros He Hc. specialize (H105 He Hc). lia.
Qed.

(** X29: a design without modules never scores above 10, and the panel
    shows it as failed: the six essential module types are reported
    missing, an error each.  When an emergency evacuation is asked for a
    crew, the missing evacuation capacity is one error more and the score
    is 0. *)
Theorem validateDesign_without_modules (design : HabitatDesign.t)
  (results : list ValidationResult.t) :
  HabitatDesign.modules design = [] ->
  validateDesign design = Ok results ->
  calculateComplianceScore results <= 10
  /\ OverallStatus.status (getOverallStatus (calculateComplianceScore results)) = "fail"
  /\ (MissionParameters.emergencyEvacuation (HabitatDesign.missionParameters design) = true ->
      (0 < MissionParameters.crewSize (HabitatDesign.missionParameters design))%R ->
      calculateComplianceScore results = 0).
Proof.
  intros Hm H.
  destruct (validateDesign_without_modules_deductions design results Hm H) as [H90 H105].
  rewrite getOverallStatus_deductions, calculateComplianceScore_deductions.
  destruct (Z.leb_spec (deductions results) 20), (Z.leb_spec (deductions results) 40);
    try lia.
  split; [lia|]. split; [reflexivity|].
  intros He Hc. specialize (H105 He Hc). lia.
Qed.

(** X29, witness: the cylinder of the default design, without modules. *)
Lemma validateDesign_without_modules_witness :
  exists results,
    validateDesign (designOf (cylinder 4 12) [] []) = Ok results
    /\ calculateComplianceScore results <= 10.
Proof.
  destruct (validateDesign_returns (designOf (cylinder 4 12) [] [])
              (2 * PI * 4 * (4 + 12))%R)
    as [results Hres];
    [simpl; lra | simpl; lra | apply calculateSurfaceArea_cylinder_4_12 |].
  exists results. split; [assumption|].
  apply (proj1 (validateDesign_without_modules (designOf (cylinder 4 12) [] []) results
                  eq_refl Hres)).
Defined.

Lemma createDefaultDesign_dimensions :
  HabitatDesign.dimensions HabitatStore.createDefaultDesign = cylinder 4 12.
Proof.
  unfold HabitatStore.createDefaultDesign, cylinder. cbn [HabitatDesign.dimensions].
  repeat f_equal; lra.
Qed.

(** X30: [createNewDesign] always completes, whatever the store held.  It
    leaves the default cylinder with its metrics and no module, nothing
    selected, the findings of this design, and the score 0, which the panel
    shows as failed. *)
Theorem createNewDesign_starts_failed (s : State.t) :
  exists s' design,
    HabitatStore.createNewDesign s = (s', Ok tt)
    /\ State.currentDesign s' = Some design
    /\ HabitatDesign.dimensions design = cylinder 4 12
    /\ HabitatDesign.modules design = []
    /\ HabitatDesign.totalVolume design = (PI * Math_pow 4 2 * 12)%R
    /\ State.selectedModuleId s' = None
    /\ validateDesign design = Ok (State.validationResults s')
    /\ State.complianceScore s' = 0
    /\ OverallStatus.status (getOverallStatus (State.complianceScore s')) = "fail".
Proof.
  unfold HabitatStore.createNewDesign, HabitatStore.andThen, HabitatStore.set,
    HabitatStore.lift.
  destruct (cylinder_4_12_returns HabitatStore.createDefaultDesign
              createDefaultDesign_dimensions ltac:(cbn; lra))
    as (metrics & results & Hm & Hv & Hres).
  rewrite Hm.
  erewrite store_validateDesign by reflexivity.
  cbn [State.currentDesign]. rewrite Hres.
  destruct (validateDesign_without_modules_deductions
              (HabitatStore.withMetrics HabitatStore.createDefaultDesign metrics)
              results eq_refl Hres)
    as [_ H105].
  specialize (H105 eq_refl ltac:(cbn; lra)).
  assert (Hscore : calculateComplianceScore results = 0)
    by (rewrite calculateComplianceScore_deductions; lia).
  eexists; eexists. split; [reflexivity|].
  cbn [State.currentDesign State.selectedModuleId State.validationResults
       State.complianceScore].
  split; [reflexivity|]. split; [exact createDefaultDesign_dimensions|].
  split; [reflexivity|].
  split; [exact Hv|]. split; [reflexivity|]. split; [exact Hres|].
  split; [exact Hscore|]. now rewrite Hscore.
Qed.

End Status.
